(** * Max agent runtime: a shallow embedding of the coordination core

    The development follows the Python sources of the repository:

    - [src/skills/__init__.py]   the skill registry ([Skills]),
    - [src/core/event_bus.py]    the publish/subscribe bus ([EventBus]),
    - [src/core/brain.py]        the tool-calling loop ([Brain]),
    - [src/core/thought_engine.py] the thought buffer and cycle ([ThoughtEngine]),
    - [src/core/free_talk.py]    the autonomous speech loop ([FreeTalk]).

    Python [str] values are Rocq strings holding the UTF-8 bytes of the text;
    [int] is [Z]; a [dict] is an insertion-ordered association list; code that
    may raise lives in a state-and-exception monad.  Calls into the Python
    runtime or into external collaborators (the reasoning backend, the skill
    bodies, [repr], [str.strip], [float], the clock) are Section variables. *)

From Stdlib Require Import String Ascii List ZArith QArith Bool Lia Arith DecimalString.
Import ListNotations.
Close Scope Q_scope.
Local Open Scope list_scope.
Local Open Scope string_scope.

Set Implicit Arguments.
Set Warnings "-register-all".

(** ** Python runtime: exceptions, outcomes, dicts, values *)

Module Py.

(** An instance of a subclass of [Exception] (what [except Exception]
    catches): its class name and the text [str(e)] renders. *)
Record exn : Type := mkExn { exn_class : string; exn_str : string }.

Inductive outcome (A : Type) : Type :=
| Return (a : A)
| Raise (e : exn).
Arguments Return {A} a.
Arguments Raise {A} e.

(** Statements that read and write a state [S] and may raise. *)
Definition M (S A : Type) : Type := S -> outcome A * S.

Definition ret {S A} (a : A) : M S A := fun s => (Return a, s).

Definition raise {S A} (e : exn) : M S A := fun s => (Raise e, s).

Definition bind {S A B} (c : M S A) (k : A -> M S B) : M S B :=
  fun s => match c s with
           | (Return a, s') => k a s'
           | (Raise e, s') => (Raise e, s')
           end.

Definition get {S} : M S S := fun s => (Return s, s).

Definition gets {S A} (f : S -> A) : M S A := fun s => (Return (f s), s).

Definition modify {S} (f : S -> S) : M S unit := fun s => (Return tt, f s).

(** [try: body  except Exception as e: handler e].  Mutations made by the
    body before it raised stay visible to the handler. *)
Definition try_except {S A} (body : M S A) (handler : exn -> M S A) : M S A :=
  fun s => match body s with
           | (Return a, s') => (Return a, s')
           | (Raise e, s') => handler e s'
           end.

(** [l.append(x)]. *)
Definition append {A} (l : list A) (x : A) : list A := (l ++ [x])%list.

(** [for x in items: body x]. *)
Fixpoint for_each {S A} (items : list A) (body : A -> M S unit) : M S unit :=
  match items with
  | [] => ret tt
  | x :: rest => bind (body x) (fun _ => for_each rest body)
  end.

(** The newline character and ["sep".join(parts)]. *)
Definition nl : string := String (ascii_of_nat 10) EmptyString.

Fixpoint join (sep : string) (parts : list string) : string :=
  match parts with
  | [] => ""
  | [p] => p
  | p :: rest => p ++ sep ++ join sep rest
  end.

(** [x or default] on strings: the empty string is falsy. *)
Definition str_or (x default : string) : string :=
  match x with
  | EmptyString => default
  | _ => x
  end.

(** [s.startswith(p)]. *)
Fixpoint startswith (p s : string) : bool :=
  match p, s with
  | EmptyString, _ => true
  | String a p', String b s' => Ascii.eqb a b && startswith p' s'
  | String _ _, EmptyString => false
  end.

(** Python values that travel through dicts (payloads, arguments, schemas). *)
Inductive value : Type :=
| VNone
| VBool (b : bool)
| VInt (z : Z)
| VStr (s : string)
| VList (l : list value)
| VDict (d : list (string * value)).

(** Truthiness, as [if v:] tests it. *)
Definition truthy (v : value) : bool :=
  match v with
  | VNone => false
  | VBool b => b
  | VInt z => negb (z =? 0)%Z
  | VStr s => match s with EmptyString => false | _ => true end
  | VList l => match l with [] => false | _ => true end
  | VDict d => match d with [] => false | _ => true end
  end.

(** A [dict] with string keys.  Python dicts keep insertion order, and
    assigning to a key that is present keeps its position. *)
Section Dict.
Context {V : Type}.

Definition dict : Type := list (string * V).

Fixpoint dict_get (k : string) (d : dict) : option V :=
  match d with
  | [] => None
  | (k', v) :: rest => if String.eqb k' k then Some v else dict_get k rest
  end.

Fixpoint dict_set (k : string) (v : V) (d : dict) : dict :=
  match d with
  | [] => [(k, v)]
  | (k', v') :: rest =>
      if String.eqb k' k then (k', v) :: rest
      else (k', v') :: dict_set k v rest
  end.

Definition dict_contains (k : string) (d : dict) : bool :=
  match dict_get k d with
  | Some _ => true
  | None => false
  end.

Definition dict_keys (d : dict) : list string := map fst d.

(** [d.get(k, default)]. *)
Definition dict_get_default (k : string) (default : V) (d : dict) : V :=
  match dict_get k d with
  | Some v => v
  | None => default
  end.
End Dict.
Arguments dict V : clear implicits.

(** [l[-n:]] for a list [l] and an integer [n]: the last [n] items for a
    positive [n], the whole list for [n = 0] (as [-0] is [0]), and the list
    without its first [-n] items for a negative [n]. *)
Definition slice_last {A} (n : Z) (l : list A) : list A :=
  if (0 <? n)%Z then skipn (length l - Z.to_nat n) l
  else skipn (Z.to_nat (- n)) l.

(** [str(n)] of an [int]. *)
Definition str_int (n : Z) : string := NilZero.string_of_int (Z.to_int n).

(** A byte of the form [10xxxxxx] continues a UTF-8 character. *)
Definition is_continuation (a : ascii) : bool :=
  match a with
  | Ascii _ _ _ _ _ _ b6 b7 => b7 && negb b6
  end.

(** [len(s)]: the number of characters (code points) of the text. *)
Fixpoint len (s : string) : nat :=
  match s with
  | EmptyString => 0
  | String a rest => if is_continuation a then len rest else S (len rest)
  end.

(** [s[:n]]: the first [n] characters. *)
Fixpoint str_prefix (n : nat) (s : string) : string :=
  match s with
  | EmptyString => EmptyString
  | String a rest =>
      if is_continuation a then String a (str_prefix n rest)
      else match n with
           | O => EmptyString
           | S n' => String a (str_prefix n' rest)
           end
  end.

(** [s.split(sep)] for a one-byte separator: the pieces, at least one. *)
Fixpoint split_on (sep : ascii) (s : string) : list string :=
  match s with
  | EmptyString => [EmptyString]
  | String a rest =>
      if Ascii.eqb a sep then EmptyString :: split_on sep rest
      else match split_on sep rest with
           | piece :: pieces => String a piece :: pieces
           | [] => [String a EmptyString]
           end
  end.

(** [s.split(sep, 1)[1]]: the text after the first separator; an
    [IndexError] when there is none. *)
Fixpoint after_first (sep : ascii) (s : string) : option string :=
  match s with
  | EmptyString => None
  | String a rest => if Ascii.eqb a sep then Some rest else after_first sep rest
  end.

Definition IndexError : exn := mkExn "IndexError" "list index out of range".

(** A Python [float]: a finite value, held by the rational it denotes, an
    infinity or NaN.  Only comparisons are taken on scores, and those are
    exact on floats. *)
Inductive pyfloat : Type :=
| Finite (q : Q)
| PosInf
| NegInf
| NaN.

Definition Qltb (a b : Q) : bool := negb (Qle_bool b a).

(** [a < b]. *)
Definition float_lt (a b : pyfloat) : bool :=
  match a, b with
  | NaN, _ | _, NaN => false
  | Finite x, Finite y => Qltb x y
  | NegInf, NegInf => false
  | NegInf, _ => true
  | _, NegInf => false
  | PosInf, _ => false
  | Finite _, PosInf => true
  end.

(** [a <= b]. *)
Definition float_le (a b : pyfloat) : bool :=
  match a, b with
  | NaN, _ | _, NaN => false
  | Finite x, Finite y => Qle_bool x y
  | NegInf, _ => true
  | _, PosInf => true
  | _, _ => false
  end.

(** [a > b]. *)
Definition float_gt (a b : pyfloat) : bool := float_lt b a.

(** [min(a, b)]: [b] when [b < a], else [a]. *)
Definition py_min (a b : pyfloat) : pyfloat := if float_lt b a then b else a.

(** [max(items, key=key)] on a non-empty list: a later item replaces the
    current one only when its key is greater. *)
Fixpoint max_from {A} (key : A -> pyfloat) (best : A) (items : list A) : A :=
  match items with
  | [] => best
  | x :: rest => max_from key (if float_gt (key x) (key best) then x else best) rest
  end.

Definition ValueError (msg : string) : exn := mkExn "ValueError" msg.

Definition py_max {A} (key : A -> pyfloat) (items : list A) : outcome A :=
  match items with
  | [] => Raise (ValueError "max() arg is an empty sequence")
  | x :: rest => Return (max_from key x rest)
  end.

(** [s1 in s2] on strings, as a proposition. *)
Definition contains (needle hay : string) : Prop :=
  exists pre post, hay = pre ++ needle ++ post.

End Py.

Export Py.

Declare Scope py_scope.
Notation "x <- c ;; k" := (bind c (fun x => k))
  (at level 61, c at next level, right associativity) : py_scope.
Notation "' pat <- c ;; k" := (bind c (fun pat => k))
  (at level 61, pat pattern, c at next level, right associativity) : py_scope.
Notation "c ;;; k" := (bind c (fun _ => k))
  (at level 61, right associativity) : py_scope.
Local Open Scope py_scope.

(** ** [src/skills/__init__.py]: the skill registry *)

Module Skills.
Section Registry.

(** The world the skill bodies (and later the reasoning backend) act on. *)
Variable W : Type.
(** [repr(s)] of a [str], as the f-string of the unknown-skill error and
    [str(KeyError(msg))] render it. *)
Variable py_repr : string -> string.
(** Whether the calling thread runs an asyncio event loop
    ([asyncio.get_running_loop()] succeeds), and the text [str()] gives for
    the Future that [loop.run_in_executor] returns. *)
Variable running_loop : bool.
Variable future_repr : string.

(** A Python function decorated with [@skill].  [call] runs it on keyword
    arguments (for a coroutine function: runs the coroutine to completion);
    it returns [None] or a value, held here by the text [str(result)]
    renders, or raises.  [is_coroutine_function] is
    [inspect.iscoroutinefunction(func)].  A body acts on the world only: one
    that registers skills while it runs is not covered, and nothing said
    here about the store after [execute] extends to it. *)
Record Callable : Type := {
  call : dict value -> W -> outcome (option string) * W;
  is_coroutine_function : bool
}.

(** An entry of the global [_SKILLS] store. *)
Record SkillInfo : Type := {
  function : Callable;
  description : string;
  parameters : dict value;
  is_async : bool
}.

Definition Store : Type := dict SkillInfo.

(** The default schema [{"type": "object", "properties": {}}]. *)
Definition default_parameters : dict value :=
  [("type", VStr "object"); ("properties", VDict [])].

(** Lines 42-46: the schema stored for a skill. *)
Definition stored_parameters (parameters : option (dict value)) : dict value :=
  let params := match parameters with
                | Some ((_ :: _) as p) => p
                | _ => default_parameters
                end in
  let params := if dict_contains "type" params then params
                else dict_set "type" (VStr "object") params in
  if dict_contains "properties" params then params
  else dict_set "properties" (VDict []) params.

(** The entry a registration stores: lines 48-53. *)
Definition entry (description : string) (parameters : option (dict value))
           (func : Callable) : SkillInfo :=
  {| function := func;
     description := description;
     parameters := stored_parameters parameters;
     is_async := is_coroutine_function func |}.

(** [@skill(name, description, parameters)(func)]: lines 40-57. *)
Definition skill (name description : string) (parameters : option (dict value))
           (func : Callable) (_SKILLS : Store) : Store :=
  dict_set name (entry description parameters func) _SKILLS.

(** One use of the decorator, as a module of the package executes it. *)
Record Registration : Type := {
  reg_name : string;
  reg_description : string;
  reg_parameters : option (dict value);
  reg_func : Callable
}.

Definition register (r : Registration) (_SKILLS : Store) : Store :=
  skill (reg_name r) (reg_description r) (reg_parameters r) (reg_func r) _SKILLS.

Definition register_all (rs : list Registration) (_SKILLS : Store) : Store :=
  fold_left (fun s r => register r s) rs _SKILLS.

(** A module of the [skills] package: its name and the decorators its
    import runs, in order (an import that fails is caught by [discover];
    the decorators that ran before the failure stay registered). *)
Record PyModule : Type := {
  module_name : string;
  module_registrations : list Registration
}.

Variable package : list PyModule.

(** The [SkillRegistry] singleton together with the module-level store. *)
Record Registry : Type := {
  _SKILLS : Store;
  _discovered : bool
}.

Definition import_module (m : PyModule) (s : Store) : Store :=
  if startswith "_" (module_name m) then s
  else register_all (module_registrations m) s.

(** [SkillRegistry.discover]. *)
Definition discover (r : Registry) : Registry :=
  if _discovered r then r
  else {| _SKILLS := fold_left (fun s m => import_module m s) package (_SKILLS r);
          _discovered := true |}.

(** [SkillRegistry.list_skills]: name, description and schema per skill. *)
Definition list_skills (r : Registry) : dict (string * dict value) * Registry :=
  let r := discover r in
  (map (fun '(name, info) => (name, (description info, parameters info))) (_SKILLS r), r).

(** [str(l)] of a list of [str]. *)
Definition list_repr (l : list string) : string :=
  "[" ++ join ", " (map py_repr l) ++ "]".

(** The message of the [KeyError] for an unregistered name. *)
Definition unknown_skill_message (name : string) (available : list string) : string :=
  "Unknown skill: '" ++ name ++ "'. Available: " ++ list_repr (firstn 10 available)
    ++ (if (10 <? length available)%nat then "..." else "").

(** [KeyError(msg)]; [str()] of a [KeyError] is the [repr] of its argument. *)
Definition KeyError (msg : string) : exn := mkExn "KeyError" (py_repr msg).

(** Lines 111-122: the call itself.  A coroutine function called while an
    event loop runs is handed to a thread pool; the [with] block waits for
    it, but [result] is the Future, so what the coroutine returned or raised
    is not seen here. *)
Definition invoke (info : SkillInfo) (arguments : dict value) : M W (option string) :=
  if is_async info then
    if running_loop then
      fun w => let '(_, w') := call (function info) arguments w in
               (Return (Some future_repr), w')
    else call (function info) arguments
  else call (function info) arguments.

(** [SkillRegistry.execute]: lines 95-127.  The [except] clause logs and
    re-raises, so an exception of the skill body reaches the caller. *)
Definition execute (name : string) (arguments : option (dict value))
  : M (Registry * W) string :=
  fun '(r, w) =>
    let r := discover r in
    match dict_get name (_SKILLS r) with
    | None =>
        (Raise (KeyError (unknown_skill_message name (dict_keys (_SKILLS r)))), (r, w))
    | Some info =>
        let arguments := match arguments with
                         | Some ((_ :: _) as a) => a
                         | _ => []
                         end in
        match invoke info arguments w with
        | (Return result, w') =>
            (Return (match result with Some s => s | None => "Done." end), (r, w'))
        | (Raise e, w') => (Raise e, (r, w'))
        end
    end.

(** Two stores that answer every lookup alike, and two stores that do so
    for every name but one. *)
Definition same_lookups (s1 s2 : Store) : Prop :=
  forall k, dict_get k s1 = dict_get k s2.

Definition same_lookups_except (name : string) (s1 s2 : Store) : Prop :=
  forall k, k <> name -> dict_get k s1 = dict_get k s2.

End Registry.
End Skills.

(** ** [src/core/event_bus.py]: the publish/subscribe bus *)

Module EventBus.
Section Bus.

(** A task scheduled on the asyncio event loop. *)
Variable Task : Type.

Definition Payload : Type := dict value.

(** A subscribed handler.  [handler_id] is the identity of the callable
    (what [handler in list] and [list.remove] compare); [spawn data] is the
    expression [asyncio.create_task(handler(data))]: it raises when calling
    the handler raises or when what it returns cannot be scheduled. *)
Record Handler : Type := {
  handler_id : nat;
  spawn : Payload -> outcome Task
}.

(** The bus, with the two effects [publish] has outside of its own fields:
    the tasks handed to the event loop and the lines written to the
    logger at level ERROR. *)
Record Bus : Type := {
  _subscribers : dict (list Handler);
  _state : dict Payload;
  loop_tasks : list Task;
  error_log : list string
}.

Definition set_subscribers (subs : dict (list Handler)) (b : Bus) : Bus :=
  {| _subscribers := subs; _state := _state b;
     loop_tasks := loop_tasks b; error_log := error_log b |}.

Definition set_state (st : dict Payload) (b : Bus) : Bus :=
  {| _subscribers := _subscribers b; _state := st;
     loop_tasks := loop_tasks b; error_log := error_log b |}.

Definition schedule (t : Task) (b : Bus) : Bus :=
  {| _subscribers := _subscribers b; _state := _state b;
     loop_tasks := append (loop_tasks b) t; error_log := error_log b |}.

Definition log_error (line : string) (b : Bus) : Bus :=
  {| _subscribers := _subscribers b; _state := _state b;
     loop_tasks := loop_tasks b; error_log := append (error_log b) line |}.

Definition EventBus : Bus :=
  {| _subscribers := []; _state := []; loop_tasks := []; error_log := [] |}.

(** [self._subscribers[topic]] on the [defaultdict(list)]: a missing topic
    is created with an empty list. *)
Definition subscribers_item (topic : string) (b : Bus) : list Handler * Bus :=
  match dict_get topic (_subscribers b) with
  | Some hs => (hs, b)
  | None => ([], set_subscribers (dict_set topic [] (_subscribers b)) b)
  end.

Definition subscribe (topic : string) (handler : Handler) (b : Bus) : Bus :=
  let '(hs, b) := subscribers_item topic b in
  set_subscribers (dict_set topic (append hs handler) (_subscribers b)) b.

Definition handler_in (h : Handler) (hs : list Handler) : bool :=
  existsb (fun h' => Nat.eqb (handler_id h') (handler_id h)) hs.

(** [list.remove]: the first equal item goes. *)
Fixpoint remove_first (h : Handler) (hs : list Handler) : list Handler :=
  match hs with
  | [] => []
  | h' :: rest => if Nat.eqb (handler_id h') (handler_id h) then rest
                  else h' :: remove_first h rest
  end.

Definition unsubscribe (topic : string) (handler : Handler) (b : Bus) : Bus :=
  let '(hs, b) := subscribers_item topic b in
  if handler_in handler hs
  then set_subscribers (dict_set topic (remove_first handler hs) (_subscribers b)) b
  else b.

(** The body of the [for] loop of [publish]: lines 50-53. *)
Definition notify (topic : string) (data : Payload) (handler : Handler) : M Bus unit :=
  try_except
    (fun b => match spawn handler data with
              | Return t => (Return tt, schedule t b)
              | Raise e => (Raise e, b)
              end)
    (fun e => modify (log_error ("Handler error on '" ++ topic ++ "': " ++ exn_str e)%string)).

(** [EventBus.publish]: lines 44-53. *)
Definition publish (topic : string) (data : Payload) : M Bus unit :=
  modify (fun b => set_state (dict_set topic data (_state b)) b) ;;;
  handlers <- gets (fun b => dict_get_default topic [] (_subscribers b)) ;;
  for_each handlers (notify topic data).

Definition get_state (topic : string) (b : Bus) : option Payload :=
  dict_get topic (_state b).

Definition get_all_state (b : Bus) : dict Payload := _state b.

Definition clear (b : Bus) : Bus :=
  set_state [] (set_subscribers [] b).

(** The tasks a list of handlers hands to the loop for a payload, and the
    lines logged for those of them that raise, both in subscription order. *)
Definition spawned (data : Payload) (handlers : list Handler) : list Task :=
  flat_map (fun h => match spawn h data with
                     | Return t => [t]
                     | Raise _ => []
                     end) handlers.

Definition handler_error (topic : string) (e : exn) : string :=
  "Handler error on '" ++ topic ++ "': " ++ exn_str e.

Definition failures (topic : string) (data : Payload) (handlers : list Handler)
  : list string :=
  flat_map (fun h => match spawn h data with
                     | Return _ => []
                     | Raise e => [handler_error topic e]
                     end) handlers.


End Bus.
End EventBus.

(** ** [src/core/brain.py]: the orchestrator and its tool-calling loop *)

Module Brain.
Section Orchestrator.

(** The world of the skills and the state of the reasoning backend. *)
Variables W B : Type.
Variable py_repr : string -> string.
Variable running_loop : bool.
Variable future_repr : string.
Variable package : list (Skills.PyModule W).

Record Message : Type := { role : string; content : string }.

(** A requested invocation: [{"name": ..., "arguments": ...}]. *)
Record ToolCall : Type := {
  tc_name : string;
  tc_arguments : option (dict value)
}.

(** What every backend adapter returns:
    [{"content": ..., "tool_calls": [...]}]. *)
Record Response : Type := {
  resp_content : string;
  tool_calls : list ToolCall
}.

Record ToolDef : Type := {
  td_name : string;
  td_description : string;
  td_parameters : dict value
}.

(** [{"tool": name, "result": text, "success": flag}]. *)
Record CapabilityResult : Type := {
  tool : string;
  result : string;
  success : bool
}.

(** The fields of [MaxConfig] the orchestrator reads. *)
Record Config : Type := {
  system_prompt : string;
  max_history : Z;
  max_concurrent_tools : Z
}.

Variable config : Config.
(** [self.skill_registry] is set (it holds the registry singleton). *)
Variable skill_registry : bool.
(** [Brain._chat]: one query of the configured backend, which returns the
    normalised response or raises, and moves to its next state. *)
Variable _chat : list Message -> list ToolDef -> B -> outcome Response * B.
(** [core.memory.get_user_context()] and the sensor lines read from the
    bus by [_build_messages]; both catch their own failures. *)
Variable get_user_context : W -> string.
Variable live_sensor_parts : W -> list string.

(** What the orchestrator did, in order: a ghost record kept to state how
    many rounds ran and which responses arrived. *)
Inductive Event : Type :=
| Queried (r : outcome Response)
| Dispatched (results : list CapabilityResult).

Record State : Type := {
  conversation_history : list Message;
  registry : Skills.Registry W;
  world : W;
  backend : B;
  trace : list Event
}.

Definition set_history (h : list Message) (s : State) : State :=
  {| conversation_history := h; registry := registry s; world := world s;
     backend := backend s; trace := trace s |}.

Definition set_registry_world (rw : Skills.Registry W * W) (s : State) : State :=
  {| conversation_history := conversation_history s; registry := fst rw;
     world := snd rw; backend := backend s; trace := trace s |}.

Definition set_backend (b : B) (s : State) : State :=
  {| conversation_history := conversation_history s; registry := registry s;
     world := world s; backend := b; trace := trace s |}.

Definition record_event (e : Event) (s : State) : State :=
  {| conversation_history := conversation_history s; registry := registry s;
     world := world s; backend := backend s; trace := append (trace s) e |}.

(** [self._chat(messages, tools)]. *)
Definition chat (messages : list Message) (tools : list ToolDef) : M State Response :=
  fun s => let '(r, b') := _chat messages tools (backend s) in
           (r, record_event (Queried r) (set_backend b' s)).

(** [self.skill_registry.execute(name, args)]. *)
Definition registry_execute (name : string) (args : option (dict value))
  : M State string :=
  fun s => let '(r, rw) := Skills.execute py_repr running_loop future_repr package
                             name args (registry s, world s) in
           (r, set_registry_world rw s).

(** [_get_tool_definitions]: lines 85-99. *)
Definition _get_tool_definitions : M State (list ToolDef) :=
  if skill_registry then
    fun s => let '(skills, r) := Skills.list_skills package (registry s) in
             (Return (map (fun '(name, (descr, params)) =>
                             {| td_name := name; td_description := descr;
                                td_parameters := params |}) skills),
              set_registry_world (r, world s) s)
  else ret [].

(** The body of the [for] loop of [_execute_tool_calls]: lines 310-324. *)
Definition execute_tool_call (call : ToolCall) : M State CapabilityResult :=
  let name := tc_name call in
  let args := tc_arguments call in
  if negb skill_registry then
    ret {| tool := name; result := "No skill registry."; success := false |}
  else
    try_except
      (output <- registry_execute name args ;;
       ret {| tool := name; result := output; success := true |})
      (fun e =>
         let error_msg := "Error: " ++ name ++ ": " ++ exn_str e in
         ret {| tool := name; result := error_msg; success := false |}).

Fixpoint execute_tool_calls_from (tool_calls : list ToolCall)
         (results : list CapabilityResult) : M State (list CapabilityResult) :=
  match tool_calls with
  | [] => ret results
  | call :: rest =>
      r <- execute_tool_call call ;;
      execute_tool_calls_from rest (append results r)
  end.

(** [Brain._execute_tool_calls]: lines 306-326. *)
Definition _execute_tool_calls (tool_calls : list ToolCall)
  : M State (list CapabilityResult) :=
  results <- execute_tool_calls_from tool_calls [] ;;
  modify (record_event (Dispatched results)) ;;;
  ret results.

(** [_build_messages]: lines 330-375. *)
Definition _build_messages : M State (list Message) :=
  fun s =>
    let system_content := system_prompt config in
    let user_ctx := get_user_context (world s) in
    let system_content :=
      match user_ctx with
      | EmptyString => system_content
      | _ => system_content ++ nl ++ nl ++ "User context:" ++ nl ++ user_ctx
      end in
    let parts := live_sensor_parts (world s) in
    let system_content :=
      match parts with
      | [] => system_content
      | _ => system_content ++ nl ++ nl ++ "--- LIVE SENSOR DATA ---" ++ nl
               ++ join nl parts
      end in
    (Return ({| role := "system"; content := system_content |}
               :: slice_last (max_history config * 2) (conversation_history s)),
     s).

(** [_trim_history]: lines 520-524. *)
Definition _trim_history : M State unit :=
  modify (fun s =>
    let max_entries := (max_history config * 2)%Z in
    if (max_entries <? Z.of_nat (length (conversation_history s)))%Z
    then set_history (slice_last max_entries (conversation_history s)) s
    else s).

(** The check mark and the cross of the tool summary (UTF-8). *)
Definition check_mark : string := "✅".
Definition cross_mark : string := "❌".

Definition summary_line (r : CapabilityResult) : string :=
  "[Tool: " ++ tool r ++ "] " ++ (if success r then check_mark else cross_mark)
    ++ " " ++ result r.

(** The [while] loop of [think]: lines 390-400.  [left] is
    [max_concurrent_tools - iteration], so that [iteration <
    max_concurrent_tools] reads [left = S _]. *)
Fixpoint tool_loop (left : nat) (iteration : Z) (response : Response)
         (messages : list Message) (tools : list ToolDef)
  : M State (Z * Response * list Message) :=
  match tool_calls response, left with
  | _ :: _, S left' =>
      let iteration := (iteration + 1)%Z in
      tool_results <- _execute_tool_calls (tool_calls response) ;;
      let tool_summary := join nl (map summary_line tool_results) in
      let messages :=
        append messages
          {| role := "assistant";
             content := str_or (resp_content response) "(calling tools)" |} in
      let messages :=
        append messages
          {| role := "user"; content := "Tool results:" ++ nl ++ tool_summary |} in
      response <- chat messages tools ;;
      tool_loop left' iteration response messages tools
  | _, _ => ret (iteration, response, messages)
  end.

(** The [try] block of [think]: lines 388-408. *)
Definition think_try (messages : list Message) (tools : list ToolDef)
  : M State string :=
  response <- chat messages tools ;;
  let iteration := 0%Z in
  '(iteration, response, messages) <-
     tool_loop (Z.to_nat (max_concurrent_tools config - iteration))
               iteration response messages tools ;;
  let final := str_or (resp_content response) "Action completed." in
  modify (fun s => set_history
                     (append (conversation_history s)
                             {| role := "assistant"; content := final |}) s) ;;;
  _trim_history ;;;
  ret final.

(** [Brain.think]: lines 379-413.  [log_chat] and [log_command] write to
    files of their own and catch every failure; they are left out. *)
Definition think (user_input : string) : M State string :=
  modify (fun s => set_history
                     (append (conversation_history s)
                             {| role := "user"; content := user_input |}) s) ;;;
  messages <- _build_messages ;;
  tools <- _get_tool_definitions ;;
  try_except
    (think_try messages tools)
    (fun e =>
       let error := "Error while thinking: " ++ exn_str e in
       ret error).

(** Rounds of tool execution and backend responses in a trace. *)
Definition rounds (t : list Event) : nat :=
  length (filter (fun e => match e with Dispatched _ => true | _ => false end) t).

Fixpoint responses (t : list Event) : list Response :=
  match t with
  | [] => []
  | Queried (Return r) :: t' => r :: responses t'
  | _ :: t' => responses t'
  end.

(** A backend state from which the next [k] queries each request at least
    one invocation and the query after them requests none, whatever the
    messages and the tools are. *)
Fixpoint requests_for (k : nat) (b : B) : Prop :=
  forall messages tools,
  exists r b', _chat messages tools b = (Return r, b') /\
    match k with
    | O => tool_calls r = []
    | S k' => tool_calls r <> [] /\ requests_for k' b'
    end.

(** What a response still asks for: nothing when [k = 0], else invocations
    now and on the [k - 1] queries that follow from backend state [b]. *)
Definition pending (k : nat) (r : Response) (b : B) : Prop :=
  match k with
  | O => tool_calls r = []
  | S k' => tool_calls r <> [] /\ requests_for k' b
  end.

(** One round as the body of the [while] loop runs it, lines 392-400, apart
    from the test of the bound: the calls of the response at hand are
    dispatched, and the backend is queried with the messages grown by the
    results. *)
Definition loop_round (response : Response) (messages : list Message)
           (tools : list ToolDef) : M State (Response * list Message) :=
  tool_results <- _execute_tool_calls (tool_calls response) ;;
  let tool_summary := join nl (map summary_line tool_results) in
  let messages :=
    append messages
      {| role := "assistant";
         content := str_or (resp_content response) "(calling tools)" |} in
  let messages :=
    append messages
      {| role := "user"; content := "Tool results:" ++ nl ++ tool_summary |} in
  response <- chat messages tools ;;
  ret (response, messages).

(** The response at hand and the [k] queries that follow it in this turn:
    the response and the first [k - 1] of these queries request invocations,
    the [k]-th query requests none, and none of them raises.  The queries are
    those of the loop body run round after round, each on the messages and in
    the state the rounds before it have left, whether or not the bound of the
    loop lets [think] go that far; what the backend would say to other
    messages does not count. *)
Fixpoint asks_from (k : nat) (response : Response) (messages : list Message)
         (tools : list ToolDef) (s : State) : Prop :=
  match k with
  | O => tool_calls response = []
  | S k' =>
      tool_calls response <> [] /\
      match loop_round response messages tools s with
      | (Return (response', messages'), s') => asks_from k' response' messages' tools s'
      | (Raise _, _) => False
      end
  end.

(** [think] up to its first query: lines 381-388. *)
Definition first_query (user_input : string)
  : M State (Response * list Message * list ToolDef) :=
  modify (fun s => set_history
                     (append (conversation_history s)
                             {| role := "user"; content := user_input |}) s) ;;;
  messages <- _build_messages ;;
  tools <- _get_tool_definitions ;;
  response <- chat messages tools ;;
  ret (response, messages, tools).

(** In the turn that [user_input] starts in state [s], the backend requests
    invocations on queries 1..k and none on query k+1. *)
Definition asks_on_queries (k : nat) (user_input : string) (s : State) : Prop :=
  match first_query user_input s with
  | (Return (response, messages, tools), s1) => asks_from k response messages tools s1
  | (Raise _, _) => False
  end.

(** The events a call of [think] added to the trace of [s], seen from the
    state [s'] it ended in. *)
Definition added (s s' : State) (evs : list Event) : Prop :=
  trace s' = (trace s ++ evs)%list.

(** The last response of a trace. *)
Definition final_response (t : list Event) : option Response :=
  last (map Some (responses t)) None.

(** The keyword arguments [SkillRegistry.execute] passes to the executor:
    [arguments or {}]. *)
Definition passed_arguments (call : ToolCall) : dict value :=
  match tc_arguments call with
  | Some ((_ :: _) as a) => a
  | _ => []
  end.

(** Whether the executor of a skill is handed to a thread pool: a coroutine
    function, called while an event loop runs in the calling thread. *)
Definition handed_to_pool (info : Skills.SkillInfo W) : bool :=
  Skills.is_async info && running_loop.

(** What dispatching one call leaves behind: a result named after the call
    that tells, with its flag and text, what the executor of the named skill
    did in the state the call found.  An executor that returns gives
    [success = true] and its text; one that raises gives [success = false]
    and the text of the exception, unless it was handed to a thread pool:
    then the result is [success = true] with the text of the Future,
    whatever the executor did. *)
Definition call_outcome (s : State) (call : ToolCall) (r : CapabilityResult)
           (s' : State) : Prop :=
  tool r = tc_name call /\
  if skill_registry then
    let known := Skills.discover package (registry s) in
    match dict_get (tc_name call) (Skills._SKILLS known) with
    | None =>
        let e := Skills.KeyError py_repr
                   (Skills.unknown_skill_message py_repr (tc_name call)
                      (dict_keys (Skills._SKILLS known))) in
        s' = set_registry_world (known, world s) s /\
        success r = false /\
        result r = "Error: " ++ tc_name call ++ ": " ++ exn_str e /\
        contains (exn_str e) (result r)
    | Some info =>
        let ran := Skills.call (Skills.function info) (passed_arguments call) (world s) in
        s' = set_registry_world (known, snd ran) s /\
        if handed_to_pool info then
          success r = true /\ result r = future_repr
        else
          match fst ran with
          | Return value =>
              success r = true /\
              result r = match value with Some text => text | None => "Done." end
          | Raise e =>
              success r = false /\
              result r = "Error: " ++ tc_name call ++ ": " ++ exn_str e /\
              contains (exn_str e) (result r)
          end
    end
  else s' = s /\ success r = false /\ result r = "No skill registry.".

(** The calls of a list dispatched one after the other, each from the state
    its predecessor left, whether that one failed or not. *)
Inductive dispatched : State -> list ToolCall -> list CapabilityResult -> State -> Prop :=
| dispatched_nil s : dispatched s [] [] s
| dispatched_cons s call r s1 rest rs s2 :
    call_outcome s call r s1 ->
    dispatched s1 rest rs s2 ->
    dispatched s (call :: rest) (r :: rs) s2.

End Orchestrator.
End Brain.

(** ** [src/core/thought_engine.py]: the thought buffer and the thought cycle *)

Module ThoughtEngine.

(** A thought, as [_add_thought] builds it. *)
Record Thought : Type := {
  id : string;
  content : string;
  category : string;
  speak_score : pyfloat;
  timestamp : string;
  timestamp_epoch : Q;
  spoken : bool
}.

Definition _MAX_THOUGHTS : nat := 100.

Definition THOUGHT_CATEGORIES : dict pyfloat :=
  [ ("observation", Finite (7 # 10));
    ("analysis", Finite (4 # 10));
    ("opinion", Finite (8 # 10));
    ("plan", Finite (5 # 10));
    ("curiosity", Finite (9 # 10));
    ("environmental", Finite (6 # 10));
    ("reflection", Finite (3 # 10));
    ("alert", Finite 1) ].

(** What one call of [_add_thought] reads from the clock and from the random
    generator: [now().strftime('%H%M%S')], [random.randint(100, 999)],
    [now().isoformat()] and [now().timestamp()]. *)
Record Stamp : Type := {
  hms : string;
  rand : Z;
  iso : string;
  epoch : Q
}.

(** [get_thoughts(count)]. *)
Definition get_thoughts (count : Z) (_THOUGHTS : list Thought) : list Thought :=
  slice_last count _THOUGHTS.

(** [get_latest_thought()]. *)
Definition get_latest_thought (_THOUGHTS : list Thought) : option Thought :=
  last (map Some _THOUGHTS) None.

(** The filter of [get_speakable_thoughts]: lines 55-57. *)
Definition speakable (cutoff : Q) (t : Thought) : bool :=
  Qltb cutoff (timestamp_epoch t)
  && float_gt (speak_score t) (Finite (5 # 10))
  && negb (spoken t).

(** [get_speakable_thoughts(since_seconds)], called at time [now]. *)
Definition get_speakable_thoughts (since_seconds : Z) (now : Q)
           (_THOUGHTS : list Thought) : list Thought :=
  let cutoff := (now - inject_Z since_seconds)%Q in
  filter (speakable cutoff) _THOUGHTS.

Definition set_spoken (t : Thought) : Thought :=
  {| id := id t; content := content t; category := category t;
     speak_score := speak_score t; timestamp := timestamp t;
     timestamp_epoch := timestamp_epoch t; spoken := true |}.

(** [mark_thought_spoken(thought_id)]: the first thought with that id. *)
Fixpoint mark_thought_spoken (thought_id : string) (_THOUGHTS : list Thought)
  : list Thought :=
  match _THOUGHTS with
  | [] => []
  | t :: rest =>
      if String.eqb (id t) thought_id then set_spoken t :: rest
      else t :: mark_thought_spoken thought_id rest
  end.

(** [while len(_THOUGHTS) > _MAX_THOUGHTS: _THOUGHTS.pop(0)]. *)
Fixpoint evict (_THOUGHTS : list Thought) : list Thought :=
  match _THOUGHTS with
  | [] => []
  | _ :: rest => if (_MAX_THOUGHTS <? length _THOUGHTS)%nat then evict rest
                 else _THOUGHTS
  end.

(** The dict built by [_add_thought]: lines 72-80. *)
Definition new_thought (content category : string) (speak_score : pyfloat)
           (clock : Stamp) : Thought :=
  {| id := "t_" ++ hms clock ++ "_" ++ str_int (rand clock);
     content := content;
     category := category;
     speak_score := py_min speak_score (Finite 1);
     timestamp := iso clock;
     timestamp_epoch := epoch clock;
     spoken := false |}.

(** [_add_thought(content, category, speak_score)]: lines 70-86. *)
Definition _add_thought (content category : string) (speak_score : pyfloat)
           (clock : Stamp) (_THOUGHTS : list Thought) : Thought * list Thought :=
  let thought := new_thought content category speak_score clock in
  (thought, evict (append _THOUGHTS thought)).

(** A call of [_add_thought]: its arguments and what it reads. *)
Record Arrival : Type := {
  a_content : string;
  a_category : string;
  a_speak_score : pyfloat;
  a_clock : Stamp
}.

Definition thought_of (a : Arrival) : Thought :=
  new_thought (a_content a) (a_category a) (a_speak_score a) (a_clock a).

Definition arrive (ts : list Thought) (a : Arrival) : list Thought :=
  snd (_add_thought (a_content a) (a_category a) (a_speak_score a) (a_clock a) ts).

(** The two writers of the buffer, and the buffers they can produce from
    the empty list the module starts with. *)
Inductive BufferOp : Type :=
| Add (a : Arrival)
| Mark (thought_id : string).

Definition apply_op (ts : list Thought) (op : BufferOp) : list Thought :=
  match op with
  | Add a => arrive ts a
  | Mark thought_id => mark_thought_spoken thought_id ts
  end.

Definition run_ops (ops : list BufferOp) : list Thought :=
  fold_left apply_op ops [].

Section Engine.

Variables W B Task : Type.
Variable _chat : list (Brain.Message) -> list (Brain.ToolDef) -> B
                 -> outcome (Brain.Response) * B.
Variable system_prompt : string.
(** [str.strip], [str.upper], [str.lower] and [float(text)] ([None] for a
    [ValueError]). *)
Variables py_strip py_upper py_lower : string -> string.
Variable py_float : string -> option pyfloat.
(** [str(v)] of a value and [hash(s)] of a text. *)
Variable py_str : value -> string.
Variable py_hash : string -> Z.
(** The two f-strings of [_deep_think] that index into bus payloads
    (lines 192 and 198-202); both raise on a payload of another shape. *)
Variable format_detections : value -> outcome string.
Variable format_system : value -> outcome string.

(** The dict built by [_gather_context]. *)
Record Context : Type := {
  cycle : Z;
  time : string;
  sentinel : dict (dict value);
  recent_conversation : option (list Brain.Message);
  recent_thoughts : list string
}.

(** The engine, the shared buffer, the brain it was given (if any) and
    the bus singleton. *)
Record State : Type := {
  _THOUGHTS : list Thought;
  _cycle_count : Z;
  _last_context_hash : string;
  brain : option (Brain.State W B);
  bus : EventBus.Bus Task
}.

Definition set_thoughts (ts : list Thought) (s : State) : State :=
  {| _THOUGHTS := ts; _cycle_count := _cycle_count s;
     _last_context_hash := _last_context_hash s; brain := brain s; bus := bus s |}.

Definition set_cycle_count (n : Z) (s : State) : State :=
  {| _THOUGHTS := _THOUGHTS s; _cycle_count := n;
     _last_context_hash := _last_context_hash s; brain := brain s; bus := bus s |}.

Definition set_last_context_hash (h : string) (s : State) : State :=
  {| _THOUGHTS := _THOUGHTS s; _cycle_count := _cycle_count s;
     _last_context_hash := h; brain := brain s; bus := bus s |}.

Definition set_brain (b : option (Brain.State W B)) (s : State) : State :=
  {| _THOUGHTS := _THOUGHTS s; _cycle_count := _cycle_count s;
     _last_context_hash := _last_context_hash s; brain := b; bus := bus s |}.

Definition add_thought (content category : string) (speak_score : pyfloat)
           (clock : Stamp) : M State Thought :=
  fun s => let '(t, ts) := _add_thought content category speak_score clock (_THOUGHTS s) in
           (Return t, set_thoughts ts s).

(** The topics read by [_gather_context] and the key each is stored under
    ([topic.split(".")[-1]]). *)
Definition sentinel_topics : list (string * string) :=
  [ ("sentinel.camera", "camera"); ("sentinel.yolo", "yolo");
    ("sentinel.system", "system"); ("sentinel.usb", "usb") ].

(** The dict [_gather_context] builds in state [s]: lines 148-172; [now] is
    [strftime("%H:%M:%S")]. *)
Definition gather (now : string) (s : State) : Context :=
  let sentinel_state :=
    fold_left
      (fun acc '(topic, key) =>
         match EventBus.get_state topic (bus s) with
         | Some ((_ :: _) as state) => dict_set key state acc
         | _ => acc
         end)
      sentinel_topics [] in
  {| cycle := _cycle_count s;
     time := now;
     sentinel := sentinel_state;
     recent_conversation :=
       match brain s with
       | Some br => Some (slice_last 5 (Brain.conversation_history br))
       | None => None
       end;
     recent_thoughts := map content (get_thoughts 5 (_THOUGHTS s)) |}.

(** [_gather_context]: lines 146-174. *)
Definition _gather_context (now : string) : M State Context :=
  gets (gather now).

(** [sentinel.get("yolo", {}).get("detections", [])]. *)
Definition detections_of (context : Context) : value :=
  dict_get_default "detections" (VList [])
    (dict_get_default "yolo" [] (sentinel context)).

(** Lines 181-223: the prompt.  It is built before the [try] block. *)
Definition build_prompt (context : Context) : outcome string :=
  let parts := [ "Current time: " ++ time context;
                 "Thought cycle #" ++ str_int (cycle context) ] in
  let detections := detections_of context in
  match (if truthy detections
         then match format_detections detections with
              | Return objs => Return (append parts ("Camera sees: " ++ objs))
              | Raise e => Raise e
              end
         else Return parts) with
  | Raise e => Raise e
  | Return parts =>
      let sys_data := dict_get_default "data" (VDict [])
                        (dict_get_default "system" [] (sentinel context)) in
      match (if truthy sys_data
             then match format_system sys_data with
                  | Return line => Return (append parts line)
                  | Raise e => Raise e
                  end
             else Return parts) with
      | Raise e => Raise e
      | Return parts =>
          let recent_conv := match recent_conversation context with
                             | Some c => c
                             | None => []
                             end in
          let parts :=
            match recent_conv with
            | [] => parts
            | _ =>
                let msgs := map (fun m => Brain.role m ++ ": "
                                            ++ str_prefix 100 (Brain.content m))
                                (slice_last 3 recent_conv) in
                append parts ("Recent dialogue:" ++ nl ++ join nl msgs)
            end in
          let recent := recent_thoughts context in
          let parts :=
            match recent with
            | [] => parts
            | _ => append parts ("DO NOT REPEAT: " ++ join "; " (slice_last 3 recent))
            end in
          let context_str := join nl parts in
          Return ("[AUTONOMOUS THOUGHT CYCLE]" ++ nl
                  ++ "You are Max, thinking freely. Based on context, produce ONE thought." ++ nl
                  ++ "Be raw, genuine, opinionated, curious, or analytical." ++ nl
                  ++ "Category: observation, analysis, opinion, plan, curiosity, environmental, reflection, alert" ++ nl
                  ++ "Format:" ++ nl ++ "CATEGORY: <category>" ++ nl
                  ++ "SPEAK_SCORE: <0.0-1.0>" ++ nl ++ "THOUGHT: <1-2 sentences>" ++ nl ++ nl
                  ++ "Context:" ++ nl ++ context_str)
      end
  end.

(** The three values the parsing loop updates. *)
Record Parsed : Type := {
  p_category : string;
  p_speak_score : pyfloat;
  p_thought_text : string
}.

(** [line.split(":", 1)[1].strip()]. *)
Definition field_value (line : string) : outcome string :=
  match after_first ":" line with
  | Some v => Return (py_strip v)
  | None => Raise IndexError
  end.

(** The body of the [for line in content.split("\n")] loop: lines 238-249. *)
Definition parse_line (p : Parsed) (line : string) : outcome Parsed :=
  let line := py_strip line in
  if startswith "CATEGORY:" (py_upper line) then
    match field_value line with
    | Raise e => Raise e
    | Return v =>
        let cat := py_lower v in
        if dict_contains cat THOUGHT_CATEGORIES
        then Return {| p_category := cat; p_speak_score := p_speak_score p;
                       p_thought_text := p_thought_text p |}
        else Return p
    end
  else if startswith "SPEAK_SCORE:" (py_upper line) then
    match field_value line with
    | Raise e => Raise e
    | Return v =>
        match py_float v with
        | Some x => Return {| p_category := p_category p; p_speak_score := x;
                              p_thought_text := p_thought_text p |}
        | None => Return p
        end
    end
  else if startswith "THOUGHT:" (py_upper line) then
    match field_value line with
    | Raise e => Raise e
    | Return v => Return {| p_category := p_category p;
                            p_speak_score := p_speak_score p;
                            p_thought_text := v |}
    end
  else Return p.

Fixpoint parse_lines (p : Parsed) (lines : list string) : outcome Parsed :=
  match lines with
  | [] => Return p
  | line :: rest =>
      match parse_line p line with
      | Return p' => parse_lines p' rest
      | Raise e => Raise e
      end
  end.

(** Lines 233-249 on the reply text. *)
Definition parse_reply (content : string) : outcome Parsed :=
  parse_lines {| p_category := "observation";
                 p_speak_score := Finite (5 # 10);
                 p_thought_text := py_strip content |}
              (split_on (ascii_of_nat 10) content).

(** [self.brain._chat(messages, tools=[])] on the brain the engine holds. *)
Definition brain_chat (messages : list Brain.Message) : M State Brain.Response :=
  fun s => match brain s with
           | Some br =>
               let '(r, br') := Brain.chat _chat messages [] br in
               (r, set_brain (Some br') s)
           | None => (Raise (mkExn "AttributeError"
                               "'NoneType' object has no attribute '_chat'"), s)
           end.

(** The two messages of lines 226-229. *)
Definition thought_messages (prompt : string) : list Brain.Message :=
  [ {| Brain.role := "system"; Brain.content := system_prompt |};
    {| Brain.role := "user"; Brain.content := prompt |} ].

(** [_deep_think(context)]: lines 176-255. *)
Definition _deep_think (context : Context) (clock : Stamp) : M State unit :=
  fun s =>
    match brain s with
    | None => (Return tt, s)
    | Some _ =>
        match build_prompt context with
        | Raise e => (Raise e, s)
        | Return prompt =>
            try_except
              (let messages := thought_messages prompt in
               response <- brain_chat messages ;;
               let content := Brain.resp_content response in
               p <- (fun s => (parse_reply content, s)) ;;
               let thought_text := p_thought_text p in
               if (match thought_text with EmptyString => false | _ => true end)
                  && (5 <? len thought_text)%nat
               then add_thought thought_text (p_category p) (p_speak_score p) clock ;;;
                    ret tt
               else ret tt)
              (fun e => ret tt)
              s
        end
    end.

(** The fingerprint of line 138. *)
Definition context_hash (context : Context) : string :=
  str_int (py_hash (py_str (detections_of context))).

(** [_run_thought_cycle]: lines 130-144. *)
Definition _run_thought_cycle (now : string) (clock : Stamp) : M State unit :=
  context <- _gather_context now ;;
  s <- get ;;
  match brain s with
  | None => ret tt
  | Some _ =>
      let ctx_hash := context_hash context in
      if String.eqb ctx_hash (_last_context_hash s)
         && negb (_cycle_count s mod 3 =? 0)%Z
      then ret tt
      else
        modify (set_last_context_hash ctx_hash) ;;;
        _deep_think context clock
  end.

(** [self._cycle_count += 1]: line 123. *)
Definition next_cycle (s : State) : State :=
  set_cycle_count (_cycle_count s + 1)%Z s.

(** The [except] clause of [_think_loop]: lines 125-127. *)
Definition internal_error (error_clock : Stamp) (e : exn) : M State unit :=
  add_thought ("Internal error: " ++ exn_str e) "alert" (Finite (2 # 10))
              error_clock ;;;
  ret tt.

(** One pass of the [while] loop of [_think_loop]: lines 122-127.  [clock]
    is read by a thought the cycle adds, [error_clock] by the thought the
    [except] clause adds. *)
Definition think_loop_pass (now : string) (clock error_clock : Stamp) : M State unit :=
  try_except
    (modify next_cycle ;;;
     _run_thought_cycle now clock)
    (internal_error error_clock).

End Engine.
End ThoughtEngine.

(** ** [src/core/free_talk.py]: the autonomous speech loop *)

Module FreeTalk.
Import ThoughtEngine.

(** The fields of a [FreeTalkController]; [speaker] tells whether a speaker
    was given. *)
Record Controller : Type := {
  speaker : bool;
  min_interval : Z;
  _running : bool;
  _last_spoke : Q;
  _user_speaking : bool;
  _paused : bool
}.

(** [FreeTalkController(speaker, min_interval)]. *)
Definition FreeTalkController (speaker : bool) (min_interval : Z) : Controller :=
  {| speaker := speaker; min_interval := min_interval; _running := false;
     _last_spoke := 0; _user_speaking := false; _paused := false |}.

Definition set_paused (p : bool) (c : Controller) : Controller :=
  {| speaker := speaker c; min_interval := min_interval c; _running := _running c;
     _last_spoke := _last_spoke c; _user_speaking := _user_speaking c; _paused := p |}.

Definition set_user_speaking (u : bool) (c : Controller) : Controller :=
  {| speaker := speaker c; min_interval := min_interval c; _running := _running c;
     _last_spoke := _last_spoke c; _user_speaking := u; _paused := _paused c |}.

Definition set_last_spoke (t : Q) (c : Controller) : Controller :=
  {| speaker := speaker c; min_interval := min_interval c; _running := _running c;
     _last_spoke := t; _user_speaking := _user_speaking c; _paused := _paused c |}.

Definition pause : Controller -> Controller := set_paused true.
Definition resume : Controller -> Controller := set_paused false.
Definition notify_user_speaking : Controller -> Controller := set_user_speaking true.
Definition notify_user_done : Controller -> Controller := set_user_speaking false.

(** The controller and the thought buffer it shares with the engine. *)
Record State : Type := {
  controller : Controller;
  _THOUGHTS : list Thought
}.

(** What one pass of the loop takes from outside: the clock at lines 75, 82
    (inside [get_speakable_thoughts]) and 108, the [_user_speaking] flag as
    line 90 reads it (the main thread may have set it since line 70), what
    [speaker.speak_blocking] does with a text, and the thoughts the engine
    adds while the speech plays. *)
Record PassEnv : Type := {
  now_throttle : Q;
  now_filter : Q;
  user_speaking_at_pick : bool;
  speak_blocking : string -> outcome unit;
  arrivals : list Arrival;
  now_done : Q
}.

(** Which way a pass went (a ghost value: the loop body returns nothing). *)
Inductive Pass : Type :=
| Suppressed
| Throttled
| NothingToSay
| Interrupted (best : Thought)
| NoContent (best : Thought)
| SpeechFailed (best : Thought) (e : exn)
| Spoke (best : Thought).

(** The thought a pass selected on line 88, if it got there. *)
Definition selected (p : Pass) : option Thought :=
  match p with
  | Interrupted best | NoContent best | SpeechFailed best _ | Spoke best => Some best
  | _ => None
  end.

(** The candidates of line 82. *)
Definition candidates (env : PassEnv) (s : State) : list Thought :=
  get_speakable_thoughts (min_interval (controller s) + 10) (now_filter env) (_THOUGHTS s).

(** One pass of the [while] loop of [_talk_loop]: lines 69-112. *)
Definition talk_pass (env : PassEnv) (s : State) : Pass * State :=
  let c := controller s in
  if _paused c || _user_speaking c then (Suppressed, s)
  else if Qltb (now_throttle env - _last_spoke c) (inject_Z (min_interval c))
  then (Throttled, s)
  else
    match candidates env s with
    | [] => (NothingToSay, s)
    | first :: others =>
        let best := max_from speak_score first others in
        if user_speaking_at_pick env then (Interrupted best, s)
        else
          match content best with
          | EmptyString => (NoContent best, s)
          | text =>
              let ts := fold_left arrive (arrivals env) (_THOUGHTS s) in
              match (if speaker c then speak_blocking env text else Return tt) with
              | Raise e => (SpeechFailed best e, {| controller := c; _THOUGHTS := ts |})
              | Return _ =>
                  (Spoke best,
                   {| controller := set_last_spoke (now_done env) c;
                      _THOUGHTS := mark_thought_spoken (id best) ts |})
              end
          end
    end.

(** The passes the [while] loop of [_talk_loop] makes on what it is given
    from outside, one item per pass: what each pass did, and the state the
    last one left.  The sleeps between passes show in the clocks only. *)
Fixpoint _talk_loop (envs : list PassEnv) (s : State) : list Pass * State :=
  match envs with
  | [] => ([], s)
  | env :: rest =>
      let '(p, s1) := talk_pass env s in
      let '(ps, s2) := _talk_loop rest s1 in
      (p :: ps, s2)
  end.

End FreeTalk.

(** ** [src/core/brain.py]: streaming and the one-shot queries *)

Module BrainStream.
Section Streaming.
Import Brain.

Variables W B : Type.
Variable py_repr : string -> string.
Variable running_loop : bool.
Variable future_repr : string.
Variable package : list (Skills.PyModule W).
Variable config : Config.
Variable skill_registry : bool.
Variable _chat : list Message -> list ToolDef -> B -> outcome Response * B.
Variable get_user_context : W -> string.
Variable live_sensor_parts : W -> list string.
Variable py_strip : string -> string.
(** [Brain._stream_dispatch(messages)], consumed to its end: the fragments
    the backend yields, the exception that ends the stream if one does, and
    the next state of the backend. *)
Variable _stream_dispatch : list Message -> B -> (list string * option exn) * B.

Abbreviation State := (Brain.State W B).

(** A generator body: statements over the orchestrator's state and the
    fragments yielded so far. *)
Definition Gen (A : Type) : Type := M (State * list string) A.

Definition lift {A} (c : M State A) : Gen A :=
  fun '(s, out) => let '(r, s') := c s in (r, (s', out)).

(** [yield chunk]. *)
Definition yield_ (chunk : string) : Gen unit :=
  modify (fun '(s, out) => (s, append out chunk)).

(** [final = ""] followed by [final += chunk] for each fragment. *)
Definition accumulate (chunks : list string) : string :=
  fold_left (fun final chunk => final ++ chunk) chunks "".

(** Lines 445-448: the [else] branch, which relays the stream. *)
Definition relay_stream (messages : list Message) : Gen string :=
  fun '(s, out) =>
    let '((chunks, failure), b') := _stream_dispatch messages (backend s) in
    let s' := set_backend b' s in
    match failure with
    | None => (Return (accumulate chunks), (s', (out ++ chunks)%list))
    | Some e => (Raise e, (s', (out ++ chunks)%list))
    end.

(** The [try] block of [think_stream]: lines 425-453. *)
Definition think_stream_try (messages : list Message) (tools : list ToolDef)
  : Gen unit :=
  response <- lift (chat _chat messages tools) ;;
  let iteration := 0%Z in
  '(iteration, response, messages) <-
     lift (tool_loop py_repr running_loop future_repr package skill_registry _chat
                     (Z.to_nat (max_concurrent_tools config - iteration))
                     iteration response messages tools) ;;
  final <- (if (0 <? iteration)%Z
            then
              let final := str_or (resp_content response) "Action completed." in
              yield_ final ;;; ret final
            else relay_stream messages) ;;
  lift (modify (fun s => set_history
                           (append (conversation_history s)
                                   {| role := "assistant"; content := final |}) s)) ;;;
  lift (_trim_history config).

(** The body of [Brain.think_stream]: lines 415-458. *)
Definition think_stream_body (user_input : string) : Gen unit :=
  lift (modify (fun s => set_history
                           (append (conversation_history s)
                                   {| role := "user"; content := user_input |}) s)) ;;;
  messages <- lift (_build_messages config get_user_context live_sensor_parts) ;;
  tools <- lift (_get_tool_definitions package skill_registry) ;;
  try_except
    (think_stream_try messages tools)
    (fun e =>
       let error := "Error: " ++ exn_str e in
       yield_ error).

(** [list(brain.think_stream(user_input))]: the fragments a caller that
    exhausts the generator receives, and the state it leaves. *)
Definition think_stream (user_input : string) (s : State)
  : outcome unit * list string * State :=
  let '(r, (s', out)) := think_stream_body user_input (s, []) in
  (r, out, s').

(** The [try]/[except] shared by [autonomous_think] and [free_speak]:
    lines 539-543 and 611-615. *)
Definition one_shot (prompt : string) : M State string :=
  let messages := [ {| role := "system"; content := system_prompt config |};
                    {| role := "user"; content := prompt |} ] in
  try_except
    (response <- chat _chat messages [] ;;
     ret (py_strip (resp_content response)))
    (fun e => ret "").

(** [Brain.autonomous_think]: lines 533-543. *)
Definition autonomous_think (context_str : string) : M State string :=
  one_shot context_str.

(** [Brain.free_speak]: lines 599-615; [None] and the empty text are falsy. *)
Definition free_speak (topic : option string) : M State string :=
  let prompt :=
    match topic with
    | Some ((String _ _) as t) =>
        "Say something brief and interesting about: " ++ t
          ++ ". 1-2 sentences. Be opinionated."
    | _ =>
        "Make a brief spontaneous comment, observation, or question. "
          ++ "1-2 sentences. Be interesting."
    end in
  one_shot prompt.

(** [Brain.reset_memory]: lines 526-529. *)
Definition reset_memory : M State unit :=
  modify (set_history []).

(** [SkillRegistry.get_tool_definitions]: lines 129-142 of
    [src/skills/__init__.py]. *)
Definition get_tool_definitions (r : Skills.Registry W)
  : list ToolDef * Skills.Registry W :=
  let r := Skills.discover package r in
  (map (fun '(name, info) =>
          {| td_name := name;
             td_description := Skills.description info;
             td_parameters := Skills.parameters info |})
       (Skills._SKILLS r),
   r).

(** What [_trim_history] leaves of a history. *)
Definition trimmed (history : list Message) : list Message :=
  let max_entries := (max_history config * 2)%Z in
  if (max_entries <? Z.of_nat (length history))%Z
  then slice_last max_entries history
  else history.

End Streaming.
End BrainStream.

(** ** Concrete instances used to exercise the model *)

Module Examples.
Import ThoughtEngine.

Definition noon : Stamp :=
  {| hms := "120000"; rand := 500; iso := "2025-01-01T12:00:00"; epoch := 1000 |}.

(** 150 calls of [_add_thought], numbered through their random suffix. *)
Definition arrivals_150 : list Arrival :=
  map (fun n => {| a_content := "Something moved near the door.";
                   a_category := "observation";
                   a_speak_score := Finite (7 # 10);
                   a_clock := {| hms := "120000"; rand := Z.of_nat n;
                                 iso := "2025-01-01T12:00:00";
                                 epoch := inject_Z (Z.of_nat n) |} |})
      (seq 100 150).

(** [repr] on printable texts without backslashes that do not hold both
    kinds of quotes: double quotes are used when the text holds a single
    quote. *)
Definition double_quote : string := String (ascii_of_nat 34) EmptyString.

Fixpoint has_single_quote (s : string) : bool :=
  match s with
  | EmptyString => false
  | String a rest => Ascii.eqb a "'"%char || has_single_quote rest
  end.

Definition quote (s : string) : string :=
  if has_single_quote s then double_quote ++ s ++ double_quote
  else "'" ++ s ++ "'".

(** A skill that tells the time and one that always fails. *)
Definition get_time : Skills.Callable unit :=
  {| Skills.call := fun _ w => (Return (Some "12:00"), w);
     Skills.is_coroutine_function := false |}.

Definition broken : Skills.Callable unit :=
  {| Skills.call := fun _ w => (Raise (mkExn "RuntimeError" "disk on fire"), w);
     Skills.is_coroutine_function := false |}.

Definition empty_registry : Skills.Registry unit :=
  {| Skills._SKILLS := []; Skills._discovered := true |}.

(** A scripted backend: its state is the list of replies still to give. *)
Definition scripted (messages : list Brain.Message) (tools : list Brain.ToolDef)
           (script : list (outcome Brain.Response))
  : outcome Brain.Response * list (outcome Brain.Response) :=
  match script with
  | [] => (Raise {| exn_class := "ConnectionError";
                    exn_str := "backend unreachable" |}, [])
  | reply :: rest => (reply, rest)
  end.

Definition config (cap : Z) : Brain.Config :=
  {| Brain.system_prompt := "You are Max.";
     Brain.max_history := 10;
     Brain.max_concurrent_tools := cap |}.

(** A registry holding [get_time] and [broken]. *)
Definition two_skills : Skills.Registry unit :=
  {| Skills._SKILLS :=
       Skills.skill "broken" "Always fails." None broken
         (Skills.skill "get_time" "Returns the time." None get_time []);
     Skills._discovered := true |}.

Definition fresh_brain (script : list (outcome Brain.Response))
  : Brain.State unit (list (outcome Brain.Response)) :=
  {| Brain.conversation_history := [];
     Brain.registry := two_skills;
     Brain.world := tt;
     Brain.backend := script;
     Brain.trace := [] |}.

Definition ask (name : string) : Brain.ToolCall :=
  {| Brain.tc_name := name; Brain.tc_arguments := None |}.

(** [Brain.think] and [Brain._execute_tool_calls] on these instances. *)
Definition think (cap : Z) :=
  Brain.think (W := unit) quote false "" [] (config cap) true scripted
              (fun _ => "") (fun _ => []).

Definition dispatch :=
  Brain._execute_tool_calls (W := unit) (B := list (outcome Brain.Response))
                            quote false "" [] true.





Definition unreachable : exn := mkExn "ConnectionError" "backend unreachable".

(** Replies of the backend: one without text, one that asks for the time
    and the answer that follows it. *)
Definition silent_reply : Brain.Response :=
  {| Brain.resp_content := ""; Brain.tool_calls := [] |}.

Definition time_request : Brain.Response :=
  {| Brain.resp_content := "wait"; Brain.tool_calls := [ask "get_time"] |}.

Definition time_answer : Brain.Response :=
  {| Brain.resp_content := "It is noon."; Brain.tool_calls := [] |}.

(** A backend without a state of its own, which answers by what it is
    shown: it asks for the time, and gives the answer once the last message
    carries tool results. *)
Definition reactive (messages : list Brain.Message) (tools : list Brain.ToolDef)
           (b : unit) : outcome Brain.Response * unit :=
  match rev messages with
  | m :: _ =>
      if startswith "Tool results:" (Brain.content m) then (Return time_answer, tt)
      else (Return time_request, tt)
  | [] => (Return time_request, tt)
  end.

Definition reactive_brain : Brain.State unit unit :=
  {| Brain.conversation_history := [];
     Brain.registry := two_skills;
     Brain.world := tt;
     Brain.backend := tt;
     Brain.trace := [] |}.

Definition think_reactive (cap : Z) :=
  Brain.think (W := unit) quote false "" [] (config cap) true reactive
              (fun _ => "") (fun _ => []).

(** The backend requests invocations on queries 1..k and none on query k+1
    of the turn that [user_input] starts. *)
Definition scripted_asks (cap : Z) :=
  Brain.asks_on_queries (W := unit) quote false "" [] (config cap) true scripted
                        (fun _ => "") (fun _ => []).

Definition reactive_asks (cap : Z) :=
  Brain.asks_on_queries (W := unit) quote false "" [] (config cap) true reactive
                        (fun _ => "") (fun _ => []).

(** A bus whose topic [sentinel.yolo] has a handler that cannot be started
    and one that can; tasks are named by a text. *)
Definition failing_handler : EventBus.Handler string :=
  {| EventBus.handler_id := 1;
     EventBus.spawn := fun _ => Raise (mkExn "TypeError" "a coroutine was expected") |}.

Definition mirror_handler : EventBus.Handler string :=
  {| EventBus.handler_id := 2;
     EventBus.spawn := fun _ => Return "mirror task" |}.

Definition bus : EventBus.Bus string :=
  EventBus.subscribe "sentinel.yolo" mirror_handler
    (EventBus.subscribe "sentinel.yolo" failing_handler (EventBus.EventBus string)).



Definition person_seen : EventBus.Payload :=
  [("detections", VList [VDict [("object", VStr "person"); ("confidence", VInt 1)]])].

(** ASCII instances of the string methods and of [float], for replies
    written in ASCII with plain decimal scores. *)
Definition is_space (a : ascii) : bool :=
  existsb (Ascii.eqb a)
          [" "%char; ascii_of_nat 9; ascii_of_nat 10; ascii_of_nat 11;
           ascii_of_nat 12; ascii_of_nat 13].

Fixpoint lstrip (s : string) : string :=
  match s with
  | EmptyString => EmptyString
  | String a rest => if is_space a then lstrip rest else s
  end.

Definition reverse (s : string) : string :=
  string_of_list_ascii (rev (list_ascii_of_string s)).

Definition strip (s : string) : string := reverse (lstrip (reverse (lstrip s))).

Fixpoint map_chars (f : ascii -> ascii) (s : string) : string :=
  match s with
  | EmptyString => EmptyString
  | String a rest => String (f a) (map_chars f rest)
  end.

Definition upper : string -> string :=
  map_chars (fun a => let n := nat_of_ascii a in
                      if (97 <=? n)%nat && (n <=? 122)%nat then ascii_of_nat (n - 32)
                      else a).

Definition lower : string -> string :=
  map_chars (fun a => let n := nat_of_ascii a in
                      if (65 <=? n)%nat && (n <=? 90)%nat then ascii_of_nat (n + 32)
                      else a).

Fixpoint take_digits (s : string) (acc : Z) (count : nat) : Z * nat * string :=
  match s with
  | EmptyString => (acc, count, EmptyString)
  | String a rest =>
      let n := nat_of_ascii a in
      if (48 <=? n)%nat && (n <=? 57)%nat
      then take_digits rest (acc * 10 + Z.of_nat (n - 48))%Z (S count)
      else (acc, count, s)
  end.

Definition unsigned_decimal (s : string) : option Q :=
  let '(i, ni, rest) := take_digits s 0 0 in
  match rest with
  | EmptyString => if (ni =? 0)%nat then None else Some (inject_Z i)
  | String "."%char frac =>
      let '(f, nf, rest') := take_digits frac i 0 in
      match rest' with
      | EmptyString => if (ni + nf =? 0)%nat then None
                       else Some (Qmake f (Z.to_pos (10 ^ Z.of_nat nf)))
      | _ => None
      end
  | _ => None
  end.

Definition parse_float (s : string) : option pyfloat :=
  match s with
  | String "-"%char rest => option_map (fun q => Finite (Qopp q)) (unsigned_decimal rest)
  | _ => if String.eqb s "nan" then Some NaN
         else if String.eqb s "inf" then Some PosInf
         else option_map Finite (unsigned_decimal s)
  end.

(** A rendering of values and a hash of texts. *)
Fixpoint render (v : value) : string :=
  match v with
  | VNone => "None"
  | VBool b => if b then "True" else "False"
  | VInt z => str_int z
  | VStr s => quote s
  | VList l => "[" ++ join ", " (map render l) ++ "]"
  | VDict d => "{" ++ join ", " (map (fun kv => quote (fst kv) ++ ": " ++ render (snd kv)) d)
                   ++ "}"
  end.

Fixpoint hash_from (h : Z) (s : string) : Z :=
  match s with
  | EmptyString => h
  | String a rest => hash_from ((h * 31 + Z.of_nat (nat_of_ascii a)) mod 2 ^ 61)%Z rest
  end.

Definition hash : string -> Z := hash_from 7.

(** [str(v)]: a text is itself, any other value is rendered. *)
Definition to_str (v : value) : string :=
  match v with
  | VStr s => s
  | _ => render v
  end.

(** [v[key]] for a text [key]. *)
Definition subscript (v : value) (key : string) : outcome value :=
  match v with
  | VDict fields =>
      match dict_get key fields with
      | Some x => Return x
      | None => Raise (mkExn "KeyError" (quote key))
      end
  | VStr _ => Raise (mkExn "TypeError" "string indices must be integers, not 'str'")
  | VList _ => Raise (mkExn "TypeError" "list indices must be integers or slices, not str")
  | VInt _ => Raise (mkExn "TypeError" "'int' object is not subscriptable")
  | VBool _ => Raise (mkExn "TypeError" "'bool' object is not subscriptable")
  | VNone => Raise (mkExn "TypeError" "'NoneType' object is not subscriptable")
  end.

(** [format(v, ".0%")].  Payload values are [None], bools, ints, texts,
    lists and dicts; an int is given for absolute values below 10^13, which
    its conversion to float keeps exact. *)
Definition percent (v : value) : outcome string :=
  match v with
  | VInt n => Return (str_int (n * 100) ++ "%")
  | VBool b => Return (if b then "100%" else "0%")
  | VStr _ =>
      Raise (mkExn "ValueError" "Unknown format code '%' for object of type 'str'")
  | VNone =>
      Raise (mkExn "TypeError" "unsupported format string passed to NoneType.__format__")
  | VList _ =>
      Raise (mkExn "TypeError" "unsupported format string passed to list.__format__")
  | VDict _ =>
      Raise (mkExn "TypeError" "unsupported format string passed to dict.__format__")
  end.

(** The f-string of line 192 for one detection: the object, then the
    confidence in whole percents between brackets. *)
Definition format_detection (d : value) : outcome string :=
  match subscript d "object" with
  | Raise e => Raise e
  | Return object =>
      match subscript d "confidence" with
      | Raise e => Raise e
      | Return confidence =>
          match percent confidence with
          | Raise e => Raise e
          | Return shown => Return (to_str object ++ "(" ++ shown ++ ")")
          end
      end
  end.

(** Line 192: the first eight detections, formatted and joined; the first
    detection that cannot be formatted raises. *)
Definition format_detections (v : value) : outcome string :=
  match v with
  | VList l =>
      match fold_left
              (fun acc d =>
                 match acc with
                 | Raise e => Raise e
                 | Return texts =>
                     match format_detection d with
                     | Return text => Return (append texts text)
                     | Raise e => Raise e
                     end
                 end)
              (firstn 8 l) (Return []) with
      | Return texts => Return (join ", " texts)
      | Raise e => Raise e
      end
  | VStr _ => Raise (mkExn "TypeError" "string indices must be integers, not 'str'")
  | VDict _ => Raise (mkExn "TypeError" "unhashable type: 'slice'")
  | VInt _ => Raise (mkExn "TypeError" "'int' object is not subscriptable")
  | VBool _ => Raise (mkExn "TypeError" "'bool' object is not subscriptable")
  | VNone => Raise (mkExn "TypeError" "'NoneType' object is not subscriptable")
  end.

(** [sys_data.get(key, '?')], formatted. *)
Definition shown_or_unknown (fields : dict value) (key : string) : string :=
  match dict_get key fields with
  | Some v => to_str v
  | None => "?"
  end.

(** Lines 198-202: the line about the system. *)
Definition format_system (v : value) : outcome string :=
  match v with
  | VDict fields =>
      Return ("System: CPU " ++ shown_or_unknown fields "cpu" ++ "%, "
                ++ "RAM " ++ shown_or_unknown fields "ram" ++ "%, "
                ++ "Battery " ++ shown_or_unknown fields "battery")
  | VStr _ => Raise (mkExn "AttributeError" "'str' object has no attribute 'get'")
  | VList _ => Raise (mkExn "AttributeError" "'list' object has no attribute 'get'")
  | VInt _ => Raise (mkExn "AttributeError" "'int' object has no attribute 'get'")
  | VBool _ => Raise (mkExn "AttributeError" "'bool' object has no attribute 'get'")
  | VNone => Raise (mkExn "AttributeError" "'NoneType' object has no attribute 'get'")
  end.

(** The engine with a scripted brain, on a bus that saw a person. *)
Definition engine (cycles : Z) (last_hash : string)
           (script : list (outcome Brain.Response))
  : ThoughtEngine.State unit (list (outcome Brain.Response)) string :=
  {| ThoughtEngine._THOUGHTS := [];
     ThoughtEngine._cycle_count := cycles;
     ThoughtEngine._last_context_hash := last_hash;
     ThoughtEngine.brain := Some (fresh_brain script);
     ThoughtEngine.bus :=
       EventBus.set_state [("sentinel.yolo", person_seen)] bus |}.

Definition think_loop_pass :=
  ThoughtEngine.think_loop_pass (W := unit) (Task := string) scripted "You are Max."
    strip upper lower parse_float render hash format_detections format_system.

Definition gather :=
  ThoughtEngine.gather (W := unit) (B := list (outcome Brain.Response)) (Task := string).

(** A reply with a category and a score, but a thought of two letters. *)
Definition short_reply : Brain.Response :=
  {| Brain.resp_content := "CATEGORY: alert" ++ nl ++ "SPEAK_SCORE: 0.9" ++ nl
                             ++ "THOUGHT: hi";
     Brain.tool_calls := [] |}.

Definition dark_reply : Brain.Response :=
  {| Brain.resp_content := "CATEGORY: Opinion" ++ nl ++ "SPEAK_SCORE: -0.5" ++ nl
                             ++ "THOUGHT: The room is too dark.";
     Brain.tool_calls := [] |}.

(** Two thoughts added within the same second that drew the same random
    suffix: an internal error and, after it, an observation worth saying. *)
Definition error_arrival : ThoughtEngine.Arrival :=
  {| ThoughtEngine.a_content := "Internal error: 'confidence'";
     ThoughtEngine.a_category := "alert";
     ThoughtEngine.a_speak_score := Finite (2 # 10);
     ThoughtEngine.a_clock := noon |}.

Definition door_arrival : ThoughtEngine.Arrival :=
  {| ThoughtEngine.a_content := "Someone is at the door.";
     ThoughtEngine.a_category := "observation";
     ThoughtEngine.a_speak_score := Finite (9 # 10);
     ThoughtEngine.a_clock :=
       {| ThoughtEngine.hms := "120000"; ThoughtEngine.rand := 500;
          ThoughtEngine.iso := "2025-01-01T12:00:00.600"; ThoughtEngine.epoch := 1000.6 |} |}.

Definition window_arrival : ThoughtEngine.Arrival :=
  {| ThoughtEngine.a_content := "The window is open.";
     ThoughtEngine.a_category := "environmental";
     ThoughtEngine.a_speak_score := Finite (6 # 10);
     ThoughtEngine.a_clock :=
       {| ThoughtEngine.hms := "120001"; ThoughtEngine.rand := 731;
          ThoughtEngine.iso := "2025-01-01T12:00:01"; ThoughtEngine.epoch := 1001 |} |}.

(** A controller with a speaker and the default interval of the
    configuration, on a buffer built by the given calls of [_add_thought]. *)
Definition talker (adds : list ThoughtEngine.Arrival) : FreeTalk.State :=
  {| FreeTalk.controller := FreeTalk.FreeTalkController true 20;
     FreeTalk._THOUGHTS := fold_left ThoughtEngine.arrive adds [] |}.

(** A pass that starts at time [t], speaks for three seconds and is not
    disturbed. *)
Definition quiet_pass (t : Q) : FreeTalk.PassEnv :=
  {| FreeTalk.now_throttle := t;
     FreeTalk.now_filter := t;
     FreeTalk.user_speaking_at_pick := false;
     FreeTalk.speak_blocking := fun _ => Return tt;
     FreeTalk.arrivals := [];
     FreeTalk.now_done := Qplus t 3 |}.

End Examples.

(** ** [src/core/speak.py], [src/main.py]: speaking a streamed answer *)

Module Main.

(** [s[len(p):]] when [s.startswith(p)]. *)
Fixpoint strip_prefix (p s : string) : option string :=
  match p, s with
  | EmptyString, _ => Some s
  | String a p', String b s' => if Ascii.eqb a b then strip_prefix p' s' else None
  | String _ _, EmptyString => None
  end.

(** [s.split(p, 1)] when [p in s]: the text before the first occurrence of
    [p] and the text after it; [None] when [p] does not occur. *)
Fixpoint split_first (p s : string) : option (string * string) :=
  match strip_prefix p s with
  | Some rest => Some (EmptyString, rest)
  | None =>
      match s with
      | EmptyString => None
      | String a s' =>
          match split_first p s' with
          | Some (before, after) => Some (String a before, after)
          | None => None
          end
      end
  end.

(** [p in s] on strings. *)
Definition py_in (p s : string) : bool :=
  match split_first p s with
  | Some _ => true
  | None => false
  end.

Section Chunking.

Variable py_strip : string -> string.

(** [Speaker.speak(text)], [speak.py] lines 219-222, on the speech queue:
    a text that is empty, or empty once stripped, is not queued. *)
Definition speak (text : string) (_speech_queue : list string) : list string :=
  match text with
  | EmptyString => _speech_queue
  | _ => match py_strip text with
         | EmptyString => _speech_queue
         | stripped => append _speech_queue stripped
         end
  end.

(** The boundaries, in the order the loop tries them. *)
Definition boundaries : list string := [". "; "! "; "? "; nl].

(** Lines 106-113: the first boundary of the list that occurs in the
    buffer splits it at its first occurrence; what is spoken and what stays
    in the buffer. *)
Fixpoint flush_at (ps : list string) (sentence_buffer : string)
  : option (string * string) :=
  match ps with
  | [] => None
  | p :: rest =>
      match split_first p sentence_buffer with
      | Some (before, after) =>
          let sentence := before ++ py_strip p in
          Some (py_strip sentence, after)
      | None => flush_at rest sentence_buffer
      end
  end.

(** The local variables of [stream_and_speak] and the speech queue. *)
Record Locals : Type := {
  sentence_buffer : string;
  full_response : string;
  _speech_queue : list string
}.

(** The body of the [for chunk in ...] loop: lines 101-113 ([print] writes
    to the terminal only). *)
Definition on_chunk (l : Locals) (chunk : string) : Locals :=
  let full_response := full_response l ++ chunk in
  let sentence_buffer := sentence_buffer l ++ chunk in
  match flush_at boundaries sentence_buffer with
  | Some (spoken, rest) =>
      {| sentence_buffer := rest; full_response := full_response;
         _speech_queue := speak spoken (_speech_queue l) |}
  | None =>
      {| sentence_buffer := sentence_buffer; full_response := full_response;
         _speech_queue := _speech_queue l |}
  end.

(** Lines 96-121 on the chunks the generator yields. *)
Definition speak_chunks (chunks : list string) (queue : list string)
  : string * list string :=
  let l := fold_left on_chunk chunks
             {| sentence_buffer := EmptyString; full_response := EmptyString;
                _speech_queue := queue |} in
  let queue := match py_strip (sentence_buffer l) with
               | EmptyString => _speech_queue l
               | stripped => speak stripped (_speech_queue l)
               end in
  (full_response l, queue).

Section WithBrain.

Variables W B : Type.
Variable py_repr : string -> string.
Variable running_loop : bool.
Variable future_repr : string.
Variable package : list (Skills.PyModule W).
Variable config : Brain.Config.
Variable skill_registry : bool.
Variable _chat : list Brain.Message -> list Brain.ToolDef -> B
                 -> outcome Brain.Response * B.
Variable get_user_context : W -> string.
Variable live_sensor_parts : W -> list string.
Variable _stream_dispatch : list Brain.Message -> B -> (list string * option exn) * B.

(** [stream_and_speak(brain, speaker, user_input)]: [main.py] lines 91-121.
    [speak] only queues and the brain does not read the queue, so the chunks
    are taken from the generator first and spoken after. *)
Definition stream_and_speak (user_input : string)
  : M (Brain.State W B * list string) string :=
  fun '(brain, queue) =>
    let '(r, chunks, brain) :=
      BrainStream.think_stream py_repr running_loop future_repr package config
        skill_registry _chat get_user_context live_sensor_parts _stream_dispatch
        user_input brain in
    match r with
    | Raise e =>
        let l := fold_left on_chunk chunks
                   {| sentence_buffer := EmptyString; full_response := EmptyString;
                      _speech_queue := queue |} in
        (Raise e, (brain, _speech_queue l))
    | Return _ =>
        let '(full_response, queue) := speak_chunks chunks queue in
        (Return full_response, (brain, queue))
    end.

End WithBrain.
End Chunking.
End Main.

(** ** [src/core/self_heal.py]: cooldown and fix attempts *)

Module SelfHeal.
Section Healer.

Variables W B : Type.
Variable py_repr : string -> string.
Variable running_loop : bool.
Variable future_repr : string.
Variable package : list (Skills.PyModule W).
Variable config : Brain.Config.
Variable skill_registry : bool.
Variable _chat : list Brain.Message -> list Brain.ToolDef -> B
                 -> outcome Brain.Response * B.
Variable get_user_context : W -> string.
Variable live_sensor_parts : W -> list string.
Variable py_strip : string -> string.

(** A problem dict.  [p_detail] holds the text [str()] gives for the value
    under "detail". *)
Record Problem : Type := {
  p_type : string;
  p_error : option string;
  p_detail : option string;
  p_severity : option string
}.

(** An entry of [_fixes_applied]. *)
Record Fix : Type := {
  f_timestamp : string;
  f_type : string;
  f_error : string;
  f_status : string
}.

(** The healer; [speaker] is the speech queue of the speaker it was given,
    if any. *)
Record SelfHealer : Type := {
  brain : option (Brain.State W B);
  speaker : option (list string);
  _fixes_applied : list Fix;
  _cooldown : dict Q
}.

Definition set_brain (b : option (Brain.State W B)) (h : SelfHealer) : SelfHealer :=
  {| brain := b; speaker := speaker h; _fixes_applied := _fixes_applied h;
     _cooldown := _cooldown h |}.

Definition set_speaker (q : option (list string)) (h : SelfHealer) : SelfHealer :=
  {| brain := brain h; speaker := q; _fixes_applied := _fixes_applied h;
     _cooldown := _cooldown h |}.

Definition set_fixes_applied (l : list Fix) (h : SelfHealer) : SelfHealer :=
  {| brain := brain h; speaker := speaker h; _fixes_applied := l;
     _cooldown := _cooldown h |}.

Definition set_cooldown (c : dict Q) (h : SelfHealer) : SelfHealer :=
  {| brain := brain h; speaker := speaker h; _fixes_applied := _fixes_applied h;
     _cooldown := c |}.

(** What handling one problem takes from outside: [time.time()] on lines
    78 and 80, what the fixer that runs external commands returns (each of
    them catches its own failures), and [datetime.now().isoformat()]. *)
Record FixEnv : Type := {
  now_check : Q;
  now_stamp : Q;
  external_fix : bool;
  now_log : string
}.

(** [problem.get("error", default)]. *)
Definition error_or (default : string) (problem : Problem) : string :=
  match p_error problem with
  | Some e => e
  | None => default
  end.

(** Line 74. *)
Definition err_key (problem : Problem) : string :=
  p_type problem ++ ":" ++ str_prefix 60 (error_or EmptyString problem).

(** Lines 243-249. *)
Definition heal_prompt (problem : Problem) : string :=
  "[SELF-HEALING] Critical error detected:" ++ nl
    ++ "Type: " ++ p_type problem ++ nl
    ++ "Error: " ++ error_or "unknown" problem ++ nl
    ++ "Detail: " ++ match p_detail problem with Some d => d | None => EmptyString end
    ++ nl ++ nl
    ++ "Use your tools to locate the issue, read the code, and apply a fix. "
    ++ "State 'FIX_APPLIED' if fixed, 'CANNOT_FIX' if impossible.".

(** [_fix_with_brain]: lines 239-254. *)
Definition _fix_with_brain (problem : Problem) : M SelfHealer bool :=
  fun h =>
    match brain h with
    | None => (Return false, h)
    | Some br =>
        try_except
          (fun h =>
             let prompt := heal_prompt problem in
             let '(r, br') :=
               Brain.think py_repr running_loop future_repr package config
                           skill_registry _chat get_user_context live_sensor_parts
                           prompt br in
             match r with
             | Return response =>
                 (Return (Main.py_in "FIX_APPLIED" response), set_brain (Some br') h)
             | Raise e => (Raise e, set_brain (Some br') h)
             end)
          (fun e => ret false)
          h
    end.

(** [_log_fix]: lines 264-283; what it writes to the log file is its own,
    and a failure to write is caught. *)
Definition _log_fix (problem : Problem) (status : string) (now : string)
  : M SelfHealer unit :=
  modify (fun h =>
    set_fixes_applied
      (append (_fixes_applied h)
              {| f_timestamp := now; f_type := p_type problem;
                 f_error := error_or EmptyString problem; f_status := status |}) h).

(** [_notify_user]: lines 256-262. *)
Definition _notify_user (problem : Problem) : M SelfHealer unit :=
  fun h =>
    match speaker h with
    | Some queue =>
        if match p_severity problem with
           | Some severity => String.eqb severity "critical" || String.eqb severity "high"
           | None => false
           end
        then
          let msg := "Problem detected: " ++ p_type problem ++ ": "
                       ++ str_prefix 100 (error_or EmptyString problem) in
          (Return tt, set_speaker (Some (Main.speak py_strip msg queue)) h)
        else (Return tt, h)
    | None => (Return tt, h)
    end.

(** [_attempt_fix]: lines 164-188. *)
Definition _attempt_fix (env : FixEnv) (problem : Problem) : M SelfHealer unit :=
  let ptype := p_type problem in
  fixed <- (if String.eqb ptype "missing_module" then ret (external_fix env)
            else if String.eqb ptype "ollama_down" then ret (external_fix env)
            else if String.eqb ptype "port_conflict" then ret (external_fix env)
            else if String.eqb ptype "connection_error" then ret (external_fix env)
            else if String.eqb ptype "sentinel_error" then ret true
            else _fix_with_brain problem) ;;
  let status := if fixed : bool then "auto-fixed" else "unfixed" in
  _log_fix problem status (now_log env) ;;;
  if fixed then ret tt else _notify_user problem.

(** The body of the [for problem in problems] loop of [_heal_loop]:
    lines 74-85. *)
Definition heal_problem (item : Problem * FixEnv) : M SelfHealer unit :=
  let '(problem, env) := item in
  fun h =>
    let err_key := err_key problem in
    let last_attempt := dict_get_default err_key 0%Q (_cooldown h) in
    if Qltb (now_check env - last_attempt) 300 then (Return tt, h)
    else
      try_except (_attempt_fix env problem) (fun e => ret tt)
                 (set_cooldown (dict_set err_key (now_stamp env) (_cooldown h)) h).

(** One pass of [_heal_loop] on the problems [_detect_problems] returned. *)
Definition heal_pass (problems : list (Problem * FixEnv)) : M SelfHealer unit :=
  for_each problems heal_problem.

End Healer.
End SelfHeal.

(** ** Further instances *)

Module MoreExamples.

(** A second handler that can be started. *)
Definition dashboard_handler : EventBus.Handler string :=
  {| EventBus.handler_id := 3;
     EventBus.spawn := fun _ => Return "dashboard task" |}.

(** A module of the package with two skills, and a private module. *)
Definition clock_module : Skills.PyModule unit :=
  {| Skills.module_name := "system_ops";
     Skills.module_registrations :=
       [ {| Skills.reg_name := "get_time"; Skills.reg_description := "Returns the time.";
            Skills.reg_parameters := None; Skills.reg_func := Examples.get_time |};
         {| Skills.reg_name := "broken"; Skills.reg_description := "Always fails.";
            Skills.reg_parameters := Some [("required", VList [])];
            Skills.reg_func := Examples.broken |} ] |}.

Definition private_module : Skills.PyModule unit :=
  {| Skills.module_name := "_helpers";
     Skills.module_registrations :=
       [ {| Skills.reg_name := "hidden"; Skills.reg_description := "Not a skill.";
            Skills.reg_parameters := None; Skills.reg_func := Examples.get_time |} ] |}.

(** Configurations with a history window of one exchange and of none. *)
Definition small_config : Brain.Config :=
  {| Brain.system_prompt := "You are Max.";
     Brain.max_history := 1;
     Brain.max_concurrent_tools := 5 |}.

Definition unbounded_config : Brain.Config :=
  {| Brain.system_prompt := "You are Max.";
     Brain.max_history := 0;
     Brain.max_concurrent_tools := 5 |}.

(** A streaming backend over the same script: the next reply arrives in two
    chunks, a failure of the script is raised by the stream. *)
Definition scripted_stream (messages : list Brain.Message)
           (script : list (outcome Brain.Response))
  : (list string * option exn) * list (outcome Brain.Response) :=
  match script with
  | [] => (([], Some Examples.unreachable), [])
  | Return reply :: rest => ((["Well. "; Brain.resp_content reply], None), rest)
  | Raise e :: rest => ((["Well. "], Some e), rest)
  end.

(** A brain that has had one exchange already. *)
Definition seasoned_brain (script : list (outcome Brain.Response))
  : Brain.State unit (list (outcome Brain.Response)) :=
  {| Brain.conversation_history :=
       [ {| Brain.role := "user"; Brain.content := "Hi" |};
         {| Brain.role := "assistant"; Brain.content := "Hello." |} ];
     Brain.registry := Examples.two_skills;
     Brain.world := tt;
     Brain.backend := script;
     Brain.trace := [] |}.

Definition think (config : Brain.Config) :=
  Brain.think (W := unit) Examples.quote false EmptyString [] config true
              Examples.scripted (fun _ => EmptyString) (fun _ => []).

Definition think_stream (config : Brain.Config) :=
  BrainStream.think_stream (W := unit) Examples.quote false EmptyString [] config true
                           Examples.scripted (fun _ => EmptyString) (fun _ => [])
                           scripted_stream.

(** A detection payload without the key the prompt reads, and the engine
    on a bus that holds it. *)
Definition unlabelled_detection : EventBus.Payload :=
  [("detections", VList [VDict [("label", VStr "person")]])].

Definition blind_engine (script : list (outcome Brain.Response))
  : ThoughtEngine.State unit (list (outcome Brain.Response)) string :=
  {| ThoughtEngine._THOUGHTS := [];
     ThoughtEngine._cycle_count := 0;
     ThoughtEngine._last_context_hash := EmptyString;
     ThoughtEngine.brain := Some (Examples.fresh_brain script);
     ThoughtEngine.bus :=
       EventBus.set_state [("sentinel.yolo", unlabelled_detection)] Examples.bus |}.

(** A pass in which the speaker fails. *)
Definition mute_pass (t : Q) : FreeTalk.PassEnv :=
  {| FreeTalk.now_throttle := t;
     FreeTalk.now_filter := t;
     FreeTalk.user_speaking_at_pick := false;
     FreeTalk.speak_blocking :=
       fun _ => Raise (mkExn "RuntimeError" "audio device busy");
     FreeTalk.arrivals := [];
     FreeTalk.now_done := Qplus t 3 |}.

(** A healer with a scripted brain and a speaker, and three problems. *)
Definition healer (script : list (outcome Brain.Response))
  : SelfHeal.SelfHealer unit (list (outcome Brain.Response)) :=
  {| SelfHeal.brain := Some (Examples.fresh_brain script);
     SelfHeal.speaker := Some [];
     SelfHeal._fixes_applied := [];
     SelfHeal._cooldown := [] |}.

Definition ollama_problem : SelfHeal.Problem :=
  {| SelfHeal.p_type := "ollama_down";
     SelfHeal.p_error := Some "Cannot connect to Ollama";
     SelfHeal.p_detail := None;
     SelfHeal.p_severity := Some "critical" |}.

Definition camera_problem : SelfHeal.Problem :=
  {| SelfHeal.p_type := "sentinel_error";
     SelfHeal.p_error := Some "camera unplugged";
     SelfHeal.p_detail := None;
     SelfHeal.p_severity := Some "medium" |}.

Definition memory_problem : SelfHeal.Problem :=
  {| SelfHeal.p_type := "memory_error";
     SelfHeal.p_error := Some "CUDA out of memory";
     SelfHeal.p_detail := Some "()";
     SelfHeal.p_severity := Some "medium" |}.

(** A check at time [t] in which the external fixer fails. *)
Definition check_at (t : Q) : SelfHeal.FixEnv :=
  {| SelfHeal.now_check := t;
     SelfHeal.now_stamp := t;
     SelfHeal.external_fix := false;
     SelfHeal.now_log := "2025-01-01T12:00:00" |}.

Definition attempt_fix :=
  SelfHeal._attempt_fix (W := unit) Examples.quote false EmptyString [] small_config true
                        Examples.scripted (fun _ => EmptyString) (fun _ => [])
                        Examples.strip.

Definition heal_pass :=
  SelfHeal.heal_pass (W := unit) Examples.quote false EmptyString [] small_config true
                     Examples.scripted (fun _ => EmptyString) (fun _ => [])
                     Examples.strip.

(** An answer that repeats the instruction. *)
Definition echo_reply : Brain.Response :=
  {| Brain.resp_content := "I will state 'FIX_APPLIED' if fixed.";
     Brain.tool_calls := [] |}.

(** The registry before the first [discover]. *)
Definition new_registry : Skills.Registry unit :=
  {| Skills._SKILLS := []; Skills._discovered := false |}.

End MoreExamples.

(** * Properties *)

(** ** Facts about the runtime model *)

Section PyFacts.

Lemma bind_return {S A B} (c : M S A) (k : A -> M S B) s a s' :
  c s = (Return a, s') -> bind c k s = k a s'.
Proof. intros H. unfold bind. rewrite H. reflexivity. Qed.

Lemma bind_raise {S A B} (c : M S A) (k : A -> M S B) s e s' :
  c s = (Raise e, s') -> bind c k s = (Raise e, s').
Proof. intros H. unfold bind. rewrite H. reflexivity. Qed.

Lemma length_append {A} (l : list A) x : length (append l x) = S (length l).
Proof. unfold append. rewrite length_app. simpl. lia. Qed.

Lemma dict_get_set_same {V} k (v : V) d : dict_get k (dict_set k v d) = Some v.
Proof.
  induction d as [|[k' v'] d IH]; simpl.
  - rewrite String.eqb_refl. reflexivity.
  - destruct (String.eqb k' k) eqn:E; simpl; rewrite E; auto.
Qed.

Lemma dict_get_set_other {V} k k' (v : V) d :
  k' <> k -> dict_get k' (dict_set k v d) = dict_get k' d.
Proof.
  intros Hne. induction d as [|[k0 v0] d IH]; simpl.
  - destruct (String.eqb k k') eqn:E; auto.
    apply String.eqb_eq in E. congruence.
  - destruct (String.eqb k0 k) eqn:E; simpl.
    + apply String.eqb_eq in E. subst k0.
      destruct (String.eqb k k') eqn:E'; auto.
      apply String.eqb_eq in E'. congruence.
    + rewrite IH. reflexivity.
Qed.

Lemma Qltb_lt a b : Qltb a b = true <-> (a < b)%Q.
Proof.
  unfold Qltb. rewrite negb_true_iff.
  split; intros H.
  - apply Qnot_le_lt. intros Hle. apply Qle_bool_iff in Hle. congruence.
  - destruct (Qle_bool b a) eqn:E; auto.
    apply Qle_bool_iff in E. exfalso. apply (Qlt_not_le _ _ H E).
Qed.

Lemma in_skipn {A} (x : A) n l : In x (skipn n l) -> In x l.
Proof.
  intros H. rewrite <- (firstn_skipn n l). apply in_or_app. right. exact H.
Qed.

Lemma str_app_empty (x : string) : x ++ "" = x.
Proof. induction x as [|a x IH]; simpl; congruence. Qed.

Lemma str_app_assoc (x y z : string) : (x ++ y) ++ z = x ++ y ++ z.
Proof. induction x as [|a x IH]; simpl; congruence. Qed.

Lemma contains_refl needle : contains needle needle.
Proof. exists "", "". simpl. rewrite str_app_empty. reflexivity. Qed.

Lemma contains_app_r pre needle hay : contains needle hay -> contains needle (pre ++ hay).
Proof.
  intros (p & q & ->). exists (pre ++ p), q. rewrite str_app_assoc. reflexivity.
Qed.

Lemma contains_intro pre needle post : contains needle (pre ++ needle ++ post).
Proof. exists pre, post. reflexivity. Qed.

End PyFacts.

(** ** The thought buffer *)

Section BufferFacts.
Import ThoughtEngine.

Lemma evict_skipn ts : evict ts = skipn (length ts - _MAX_THOUGHTS) ts.
Proof.
  induction ts as [|t ts IH]; [reflexivity|].
  cbn [evict]. destruct (_MAX_THOUGHTS <? length (t :: ts))%nat eqn:E.
  - apply Nat.ltb_lt in E. rewrite IH. cbn [length] in *.
    replace (S (length ts) - _MAX_THOUGHTS) with (S (length ts - _MAX_THOUGHTS))
      by (unfold _MAX_THOUGHTS in *; lia).
    reflexivity.
  - apply Nat.ltb_ge in E.
    replace (length (t :: ts) - _MAX_THOUGHTS) with 0 by lia. reflexivity.
Qed.

Lemma evict_length ts : length (evict ts) <= _MAX_THOUGHTS.
Proof. rewrite evict_skipn, length_skipn. unfold _MAX_THOUGHTS. lia. Qed.

Lemma arrive_eq ts a : arrive ts a = evict (append ts (thought_of a)).
Proof. reflexivity. Qed.

Lemma mark_length thought_id ts :
  length (mark_thought_spoken thought_id ts) = length ts.
Proof.
  induction ts as [|t ts IH]; simpl; [reflexivity|].
  destruct (String.eqb (id t) thought_id); simpl; congruence.
Qed.

Lemma apply_op_bounded ts op :
  length ts <= _MAX_THOUGHTS -> length (apply_op ts op) <= _MAX_THOUGHTS.
Proof.
  intros H. destruct op; simpl.
  - rewrite arrive_eq. apply evict_length.
  - rewrite mark_length. exact H.
Qed.

Lemma fold_ops_bounded ops ts :
  length ts <= _MAX_THOUGHTS -> length (fold_left apply_op ops ts) <= _MAX_THOUGHTS.
Proof.
  revert ts. induction ops as [|op ops IH]; intros ts H; simpl; auto.
  apply IH, apply_op_bounded, H.
Qed.

(** Appending keeps a suffix of what has been offered so far. *)
Lemma fold_arrive_suffix adds ts :
  length ts <= _MAX_THOUGHTS ->
  fold_left arrive adds ts =
  skipn (length ts + length adds - _MAX_THOUGHTS) (ts ++ map thought_of adds)%list.
Proof.
  revert ts. induction adds as [|a adds IH]; intros ts Hts.
  - simpl. rewrite app_nil_r.
    replace (length ts + 0 - _MAX_THOUGHTS) with 0 by lia.
    reflexivity.
  - cbn [fold_left map]. rewrite IH by (rewrite arrive_eq; apply evict_length).
    rewrite arrive_eq, evict_skipn.
    unfold append. rewrite length_skipn, length_app. cbn [length].
    set (n := length ts) in *. set (m := length adds).
    replace (ts ++ thought_of a :: map thought_of adds)%list
      with ((ts ++ [thought_of a]) ++ map thought_of adds)%list
      by (rewrite <- app_assoc; reflexivity).
    rewrite (skipn_app (n + S m - _MAX_THOUGHTS)), (skipn_app (_ - _ + m - _)).
    rewrite skipn_skipn, !length_skipn, !length_app. cbn [length]. fold n.
    f_equal; f_equal; unfold _MAX_THOUGHTS in *; lia.
Qed.

End BufferFacts.

Section BufferTheorems.
Import ThoughtEngine.

(** C4. The buffer never holds more than 100 thoughts, appending evicts
    from the front, and after 150 appends exactly the last 100 appended
    thoughts remain, in the order they were appended. *)
Theorem thought_buffer_bounded_fifo :
  (forall ops, length (run_ops ops) <= 100) /\
  (forall ops adds,
      fold_left arrive adds (run_ops ops) =
      skipn (length (run_ops ops) + length adds - 100)
            (run_ops ops ++ map thought_of adds)%list) /\
  (forall ops adds,
      length adds = 150 ->
      fold_left arrive adds (run_ops ops) = map thought_of (skipn 50 adds)).
Proof.
  assert (Hb : forall ops, length (run_ops ops) <= 100).
  { intros ops. apply (fold_ops_bounded ops []). simpl. lia. }
  split; [exact Hb|]. split.
  - intros ops adds. apply fold_arrive_suffix, Hb.
  - intros ops adds Hlen.
    rewrite fold_arrive_suffix by apply Hb.
    rewrite skipn_app, Hlen.
    rewrite (skipn_all2 (run_ops ops)) by (unfold _MAX_THOUGHTS; lia).
    cbn [app]. rewrite skipn_map. do 2 f_equal.
    specialize (Hb ops). unfold _MAX_THOUGHTS. lia.
Qed.

Lemma thought_buffer_bounded_fifo_witness :
  length Examples.arrivals_150 = 150 /\
  fold_left arrive Examples.arrivals_150 (run_ops []) =
  map thought_of (skipn 50 Examples.arrivals_150).
Proof.
  split; [reflexivity|].
  apply (proj2 (proj2 thought_buffer_bounded_fifo) [] Examples.arrivals_150).
  reflexivity.
Defined.

(** [min(speak_score, 1.0)] never exceeds 1.0 and changes only scores
    above it. *)
Lemma py_min_one x :
  float_gt (py_min x (Finite 1)) (Finite 1) = false /\
  py_min x (Finite 1) = (if float_gt x (Finite 1) then Finite 1 else x).
Proof.
  unfold py_min, float_gt.
  destruct (float_lt (Finite 1) x) eqn:E; split; auto.
Qed.

Lemma stored_score content category score clock buf :
  speak_score (fst (_add_thought content category score clock buf)) =
  py_min score (Finite 1).
Proof. reflexivity. Qed.

Lemma mark_preserves_scores (P : pyfloat -> Prop) thought_id ts :
  Forall (fun t => P (speak_score t)) ts ->
  Forall (fun t => P (speak_score t)) (mark_thought_spoken thought_id ts).
Proof.
  induction 1 as [|t ts Ht Hts IH]; simpl; [constructor|].
  destruct (String.eqb (id t) thought_id); constructor; auto.
Qed.

Lemma run_ops_scores ops :
  Forall (fun t => float_gt (speak_score t) (Finite 1) = false) (run_ops ops).
Proof.
  unfold run_ops.
  assert (H : Forall (fun t => float_gt (speak_score t) (Finite 1) = false)
                     (@nil Thought)) by constructor.
  revert H. generalize (@nil Thought).
  induction ops as [|op ops IH]; intros ts Hts; simpl; auto.
  apply IH. destruct op as [a|i]; cbn [apply_op].
  - rewrite arrive_eq, evict_skipn.
    apply Forall_forall. intros t Hin.
    apply in_skipn in Hin. unfold append in Hin.
    apply in_app_or in Hin as [Hin|[<-|[]]].
    + exact (proj1 (Forall_forall _ _) Hts _ Hin).
    + apply py_min_one.
  - apply (mark_preserves_scores (fun x => float_gt x (Finite 1) = false)), Hts.
Qed.

(** C8, as the claim states it, fails: a score below 0.0 is stored as it
    is, outside of the interval. *)
Lemma negative_speak_score_is_stored :
  let added := _add_thought "The room is dark." "observation"
                            (Finite (-1 # 2)) Examples.noon [] in
  snd added = [fst added] /\
  speak_score (fst added) = Finite (-1 # 2) /\
  float_le (Finite 0) (speak_score (fst added)) = false.
Proof. repeat split. Qed.

(** C8, amended. A stored speak_score is never greater than 1.0: a score
    above 1.0 supplied at creation is stored as 1.0 and every other score
    is stored as supplied, so that a score of [0.0, 1.0] stays there (and a
    score below 0.0 stays below); this holds of every thought the buffer
    can hold. *)
Theorem speak_score_capped_at_one :
  (forall content category score clock buf,
      let t := fst (_add_thought content category score clock buf) in
      speak_score t = (if float_gt score (Finite 1) then Finite 1 else score) /\
      float_gt (speak_score t) (Finite 1) = false /\
      (float_le (Finite 0) score = true ->
       float_le (Finite 0) (speak_score t) = true /\
       float_le (speak_score t) (Finite 1) = true)) /\
  (forall ops t, In t (run_ops ops) -> float_gt (speak_score t) (Finite 1) = false).
Proof.
  split.
  - intros content category score clock buf t. subst t.
    rewrite stored_score.
    destruct (py_min_one score) as [Hle Heq].
    split; [exact Heq|]. split; [exact Hle|].
    intros H0. rewrite Heq in *.
    destruct (float_gt score (Finite 1)) eqn:E; [split; reflexivity|].
    split; [exact H0|].
    destruct score as [q| | |]; simpl in *; try discriminate; auto.
    unfold float_gt, float_lt, Qltb in E.
    apply negb_false_iff in E. exact E.
  - intros ops t Hin.
    exact (proj1 (Forall_forall _ _) (run_ops_scores ops) _ Hin).
Qed.

Lemma speak_score_capped_at_one_witness :
  float_le (Finite 0) (Finite (3 # 2)) = true /\
  In (thought_of Examples.door_arrival) (run_ops [Add Examples.door_arrival]) /\
  (let t := fst (_add_thought "Loud." "alert" (Finite (3 # 2)) Examples.noon []) in
   speak_score t = Finite 1 /\
   float_le (Finite 0) (speak_score t) = true /\
   float_le (speak_score t) (Finite 1) = true) /\
  float_gt (speak_score (thought_of Examples.door_arrival)) (Finite 1) = false.
Proof.
  split; [reflexivity|]. split; [left; reflexivity|]. split.
  - destruct (proj1 speak_score_capped_at_one
                    "Loud." "alert" (Finite (3 # 2)) Examples.noon [])
      as (Hstored & _ & Hunit).
    split; [exact Hstored|]. apply Hunit. reflexivity.
  - apply (proj2 speak_score_capped_at_one [Add Examples.door_arrival]).
    left. reflexivity.
Defined.

End BufferTheorems.

(** ** The skill registry *)

Section RegistryFacts.
Import Skills.

Variable W : Type.
Variable py_repr : string -> string.
Variable running_loop : bool.
Variable future_repr : string.
Variable package : list (PyModule W).

Abbreviation Store := (Store W).
Abbreviation execute := (execute py_repr running_loop future_repr package).

Lemma dict_set_same_lookups k (v : SkillInfo W) (s1 s2 : Store) :
  same_lookups s1 s2 -> same_lookups (dict_set k v s1) (dict_set k v s2).
Proof.
  intros H k'. destruct (string_dec k' k) as [->|Hne].
  - rewrite !dict_get_set_same. reflexivity.
  - rewrite !dict_get_set_other by assumption. apply H.
Qed.

Lemma register_all_same_lookups rs (s1 s2 : Store) :
  same_lookups s1 s2 -> same_lookups (register_all rs s1) (register_all rs s2).
Proof.
  unfold register_all. revert s1 s2.
  induction rs as [|r rs IH]; intros s1 s2 H; simpl; auto.
  apply IH. unfold register, skill. apply dict_set_same_lookups, H.
Qed.

Lemma import_same_lookups ms (s1 s2 : Store) :
  same_lookups s1 s2 ->
  same_lookups (fold_left (fun s m => import_module m s) ms s1)
               (fold_left (fun s m => import_module m s) ms s2).
Proof.
  revert s1 s2. induction ms as [|m ms IH]; intros s1 s2 H; simpl; auto.
  apply IH. unfold import_module.
  destruct (startswith "_" (module_name m)); auto.
  apply register_all_same_lookups, H.
Qed.

Lemma discover_same_lookups (s1 s2 : Store) d :
  same_lookups s1 s2 ->
  same_lookups (_SKILLS (discover package {| _SKILLS := s1; _discovered := d |}))
               (_SKILLS (discover package {| _SKILLS := s2; _discovered := d |})).
Proof.
  intros H. unfold discover. destruct d; simpl; auto.
  apply import_same_lookups, H.
Qed.

Lemma dict_set_same_except name k (v : SkillInfo W) (s1 s2 : Store) :
  same_lookups_except name s1 s2 ->
  same_lookups_except name (dict_set k v s1) (dict_set k v s2).
Proof.
  intros H k' Hk'. destruct (string_dec k' k) as [->|Hne].
  - rewrite !dict_get_set_same. reflexivity.
  - rewrite !dict_get_set_other by assumption. apply H, Hk'.
Qed.

Lemma register_all_same_except name rs (s1 s2 : Store) :
  same_lookups_except name s1 s2 ->
  same_lookups_except name (register_all rs s1) (register_all rs s2).
Proof.
  unfold register_all. revert s1 s2.
  induction rs as [|r rs IH]; intros s1 s2 H; simpl; auto.
  apply IH. unfold register, skill. apply dict_set_same_except, H.
Qed.

(** Registering a name a second time leaves every lookup as if the first
    registration had not happened. *)
Lemma overwrite_same_lookups name d1 p1 f1 d2 p2 f2 mid (store : Store) :
  same_lookups
    (skill name d2 p2 f2 (register_all mid (skill name d1 p1 f1 store)))
    (skill name d2 p2 f2 (register_all mid store)).
Proof.
  assert (H : same_lookups_except name
                (register_all mid (skill name d1 p1 f1 store))
                (register_all mid store)).
  { apply register_all_same_except. intros k Hk. unfold skill.
    apply dict_get_set_other, Hk. }
  intros k. unfold skill at 1 3.
  destruct (string_dec k name) as [->|Hne].
  - rewrite !dict_get_set_same. reflexivity.
  - rewrite !dict_get_set_other by assumption. apply H, Hne.
Qed.

(** [execute] looks at the store through the lookup of the name only,
    when the name is registered. *)
Lemma execute_same_lookups (s1 s2 : Store) d name args w info :
  same_lookups s1 s2 ->
  dict_get name (_SKILLS (discover package {| _SKILLS := s1; _discovered := d |}))
    = Some info ->
  fst (execute name args ({| _SKILLS := s1; _discovered := d |}, w)) =
  fst (execute name args ({| _SKILLS := s2; _discovered := d |}, w)) /\
  snd (snd (execute name args ({| _SKILLS := s1; _discovered := d |}, w))) =
  snd (snd (execute name args ({| _SKILLS := s2; _discovered := d |}, w))).
Proof.
  intros H Hget. unfold Skills.execute.
  rewrite <- (discover_same_lookups d H name), Hget.
  destruct (invoke running_loop future_repr info _ w) as [[res|e] w']; auto.
Qed.

Lemma dict_set_keeps k k' (v : SkillInfo W) (s : Store) :
  dict_get k s <> None -> dict_get k (dict_set k' v s) <> None.
Proof.
  intros H. destruct (string_dec k k') as [->|Hne].
  - rewrite dict_get_set_same. discriminate.
  - rewrite dict_get_set_other by assumption. exact H.
Qed.

Lemma register_all_keeps k rs (s : Store) :
  dict_get k s <> None -> dict_get k (register_all rs s) <> None.
Proof.
  unfold register_all. revert s.
  induction rs as [|r rs IH]; intros s H; simpl; auto.
  apply IH. unfold register, skill. apply dict_set_keeps, H.
Qed.

Lemma discover_keeps k (r : Registry W) :
  dict_get k (_SKILLS r) <> None -> dict_get k (_SKILLS (discover package r)) <> None.
Proof.
  unfold discover. destruct (_discovered r); auto. simpl.
  generalize (_SKILLS r). induction package as [|m ms IH]; intros s H; simpl; auto.
  apply IH. unfold import_module.
  destruct (startswith "_" (module_name m)); auto.
  apply register_all_keeps, H.
Qed.

(** What [execute] does for a name the store knows. *)
Lemma execute_registered name args (r : Registry W) w info :
  dict_get name (_SKILLS (discover package r)) = Some info ->
  execute name args (r, w) =
  (let arguments := match args with Some ((_ :: _) as a) => a | _ => [] end in
   match invoke running_loop future_repr info arguments w with
   | (Return result, w') =>
       (Return (match result with Some s => s | None => "Done." end),
        (discover package r, w'))
   | (Raise e, w') => (Raise e, (discover package r, w'))
   end).
Proof. intros H. unfold Skills.execute. rewrite H. reflexivity. Qed.

(** An exception of the skill body reaches the caller of [execute], except
    for a coroutine function called while an event loop runs: there the
    text of the pending Future is returned in place of the outcome. *)
Lemma execute_raises_what_the_skill_raises name args (r : Registry W) w info e w' :
  dict_get name (_SKILLS (discover package r)) = Some info ->
  is_async info && running_loop = false ->
  call (function info) (match args with Some ((_ :: _) as a) => a | _ => [] end) w
  = (Raise e, w') ->
  execute name args (r, w) = (Raise e, (discover package r, w')).
Proof.
  intros Hget Hsync Hcall. rewrite (execute_registered _ args _ w Hget).
  unfold invoke.
  destruct args as [[|x a]|]; cbv beta iota zeta in *;
    (destruct (is_async info); [destruct running_loop; [discriminate|]|];
     rewrite Hcall; reflexivity).
Qed.

Lemma execute_under_running_loop name args (r : Registry W) w info :
  dict_get name (_SKILLS (discover package r)) = Some info ->
  is_async info = true -> running_loop = true ->
  fst (execute name args (r, w)) = Return future_repr.
Proof.
  intros Hget Ha Hl. rewrite (execute_registered _ args _ w Hget). cbv zeta.
  unfold invoke. rewrite Ha, Hl.
  destruct (call _ _ _) as [res w']. reflexivity.
Qed.

(** C6. A name registered twice answers every lookup, and every
    invocation, as if only the second registration had been made; and
    invoking a name that is not registered raises a [KeyError] whose message
    starts with the words "Unknown skill" and the missing name, without
    running any skill. *)
Theorem registration_overwrites_and_unknown_skill_raises :
  (forall name d1 p1 f1 d2 p2 f2 mid (store : Store),
      let twice := skill name d2 p2 f2 (register_all mid (skill name d1 p1 f1 store)) in
      let once := skill name d2 p2 f2 (register_all mid store) in
      same_lookups twice once /\
      dict_get name twice = Some (entry d2 p2 f2) /\
      forall discovered args w,
        let run s := execute name args ({| _SKILLS := s; _discovered := discovered |}, w) in
        fst (run twice) = fst (run once) /\
        snd (snd (run twice)) = snd (snd (run once))) /\
  (forall name args (r : Registry W) w,
      dict_get name (_SKILLS (discover package r)) = None ->
      exists e rest,
        execute name args (r, w) = (Raise e, (discover package r, w)) /\
        exn_class e = "KeyError" /\
        exn_str e = py_repr ("Unknown skill: '" ++ name ++ "'" ++ rest)).
Proof.
  split.
  - intros name d1 p1 f1 d2 p2 f2 mid store twice once.
    assert (Hsame : same_lookups twice once) by apply overwrite_same_lookups.
    assert (Hget : dict_get name twice = Some (entry d2 p2 f2))
      by apply dict_get_set_same.
    split; [exact Hsame|]. split; [exact Hget|].
    intros discovered args w run. subst run. cbv beta.
    destruct (dict_get name
                (_SKILLS (discover package
                            {| _SKILLS := twice; _discovered := discovered |})))
      as [info|] eqn:E.
    + eapply execute_same_lookups; eassumption.
    + exfalso. revert E. apply discover_keeps. simpl. rewrite Hget. discriminate.
  - intros name args r w Hnone.
    exists (KeyError py_repr (unknown_skill_message py_repr name
                                (dict_keys (_SKILLS (discover package r))))).
    eexists. split; [|split].
    + unfold Skills.execute. rewrite Hnone. reflexivity.
    + reflexivity.
    + unfold KeyError, unknown_skill_message. cbn [exn_str]. reflexivity.
Qed.

End RegistryFacts.

Lemma registration_overwrites_and_unknown_skill_raises_witness :
  dict_get "teleport"
    (Skills._SKILLS (Skills.discover [] Examples.empty_registry)) = None /\
  exists e rest,
    Skills.execute Examples.quote false "" [] "teleport" None
                   (Examples.empty_registry, tt)
    = (Raise e, (Skills.discover [] Examples.empty_registry, tt)) /\
    exn_class e = "KeyError" /\
    exn_str e = Examples.quote ("Unknown skill: 'teleport'" ++ rest).
Proof.
  split; [reflexivity|].
  apply (proj2 (registration_overwrites_and_unknown_skill_raises
                  Examples.quote false "" [])).
  reflexivity.
Defined.

(** ** The dispatch loop of the orchestrator *)

Section DispatchFacts.
Import Brain.

Variables W B : Type.
Variable py_repr : string -> string.
Variable running_loop : bool.
Variable future_repr : string.
Variable package : list (Skills.PyModule W).
Variable skill_registry : bool.

Abbreviation State := (Brain.State W B).
Abbreviation execute_tool_call :=
  (Brain.execute_tool_call (B := B) py_repr running_loop future_repr package skill_registry).
Abbreviation execute_tool_calls_from :=
  (Brain.execute_tool_calls_from (B := B) py_repr running_loop future_repr package
                                 skill_registry).
Abbreviation _execute_tool_calls :=
  (Brain._execute_tool_calls (B := B) py_repr running_loop future_repr package
                             skill_registry).
Abbreviation call_outcome :=
  (Brain.call_outcome (B := B) py_repr running_loop future_repr package skill_registry).
Abbreviation dispatched :=
  (Brain.dispatched (B := B) py_repr running_loop future_repr package skill_registry).

(** One call always yields a result, whatever the skill does. *)
Lemma execute_tool_call_returns (call : ToolCall) (s : State) :
  exists r s', execute_tool_call call s = (Return r, s') /\ call_outcome s call r s'.
Proof.
  unfold Brain.execute_tool_call, Brain.call_outcome.
  destruct skill_registry; cbn [negb].
  - unfold try_except, bind, registry_execute, Skills.execute, Skills.invoke,
      Brain.handed_to_pool, Brain.passed_arguments.
    cbv beta zeta.
    destruct (dict_get (tc_name call)
                (Skills._SKILLS (Skills.discover package (registry s)))) as [info|].
    + destruct (Skills.is_async info), running_loop; cbn [andb];
        cbv beta;
      destruct (Skills.call (Skills.function info) _ (world s)) as [[value|e] w'] eqn:E.
      all: eexists; eexists; (split; [reflexivity|]);
        cbn [tool result success fst snd]; repeat split;
        do 3 apply contains_app_r; apply contains_refl.
    + eexists. eexists. split; [reflexivity|]. cbn [tool result success].
      repeat split. do 3 apply contains_app_r. apply contains_refl.
  - eexists. eexists. split; [reflexivity|]. cbn. auto.
Qed.

(** Dispatching a call touches the registry and the world only. *)
Lemma call_outcome_frame (s s' : State) call r :
  call_outcome s call r s' ->
  backend s' = backend s /\ trace s' = trace s /\
  conversation_history s' = conversation_history s.
Proof.
  unfold Brain.call_outcome. intros [_ H].
  destruct skill_registry.
  - cbv zeta in H.
    destruct (dict_get _ _) as [info|]; destruct H as [-> _]; auto.
  - destruct H as [-> _]. auto.
Qed.

Lemma execute_tool_calls_from_dispatched (calls : list ToolCall) :
  forall (acc : list CapabilityResult) (s : State),
  exists rs s',
    execute_tool_calls_from calls acc s = (Return (acc ++ rs)%list, s') /\
    dispatched s calls rs s'.
Proof.
  induction calls as [|call rest IH]; intros acc s.
  - exists [], s. rewrite app_nil_r. split; [reflexivity|constructor].
  - destruct (execute_tool_call_returns call s) as (r & s1 & Hrun & Hout).
    destruct (IH (append acc r) s1) as (rs & s2 & Hrest & Hdisp).
    exists (r :: rs), s2. split.
    + cbn [Brain.execute_tool_calls_from].
      rewrite (bind_return _ _ _ Hrun), Hrest.
      unfold append. rewrite <- app_assoc. reflexivity.
    + econstructor; eassumption.
Qed.

Lemma dispatched_length (s s' : State) calls rs :
  dispatched s calls rs s' -> length rs = length calls.
Proof. induction 1; simpl; congruence. Qed.

Lemma dispatched_names (s s' : State) calls rs :
  dispatched s calls rs s' -> map tool rs = map tc_name calls.
Proof.
  induction 1 as [|s call r s1 rest rs s2 [Hname _] _ IH]; simpl; congruence.
Qed.

(** A failed call is followed by the dispatch of the calls after it. *)
Lemma dispatched_app (s s' : State) before after rs :
  dispatched s (before ++ after)%list rs s' ->
  exists rs1 rs2 s1,
    rs = (rs1 ++ rs2)%list /\ dispatched s before rs1 s1 /\ dispatched s1 after rs2 s'.
Proof.
  revert s rs. induction before as [|call before IH]; intros s rs H.
  - exists [], rs, s. repeat split; [constructor|exact H].
  - inversion H as [|? ? r s1 ? rs' ? Hout Hrest]; subst.
    destruct (IH _ _ Hrest) as (rs1 & rs2 & s1' & -> & H1 & H2).
    exists (r :: rs1), rs2, s1'. repeat split; [econstructor; eassumption|exact H2].
Qed.

Lemma execute_tool_calls_dispatched (calls : list ToolCall) (s : State) :
  exists results s',
    _execute_tool_calls calls s = (Return results, record_event (Dispatched results) s') /\
    dispatched s calls results s'.
Proof.
  destruct (execute_tool_calls_from_dispatched calls [] s) as (rs & s' & Hrun & Hdisp).
  exists rs, s'. split; [|exact Hdisp].
  unfold Brain._execute_tool_calls.
  rewrite (bind_return _ _ _ Hrun). reflexivity.
Qed.

Lemma dispatched_nth (s s' : State) calls rs :
  dispatched s calls rs s' ->
  forall i call, nth_error calls i = Some call ->
  exists r si si',
    nth_error rs i = Some r /\ call_outcome si call r si'.
Proof.
  induction 1 as [|s call r s1 rest rs s2 Hout _ IH]; intros i c Hi.
  - destruct i; discriminate.
  - destruct i as [|i]; cbn in Hi.
    + injection Hi as <-. exists r, s, s1. split; [reflexivity|exact Hout].
    + destruct (IH i c Hi) as (r' & si & si' & Hr & Ho).
      exists r', si, si'. split; [exact Hr|exact Ho].
Qed.

(** Dispatching a list of requested calls returns (it never raises) one
    result per call, in the order of the calls, each named after its call;
    every call is executed in the state its predecessor left, whether that
    one failed or not; an executor that raises gives a result with
    [success = false] whose text contains the text of the exception, unless
    it is a coroutine function called while an event loop runs. *)
Theorem execute_tool_calls_total (calls : list ToolCall) (s : State) :
  exists results s',
    _execute_tool_calls calls s = (Return results, record_event (Dispatched results) s') /\
    dispatched s calls results s' /\
    length results = length calls /\
    map tool results = map tc_name calls /\
    forall i call, nth_error calls i = Some call ->
      exists r si si', nth_error results i = Some r /\ call_outcome si call r si'.
Proof.
  destruct (execute_tool_calls_dispatched calls s) as (rs & s' & Hrun & Hdisp).
  exists rs, s'. split; [exact Hrun|]. split; [exact Hdisp|]. split; [|split].
  - eapply dispatched_length, Hdisp.
  - eapply dispatched_names, Hdisp.
  - eapply dispatched_nth, Hdisp.
Qed.

End DispatchFacts.


(** ** The event bus *)

Section BusFacts.
Import EventBus.

Variable Task : Type.

Abbreviation Bus := (EventBus.Bus Task).
Abbreviation Handler := (EventBus.Handler Task).

(** The loop over the handlers touches the task queue and the log only. *)
Lemma notify_all topic data (handlers : list Handler) (b : Bus) :
  for_each handlers (notify topic data) b =
  (Return tt,
   {| _subscribers := _subscribers b;
      _state := _state b;
      loop_tasks := (loop_tasks b ++ spawned data handlers)%list;
      error_log := (error_log b ++ failures topic data handlers)%list |}).
Proof.
  revert b. induction handlers as [|h hs IH]; intros b.
  - simpl. rewrite !app_nil_r. destruct b; reflexivity.
  - cbn [for_each]. unfold bind, notify at 1, try_except.
    unfold spawned, failures. cbn [flat_map].
    destruct (spawn h data) as [t|e]; cbn [modify].
    + rewrite IH. unfold schedule, append. cbn.
      rewrite <- !app_assoc. reflexivity.
    + rewrite IH. unfold log_error, append, handler_error. cbn.
      rewrite <- !app_assoc. reflexivity.
Qed.



End BusFacts.


(** ** The tool-calling loop of [think] *)

Section ThinkFacts.
Import Brain.

Variables W B : Type.
Variable py_repr : string -> string.
Variable running_loop : bool.
Variable future_repr : string.
Variable package : list (Skills.PyModule W).
Variable config : Config.
Variable skill_registry : bool.
Variable _chat : list Message -> list ToolDef -> B -> outcome Response * B.
Variable get_user_context : W -> string.
Variable live_sensor_parts : W -> list string.

Abbreviation BState := (Brain.State W B).
Abbreviation run_tools :=
  (Brain._execute_tool_calls (B := B) py_repr running_loop future_repr package
                             skill_registry).
Abbreviation run_chat := (Brain.chat (W := W) _chat).
Abbreviation run_loop :=
  (Brain.tool_loop py_repr running_loop future_repr package skill_registry _chat).
Abbreviation run_try :=
  (Brain.think_try py_repr running_loop future_repr package config skill_registry _chat).
Abbreviation run_think :=
  (Brain.think py_repr running_loop future_repr package config skill_registry _chat
               get_user_context live_sensor_parts).
Abbreviation asks := (Brain.requests_for _chat).
Abbreviation still_asks := (Brain.pending _chat).
Abbreviation run_round :=
  (Brain.loop_round py_repr running_loop future_repr package skill_registry _chat).
Abbreviation asks_from :=
  (Brain.asks_from py_repr running_loop future_repr package skill_registry _chat).
Abbreviation run_first_query :=
  (Brain.first_query package config skill_registry _chat get_user_context
                     live_sensor_parts).
Abbreviation asks_on_queries :=
  (Brain.asks_on_queries py_repr running_loop future_repr package config skill_registry
                         _chat get_user_context live_sensor_parts).

(** Dispatching touches the registry and the world only. *)
Lemma dispatched_frame (s s' : BState) calls rs :
  Brain.dispatched py_repr running_loop future_repr package skill_registry s calls rs s' ->
  backend s' = backend s /\ trace s' = trace s /\
  conversation_history s' = conversation_history s.
Proof.
  induction 1 as [|s call r s1 rest rs s2 Hout _ IH]; [auto|].
  destruct IH as (-> & -> & ->). exact (call_outcome_frame Hout).
Qed.

Lemma run_tools_frame calls (s : BState) :
  exists results s',
    run_tools calls s = (Return results, s') /\
    backend s' = backend s /\
    trace s' = append (trace s) (Dispatched results) /\
    conversation_history s' = conversation_history s.
Proof.
  destruct (execute_tool_calls_dispatched py_repr running_loop future_repr package
              skill_registry calls s) as (rs & s' & Hrun & Hdisp).
  destruct (dispatched_frame Hdisp) as (Hb & Ht & Hh).
  exists rs, (record_event (Dispatched rs) s').
  split; [exact Hrun|]. cbn. rewrite Hb, Ht, Hh. auto.
Qed.

Lemma run_chat_eq messages tools (s : BState) :
  run_chat messages tools s =
  (fst (_chat messages tools (backend s)),
   record_event (Queried (fst (_chat messages tools (backend s))))
                (set_backend (snd (_chat messages tools (backend s))) s)).
Proof. unfold chat. destruct (_chat messages tools (backend s)); reflexivity. Qed.

Lemma last_cons {A} (x : A) l d : last (x :: l) d = last l x.
Proof.
  revert x d. induction l as [|y l IH]; intros x d; [reflexivity|].
  change (last (x :: y :: l) d) with (last (y :: l) d).
  rewrite (IH y d), (IH y x). reflexivity.
Qed.

Lemma asks_unfold k (b : B) :
  asks k b <->
  forall messages tools,
  exists r b', _chat messages tools b = (Return r, b') /\ still_asks k r b'.
Proof. destruct k; reflexivity. Qed.

Lemma rounds_app t1 t2 : rounds (t1 ++ t2)%list = rounds t1 + rounds t2.
Proof. unfold rounds. rewrite filter_app, length_app. reflexivity. Qed.

Lemma responses_app t1 t2 : responses (t1 ++ t2)%list = (responses t1 ++ responses t2)%list.
Proof.
  induction t1 as [|[[r|e]|rs] t1 IH]; simpl; congruence.
Qed.

(** The bound of the loop, read on the counter: [left] stands for
    [max_concurrent_tools - iteration]. *)
Lemma loop_bound_reads_counter (cap iteration : Z) :
  (iteration <? cap)%Z
  = match Z.to_nat (cap - iteration) with S _ => true | O => false end /\
  Z.to_nat (cap - (iteration + 1)) = Nat.pred (Z.to_nat (cap - iteration)).
Proof.
  split; [|lia].
  destruct (Z.to_nat (cap - iteration)) eqn:E.
  - apply Z.ltb_ge. lia.
  - apply Z.ltb_lt. lia.
Qed.

(** One round, split at its query. *)
Lemma run_round_eq response messages tools (s : BState) :
  exists results s1,
    backend s1 = backend s /\
    trace s1 = append (trace s) (Dispatched results) /\
    conversation_history s1 = conversation_history s /\
    let messages1 :=
      append (append messages
                {| role := "assistant";
                   content := str_or (resp_content response) "(calling tools)" |})
             {| role := "user";
                content := "Tool results:" ++ nl ++ join nl (map summary_line results) |} in
    run_tools (tool_calls response) s = (Return results, s1) /\
    run_round response messages tools s =
    match _chat messages1 tools (backend s1) with
    | (Return r, b') =>
        (Return (r, messages1), record_event (Queried (Return r)) (set_backend b' s1))
    | (Raise e, b') => (Raise e, record_event (Queried (Raise e)) (set_backend b' s1))
    end.
Proof.
  destruct (run_tools_frame (tool_calls response) s)
    as (results & s1 & Hrun & Hb1 & Ht1 & Hh1).
  exists results, s1. split; [exact Hb1|]. split; [exact Ht1|]. split; [exact Hh1|].
  cbv zeta. split; [exact Hrun|].
  unfold loop_round. rewrite (bind_return _ _ _ Hrun).
  unfold bind. rewrite run_chat_eq.
  destruct (_chat _ tools (backend s1)) as [[r|e] b']; reflexivity.
Qed.

(** The loop in a turn in which the backend asks for invocations [k] more
    times: it runs [min k left] rounds and ends on the response that follows
    them. *)
Lemma run_loop_rounds (left : nat) :
  forall (k : nat) iteration response messages tools (s : BState),
    asks_from k response messages tools s ->
    exists final messages' s' evs,
      run_loop left iteration response messages tools s
      = (Return ((iteration + Z.of_nat (Nat.min k left))%Z, final, messages'), s') /\
      added s s' evs /\
      rounds evs = Nat.min k left /\
      length (responses evs) = Nat.min k left /\
      last (responses evs) response = final /\
      conversation_history s' = conversation_history s /\
      (k <= left -> tool_calls final = []) /\
      (left < k -> tool_calls final <> []).
Proof.
  induction left as [|left IH]; intros k iteration response messages tools s Hk.
  - exists response, messages, s, [].
    rewrite Nat.min_0_r, Z.add_0_r. unfold added. rewrite app_nil_r.
    repeat split; auto.
    + cbn [tool_loop]. destruct (tool_calls response); reflexivity.
    + intros Hle. destruct k; [exact Hk|lia].
    + intros Hlt. destruct k; [lia|apply Hk].
  - destruct k as [|k].
    + exists response, messages, s, [].
      cbn [Nat.min]. rewrite Z.add_0_r. unfold added. rewrite app_nil_r.
      cbn [Brain.asks_from] in Hk.
      repeat split; auto; try lia.
      cbn [tool_loop]. rewrite Hk. reflexivity.
    + destruct Hk as [Hcalls Hnext].
      destruct (run_round_eq response messages tools s)
        as (results & s1 & Hb1 & Ht1 & Hh1 & Hrun & Hround).
      cbv zeta in Hround.
      set (messages1 :=
             append (append messages
                       {| role := "assistant";
                          content := str_or (resp_content response) "(calling tools)" |})
                    {| role := "user";
                       content := "Tool results:" ++ nl
                                    ++ join nl (map summary_line results) |}) in *.
      rewrite Hround in Hnext.
      destruct (_chat messages1 tools (backend s1)) as [[r|e] b'] eqn:Hchat;
        [|contradiction].
      destruct (tool_calls response) as [|c cs] eqn:Ecalls; [congruence|].
      set (s2 := record_event (Queried (Return r)) (set_backend b' s1)) in *.
      destruct (IH k (iteration + 1)%Z r messages1 tools s2) as
          (final & messages' & s' & evs & Hloop & Hadd & Hrounds & Hlen & Hlast & Hh & Hle & Hlt).
      { exact Hnext. }
      exists final, messages', s', ([Dispatched results; Queried (Return r)] ++ evs)%list.
      split; [|split; [|split; [|split; [|split; [|split; [|split]]]]]].
      * cbn [tool_loop]. rewrite Ecalls.
        rewrite (bind_return _ _ _ Hrun). fold messages1.
        unfold bind at 1. rewrite run_chat_eq, Hchat. cbn [fst snd].
        fold s2. rewrite Hloop.
        replace (iteration + 1 + Z.of_nat (Nat.min k left))%Z
          with (iteration + Z.of_nat (Nat.min (S k) (S left)))%Z
          by (rewrite <- Nat.succ_min_distr; lia).
        reflexivity.
      * unfold added in *. rewrite Hadd. subst s2. cbn [trace record_event set_backend].
        rewrite Ht1. unfold append. rewrite <- !app_assoc. reflexivity.
      * rewrite rounds_app, Hrounds, <- Nat.succ_min_distr. reflexivity.
      * rewrite responses_app, length_app, Hlen, <- Nat.succ_min_distr. reflexivity.
      * rewrite responses_app. cbn [responses app]. rewrite last_cons. exact Hlast.
      * rewrite Hh. subst s2. cbn. exact Hh1.
      * intros Hle'. apply Hle. lia.
      * intros Hlt'. apply Hlt. lia.
Qed.

(** A backend that requests invocations [k] more times whatever it is asked
    does so in every turn. *)
Lemma still_asks_in_every_turn (k : nat) :
  forall response messages tools (s : BState),
    still_asks k response (backend s) -> asks_from k response messages tools s.
Proof.
  induction k as [|k IH]; intros response messages tools s Hk; [exact Hk|].
  destruct Hk as [Hcalls Hnext]. split; [exact Hcalls|].
  destruct (run_round_eq response messages tools s)
    as (results & s1 & Hb1 & Ht1 & Hh1 & Hrun & Hround).
  cbv zeta in Hround. rewrite Hround.
  rewrite asks_unfold in Hnext.
  destruct (Hnext (append (append messages
                             {| role := "assistant";
                                content := str_or (resp_content response)
                                                  "(calling tools)" |})
                          {| role := "user";
                             content := "Tool results:" ++ nl
                                          ++ join nl (map summary_line results) |})
                  tools) as (r & b' & Hchat & Hr).
  rewrite <- Hb1 in Hchat. rewrite Hchat.
  apply IH. exact Hr.
Qed.

(** The loop against any backend: it leaves the history alone, and a query
    that raised is the last thing it did. *)
Lemma run_loop_trace (left : nat) :
  forall iteration response messages tools (s : BState),
  exists r s' evs,
    run_loop left iteration response messages tools s = (r, s') /\
    added s s' evs /\
    conversation_history s' = conversation_history s /\
    match r with
    | Return _ => forall e, ~ In (Queried (Raise e)) evs
    | Raise e => forall e', In (Queried (Raise e')) evs -> e' = e
    end.
Proof.
  induction left as [|left IH]; intros iteration response messages tools s.
  - eexists. exists s, []. unfold added. rewrite app_nil_r.
    split; [|split; [reflexivity|split; [reflexivity|]]].
    + cbn [tool_loop]. destruct (tool_calls response); reflexivity.
    + intros e [].
  - destruct (tool_calls response) as [|c cs] eqn:Ecalls.
    + eexists. exists s, []. unfold added. rewrite app_nil_r.
      split; [|split; [reflexivity|split; [reflexivity|]]].
      * cbn [tool_loop]. rewrite Ecalls. reflexivity.
      * intros e [].
    + destruct (run_tools_frame (c :: cs) s) as (results & s1 & Hrun & Hb1 & Ht1 & Hh1).
      set (messages1 :=
             append (append messages
                       {| role := "assistant";
                          content := str_or (resp_content response) "(calling tools)" |})
                    {| role := "user";
                       content := "Tool results:" ++ nl
                                    ++ join nl (map summary_line results) |}).
      destruct (_chat messages1 tools (backend s1)) as [[r|e] b'] eqn:Hchat.
      * set (s2 := record_event (Queried (Return r)) (set_backend b' s1)).
        destruct (IH (iteration + 1)%Z r messages1 tools s2)
          as (res & s' & evs & Hloop & Hadd & Hh & Hres).
        exists res, s', ([Dispatched results; Queried (Return r)] ++ evs)%list.
        split; [|split; [|split]].
        -- cbn [tool_loop]. rewrite Ecalls.
           rewrite (bind_return _ _ _ Hrun). fold messages1.
           unfold bind at 1. rewrite run_chat_eq, Hchat. cbn [fst snd].
           fold s2. exact Hloop.
        -- unfold added in *. rewrite Hadd. subst s2.
           cbn [trace record_event set_backend].
           rewrite Ht1. unfold append. rewrite <- !app_assoc. reflexivity.
        -- rewrite Hh. subst s2. cbn. exact Hh1.
        -- destruct res as [x|e].
           ++ intros e [Hd|[Hq|Hin]]; try discriminate. exact (Hres e Hin).
           ++ intros e' [Hd|[Hq|Hin]]; try discriminate. exact (Hres e' Hin).
      * exists (Raise e), (record_event (Queried (Raise e)) (set_backend b' s1)),
          [Dispatched results; Queried (Raise e)].
        split; [|split; [|split]].
        -- cbn [tool_loop]. rewrite Ecalls.
           rewrite (bind_return _ _ _ Hrun). fold messages1.
           unfold bind at 1. rewrite run_chat_eq, Hchat. reflexivity.
        -- unfold added. cbn [trace record_event set_backend].
           rewrite Ht1. unfold append. rewrite <- !app_assoc. reflexivity.
        -- cbn. exact Hh1.
        -- intros e' [Hd|[Hq|[]]]; [discriminate|congruence].
Qed.

(** The [try] block: when it raises, a query raised that exception, no
    other query raised and the history is as the block found it. *)
Lemma run_try_trace messages tools (s : BState) :
  exists r s' evs,
    run_try messages tools s = (r, s') /\
    added s s' evs /\
    match r with
    | Return _ => forall e, ~ In (Queried (Raise e)) evs
    | Raise e => (forall e', In (Queried (Raise e')) evs -> e' = e) /\
                 conversation_history s' = conversation_history s
    end.
Proof.
  unfold think_try.
  destruct (_chat messages tools (backend s)) as [[r|e] b'] eqn:Hchat.
  - set (s1 := record_event (Queried (Return r)) (set_backend b' s)).
    destruct (run_loop_trace (Z.to_nat (max_concurrent_tools config - 0)) 0 r
                messages tools s1) as (res & s2 & evs & Hloop & Hadd & Hh & Hres).
    destruct res as [[[iteration final] messages']|e].
    + set (text := str_or (resp_content final) "Action completed.").
      set (s3 := set_history (append (conversation_history s2)
                                     {| role := "assistant"; content := text |}) s2).
      exists (Return text), (snd (Brain._trim_history config s3)),
        (Queried (Return r) :: evs).
      split; [|split].
      * unfold bind at 1. rewrite run_chat_eq, Hchat. cbn [fst snd]. fold s1.
        rewrite (bind_return _ _ _ Hloop). reflexivity.
      * unfold added in *. unfold _trim_history, modify. cbn [snd].
        match goal with |- context [if ?c then _ else _] => destruct c end;
          subst s3; cbn [trace set_history]; rewrite Hadd; subst s1; cbn;
          unfold append; rewrite <- app_assoc; reflexivity.
      * intros e [Hq|Hin]; [discriminate|exact (Hres e Hin)].
    + exists (Raise e), s2, (Queried (Return r) :: evs).
      split; [|split; [|split]].
      * unfold bind at 1. rewrite run_chat_eq, Hchat. cbn [fst snd]. fold s1.
        rewrite (bind_raise _ _ _ Hloop). reflexivity.
      * unfold added in *. rewrite Hadd. subst s1. cbn.
        unfold append. rewrite <- app_assoc. reflexivity.
      * intros e' [Hq|Hin]; [discriminate|exact (Hres e' Hin)].
      * rewrite Hh. reflexivity.
  - exists (Raise e), (record_event (Queried (Raise e)) (set_backend b' s)),
      [Queried (Raise e)].
    split; [|split; [|split]].
    + unfold bind at 1. rewrite run_chat_eq, Hchat. reflexivity.
    + reflexivity.
    + intros e' [Hq|[]]. congruence.
    + reflexivity.
Qed.

(** [_get_tool_definitions] may run the discovery; nothing else moves. *)
Lemma get_tools_frame (s : BState) :
  exists tools s',
    Brain._get_tool_definitions (B := B) package skill_registry s = (Return tools, s') /\
    backend s' = backend s /\ trace s' = trace s /\
    conversation_history s' = conversation_history s.
Proof.
  unfold _get_tool_definitions. destruct skill_registry.
  - destruct (Skills.list_skills package (registry s)) as [skills r].
    eexists. eexists. split; [reflexivity|]. cbn. auto.
  - eexists. eexists. split; [reflexivity|]. auto.
Qed.

(** [think], split at its [try] block. *)
Lemma run_think_eq user_input (s : BState) :
  exists messages tools s1,
    conversation_history s1
    = append (conversation_history s) {| role := "user"; content := user_input |} /\
    backend s1 = backend s /\ trace s1 = trace s /\
    run_think user_input s =
    try_except (run_try messages tools)
               (fun e => ret ("Error while thinking: " ++ exn_str e)) s1.
Proof.
  set (s0 := set_history (append (conversation_history s)
                                 {| role := "user"; content := user_input |}) s).
  destruct (get_tools_frame s0) as (tools & s1 & Htools & Hb & Ht & Hh).
  eexists. exists tools, s1. split; [|split; [|split]].
  - rewrite Hh. reflexivity.
  - rewrite Hb. reflexivity.
  - rewrite Ht. reflexivity.
  - unfold think. unfold bind at 1. cbn [modify]. fold s0.
    unfold bind at 1. unfold _build_messages at 1.
    rewrite (bind_return _ _ _ Htools). reflexivity.
Qed.

(** The first query of [think] is the first query of its [try] block. *)
Lemma run_first_query_eq user_input (s : BState) :
  exists messages tools s1,
    backend s1 = backend s /\ trace s1 = trace s /\
    run_think user_input s =
    try_except (run_try messages tools)
               (fun e => ret ("Error while thinking: " ++ exn_str e)) s1 /\
    run_first_query user_input s =
    (response <- run_chat messages tools ;; ret (response, messages, tools)) s1.
Proof.
  set (s0 := set_history (append (conversation_history s)
                                 {| role := "user"; content := user_input |}) s).
  destruct (get_tools_frame s0) as (tools & s1 & Htools & Hb & Ht & Hh).
  eexists. exists tools, s1. split; [|split; [|split]].
  - rewrite Hb. reflexivity.
  - rewrite Ht. reflexivity.
  - unfold think. unfold bind at 1. cbn [modify]. fold s0.
    unfold bind at 1. unfold _build_messages at 1.
    rewrite (bind_return _ _ _ Htools). reflexivity.
  - unfold first_query. unfold bind at 1. cbn [modify]. fold s0.
    unfold bind at 1. unfold _build_messages at 1.
    rewrite (bind_return _ _ _ Htools). reflexivity.
Qed.

(** C9. [think] never raises; in a turn in which a backend query raised it
    returns the one text "Error while thinking: ..." built from that
    exception, and the history then holds what it held before the turn
    followed by the user message, with no assistant message after it. *)
Theorem think_reports_backend_failure user_input (s : BState) :
  exists text s' evs,
    run_think user_input s = (Return text, s') /\
    added s s' evs /\
    forall e, In (Queried (Raise e)) evs ->
              text = "Error while thinking: " ++ exn_str e /\
              conversation_history s'
              = append (conversation_history s)
                       {| role := "user"; content := user_input |}.
Proof.
  destruct (run_think_eq user_input s) as (messages & tools & s1 & Hh1 & Hb1 & Ht1 & Heq).
  destruct (run_try_trace messages tools s1) as (r & s' & evs & Hrun & Hadd & Hres).
  destruct r as [text|e].
  - exists text, s', evs. split; [|split].
    + rewrite Heq. unfold try_except. rewrite Hrun. reflexivity.
    + unfold added in *. rewrite Hadd, Ht1. reflexivity.
    + intros e Hin. exfalso. exact (Hres e Hin).
  - destruct Hres as [Honly Hh].
    exists ("Error while thinking: " ++ exn_str e), s', evs. split; [|split].
    + rewrite Heq. unfold try_except. rewrite Hrun. reflexivity.
    + unfold added in *. rewrite Hadd, Ht1. reflexivity.
    + intros e' Hin. rewrite (Honly e' Hin), Hh, Hh1. auto.
Qed.

(** The [try] block in a turn in which the backend asks for invocations [k]
    times. *)
Lemma run_try_rounds (k : nat) messages tools (s : BState) r b' :
  _chat messages tools (backend s) = (Return r, b') ->
  asks_from k r messages tools (record_event (Queried (Return r)) (set_backend b' s)) ->
  let left := Z.to_nat (max_concurrent_tools config) in
  exists text s' evs final,
    run_try messages tools s = (Return text, s') /\
    added s s' evs /\
    final_response evs = Some final /\
    text = str_or (resp_content final) "Action completed." /\
    rounds evs = Nat.min k left /\
    length (responses evs) = S (Nat.min k left) /\
    (k <= left -> tool_calls final = []) /\
    (left < k -> tool_calls final <> []).
Proof.
  intros Hchat Hr left.
  set (s1 := record_event (Queried (Return r)) (set_backend b' s)) in *.
  destruct (run_loop_rounds left k 0 r messages tools s1 Hr)
    as (final & messages' & s2 & evs & Hloop & Hadd & Hrounds & Hlen & Hlast & Hh & Hle & Hlt).
  set (text := str_or (resp_content final) "Action completed.").
  set (s3 := set_history (append (conversation_history s2)
                                 {| role := "assistant"; content := text |}) s2).
  exists text, (snd (Brain._trim_history config s3)), (Queried (Return r) :: evs), final.
  split; [|split; [|split; [|split; [|split; [|split; [|split]]]]]].
  - unfold think_try. unfold bind at 1. rewrite run_chat_eq, Hchat. cbn [fst snd].
    fold s1. rewrite Z.sub_0_r. fold left.
    rewrite (bind_return _ _ _ Hloop). reflexivity.
  - unfold added in *. unfold _trim_history, modify. cbn [snd].
    match goal with |- context [if ?c then _ else _] => destruct c end;
      subst s3; cbn [trace set_history]; rewrite Hadd; subst s1; cbn;
      unfold append; rewrite <- app_assoc; reflexivity.
  - unfold final_response. cbn [responses map]. rewrite last_cons.
    rewrite <- Hlast. clear. generalize (responses evs) as l. intros l.
    revert r. induction l as [|x l IH]; intros r; [reflexivity|].
    cbn [map]. rewrite !last_cons. apply IH.
  - reflexivity.
  - cbn. exact Hrounds.
  - cbn [responses length]. rewrite Hlen. reflexivity.
  - exact Hle.
  - exact Hlt.
Qed.

(** C1, amended. In a turn in which the backend requests invocations on
    its queries 1..k and none on query k+1, one call of [think] runs exactly
    [k] rounds when [k < max_concurrent_tools] and exactly
    [max_concurrent_tools] rounds (none for a cap below 0) otherwise; it
    returns the text of the last response it received, or "Action
    completed." when that text is empty; that response is the one of query
    k+1 in the first case, and in the second it may still request
    invocations.  The queries are those of the turn itself, each on the
    messages that carry the results of the rounds before it. *)
Theorem think_runs_bounded_rounds (k : nat) user_input (s : BState) :
  asks_on_queries k user_input s ->
  exists text s' evs final,
    run_think user_input s = (Return text, s') /\
    added s s' evs /\
    final_response evs = Some final /\
    text = str_or (resp_content final) "Action completed." /\
    length (responses evs) = S (rounds evs) /\
    ((Z.of_nat k < max_concurrent_tools config)%Z ->
     rounds evs = k /\ tool_calls final = []) /\
    ((max_concurrent_tools config <= Z.of_nat k)%Z ->
     Z.of_nat (rounds evs) = Z.max 0 (max_concurrent_tools config) /\
     ((Z.max 0 (max_concurrent_tools config) < Z.of_nat k)%Z ->
      tool_calls final <> [])).
Proof.
  intros Hk.
  destruct (run_first_query_eq user_input s)
    as (messages & tools & s1 & Hb1 & Ht1 & Heq & Hfirst).
  unfold Brain.asks_on_queries in Hk. rewrite Hfirst in Hk.
  unfold bind in Hk. rewrite run_chat_eq in Hk.
  destruct (_chat messages tools (backend s1)) as [[r|e] b'] eqn:Hchat;
    cbn [fst snd ret] in Hk; [|contradiction].
  destruct (@run_try_rounds k messages tools s1 r b' Hchat Hk)
    as (text & s' & evs & final & Hrun & Hadd & Hfinal & Htext & Hrounds & Hlen & Hle & Hlt).
  exists text, s', evs, final.
  split; [|split; [|split; [|split; [|split; [|split]]]]].
  - rewrite Heq. unfold try_except. rewrite Hrun. reflexivity.
  - unfold added in *. rewrite Hadd, Ht1. reflexivity.
  - exact Hfinal.
  - exact Htext.
  - rewrite Hlen, Hrounds. reflexivity.
  - intros Hlt'. split; [rewrite Hrounds; lia|apply Hle; lia].
  - intros Hge. split; [rewrite Hrounds; lia|].
    intros Hgt. apply Hlt. lia.
Qed.

End ThinkFacts.

Lemma think_reports_backend_failure_witness :
  In (Brain.Queried (Raise Examples.unreachable))
     (Brain.trace (snd (Examples.think 5 "hello" (Examples.fresh_brain [])))) /\
  fst (Examples.think 5 "hello" (Examples.fresh_brain []))
  = Return "Error while thinking: backend unreachable" /\
  Brain.conversation_history (snd (Examples.think 5 "hello" (Examples.fresh_brain [])))
  = [ {| Brain.role := "user"; Brain.content := "hello" |} ].
Proof.
  split; [left; reflexivity|].
  destruct (think_reports_backend_failure
              Examples.quote false "" [] (Examples.config 5) true Examples.scripted
              (fun _ : unit => "") (fun _ : unit => []) "hello" (Examples.fresh_brain []))
    as (text & s' & evs & Hrun & Hadd & Hfail).
  change (Examples.think 5 "hello" (Examples.fresh_brain []) = (Return text, s')) in Hrun.
  rewrite Hrun. cbn [fst snd].
  assert (Hevs : evs = [Brain.Queried (Raise Examples.unreachable)]).
  { unfold Brain.added in Hadd. cbn [Examples.fresh_brain Brain.trace app] in Hadd.
    rewrite <- Hadd. vm_compute in Hrun. inversion Hrun. reflexivity. }
  destruct (Hfail Examples.unreachable) as [Htext Hhist].
  { rewrite Hevs. left. reflexivity. }
  split; [rewrite Htext; reflexivity|exact Hhist].
Defined.

(** C1, as the claim states it, fails on two counts: a final response
    without text is not what [think] returns (k = 0, cap = 5), and a cap below
    0 cannot be the number of rounds (k = 1, cap = -1: no round is run). *)
Lemma think_does_not_return_empty_text :
  (Brain.requests_for Examples.scripted 0 [Return Examples.silent_reply] /\
   Examples.scripted_asks 5 0 "hello"
     (Examples.fresh_brain [Return Examples.silent_reply]) /\
   Brain.responses
     (Brain.trace (snd (Examples.think 5 "hello"
                          (Examples.fresh_brain [Return Examples.silent_reply]))))
   = [Examples.silent_reply] /\
   fst (Examples.think 5 "hello" (Examples.fresh_brain [Return Examples.silent_reply]))
   = Return "Action completed." /\
   fst (Examples.think 5 "hello" (Examples.fresh_brain [Return Examples.silent_reply]))
   <> Return (Brain.resp_content Examples.silent_reply)) /\
  (Brain.requests_for Examples.scripted 1
     [Return Examples.time_request; Return Examples.time_answer] /\
   Examples.scripted_asks (-1) 1 "hello"
     (Examples.fresh_brain
        [Return Examples.time_request; Return Examples.time_answer]) /\
   (Brain.max_concurrent_tools (Examples.config (-1)) <= 1)%Z /\
   Z.of_nat
     (Brain.rounds
        (Brain.trace
           (snd (Examples.think (-1) "hello"
                   (Examples.fresh_brain
                      [Return Examples.time_request; Return Examples.time_answer])))))
   <> Brain.max_concurrent_tools (Examples.config (-1))).
Proof.
  split; [split; [|split; [|split; [|split]]]|split; [|split; [|split]]].
  - intros messages tools. exists Examples.silent_reply, []. split; reflexivity.
  - reflexivity.
  - reflexivity.
  - reflexivity.
  - discriminate.
  - intros messages tools. exists Examples.time_request, [Return Examples.time_answer].
    split; [reflexivity|]. split; [discriminate|].
    intros messages' tools'. exists Examples.time_answer, []. split; reflexivity.
  - vm_compute. split; [discriminate|reflexivity].
  - cbn. lia.
  - vm_compute. discriminate.
Qed.

(** The backend [Examples.reactive] requests an invocation or not by the
    messages it is shown, so it does not request one whatever it is asked. *)
Lemma reactive_backend_answers_by_messages :
  ~ Brain.requests_for Examples.reactive 1 tt.
Proof.
  intros H.
  destruct (H [ {| Brain.role := "user"; Brain.content := "Tool results:" |} ] [])
    as (r & b' & Hchat & Hcalls & _).
  apply Hcalls. inversion Hchat. reflexivity.
Qed.

Lemma think_runs_bounded_rounds_witness :
  Examples.reactive_asks 5 1 "What time is it?" Examples.reactive_brain /\
  exists text s' evs final,
    Examples.think_reactive 5 "What time is it?" Examples.reactive_brain
    = (Return text, s') /\
    Brain.added Examples.reactive_brain s' evs /\
    Brain.final_response evs = Some final /\
    text = str_or (Brain.resp_content final) "Action completed." /\
    Brain.rounds evs = 1 /\
    Brain.tool_calls final = [].
Proof.
  assert (Hasks : Examples.reactive_asks 5 1 "What time is it?" Examples.reactive_brain).
  { vm_compute. split; [discriminate|reflexivity]. }
  split; [exact Hasks|].
  destruct (think_runs_bounded_rounds
              Examples.quote false "" [] (Examples.config 5) true Examples.reactive
              (fun _ : unit => "") (fun _ : unit => []) 1 "What time is it?"
              Examples.reactive_brain Hasks)
    as (text & s' & evs & final & Hrun & Hadd & Hfinal & Htext & Hlen & Hlt & Hge).
  exists text, s', evs, final.
  destruct Hlt as [Hrounds Hcalls]; [cbn; lia|].
  repeat split; assumption.
Defined.

(** ** The thought cycle *)

Section EngineFacts.
Import ThoughtEngine.

Variables W B Task : Type.
Variable _chat : list Brain.Message -> list Brain.ToolDef -> B
                 -> outcome Brain.Response * B.
Variable system_prompt : string.
Variables py_strip py_upper py_lower : string -> string.
Variable py_float : string -> option pyfloat.
Variable py_str : value -> string.
Variable py_hash : string -> Z.
Variable format_detections : value -> outcome string.
Variable format_system : value -> outcome string.

Abbreviation EState := (ThoughtEngine.State W B Task).
Abbreviation deep_think :=
  (ThoughtEngine._deep_think (Task := Task) _chat system_prompt py_strip py_upper
                             py_lower py_float format_detections format_system).
Abbreviation run_pass :=
  (ThoughtEngine.think_loop_pass (Task := Task) _chat system_prompt py_strip py_upper
                                 py_lower py_float py_str py_hash format_detections
                                 format_system).
Abbreviation fingerprint := (ThoughtEngine.context_hash py_str py_hash).
Abbreviation prompt_of := (ThoughtEngine.build_prompt format_detections format_system).
Abbreviation parse := (ThoughtEngine.parse_reply py_strip py_upper py_lower py_float).
Abbreviation on_error := (ThoughtEngine.internal_error (W := W) (B := B) (Task := Task)).

(** One pass, case by case: lines 122-144. *)
Lemma run_pass_cases now clock error_clock (s : EState) :
  run_pass now clock error_clock s =
  let s1 := next_cycle s in
  let context := gather now s1 in
  match brain s with
  | None => (Return tt, s1)
  | Some _ =>
      if String.eqb (fingerprint context) (_last_context_hash s)
         && negb ((_cycle_count s + 1) mod 3 =? 0)%Z
      then (Return tt, s1)
      else try_except (deep_think context clock) (on_error error_clock)
                      (set_last_context_hash (fingerprint context) s1)
  end.
Proof.
  unfold think_loop_pass, _run_thought_cycle, _gather_context, try_except, bind,
    modify, gets, get.
  cbn [next_cycle set_cycle_count brain _last_context_hash _cycle_count].
  destruct (brain s) as [br|]; [|reflexivity].
  destruct (String.eqb _ _ && _); reflexivity.
Qed.

(** [_deep_think], case by case: lines 176-255. *)
Lemma deep_think_cases context clock (s : EState) :
  deep_think context clock s =
  match brain s with
  | None => (Return tt, s)
  | Some br =>
      match prompt_of context with
      | Raise e => (Raise e, s)
      | Return prompt =>
          let reply := _chat (thought_messages system_prompt prompt) [] (Brain.backend br) in
          let br' := Brain.record_event (Brain.Queried (fst reply))
                                        (Brain.set_backend (snd reply) br) in
          let s1 := set_brain (Some br') s in
          match fst reply with
          | Raise _ => (Return tt, s1)
          | Return response =>
              match parse (Brain.resp_content response) with
              | Raise _ => (Return tt, s1)
              | Return p =>
                  if (match p_thought_text p with EmptyString => false | _ => true end)
                     && (5 <? len (p_thought_text p))%nat
                  then (Return tt,
                        set_thoughts
                          (snd (_add_thought (p_thought_text p) (p_category p)
                                             (p_speak_score p) clock (_THOUGHTS s1)))
                          s1)
                  else (Return tt, s1)
              end
          end
      end
  end.
Proof.
  unfold _deep_think. destruct (brain s) as [br|] eqn:Ebr; [|reflexivity].
  destruct (build_prompt _ _ _) as [prompt|e]; [|reflexivity].
  unfold try_except, bind at 1, brain_chat. rewrite Ebr.
  unfold Brain.chat.
  destruct (_chat (thought_messages system_prompt prompt) [] (Brain.backend br))
    as [[response|e] b']; cbn [fst snd]; [|reflexivity].
  unfold bind at 1.
  destruct (parse_reply _ _ _ _ _) as [p|e]; [|reflexivity].
  destruct (_ && _); [|reflexivity].
  unfold bind, add_thought, ret. cbv zeta.
  destruct (_add_thought _ _ _ _ _) as [t ts]. reflexivity.
Qed.

(** [_deep_think] and the [except] clause leave the fields of the engine
    and the presence of the brain as they are. *)
Lemma deep_think_frame context clock (s : EState) :
  let s' := snd (deep_think context clock s) in
  _cycle_count s' = _cycle_count s /\
  _last_context_hash s' = _last_context_hash s /\
  (brain s' = None <-> brain s = None).
Proof.
  rewrite deep_think_cases.
  destruct (brain s) as [br|] eqn:Ebr; [|cbn; rewrite Ebr; tauto].
  destruct (prompt_of context) as [prompt|e]; [|cbn; rewrite Ebr; tauto].
  cbv zeta.
  destruct (fst (_chat _ _ _)) as [response|e];
    [destruct (parse _) as [p|e]; [destruct (_ && _)|]|];
    cbn; (split; [reflexivity|split; [reflexivity|split; discriminate]]).
Qed.

Lemma on_error_frame error_clock e (s : EState) :
  let s' := snd (on_error error_clock e s) in
  _cycle_count s' = _cycle_count s /\
  _last_context_hash s' = _last_context_hash s /\
  (brain s' = None <-> brain s = None).
Proof.
  unfold internal_error, bind, add_thought, ret.
  destruct (_add_thought _ _ _ _ _) as [t ts]. cbn. tauto.
Qed.

(** After a pass of an engine that holds a brain, the stored fingerprint is
    the fingerprint of the context the pass gathered. *)
Lemma run_pass_records_fingerprint now clock error_clock (s : EState) :
  let s' := snd (run_pass now clock error_clock s) in
  _cycle_count s' = (_cycle_count s + 1)%Z /\
  (brain s' = None <-> brain s = None) /\
  (brain s <> None ->
   _last_context_hash s' = fingerprint (gather now (next_cycle s))).
Proof.
  rewrite run_pass_cases. cbv zeta.
  destruct (brain s) as [br|] eqn:Ebr.
  - destruct (String.eqb _ _ && _) eqn:Econd.
    + cbn. rewrite Ebr. split; [reflexivity|]. split; [tauto|]. intros _.
      apply andb_true_iff in Econd as [Eeq _].
      apply String.eqb_eq in Eeq. symmetry. exact Eeq.
    + set (h := fingerprint (gather now (next_cycle s))).
      set (s1 := set_last_context_hash h (next_cycle s)).
      pose proof (deep_think_frame (gather now (next_cycle s)) clock s1) as Hd.
      unfold try_except.
      destruct (deep_think (gather now (next_cycle s)) clock s1) as [[u|e] s2].
      * cbn [snd] in *. destruct Hd as (Hc & Hl & Hb).
        rewrite Hc, Hl, Hb. subst s1. cbn. rewrite Ebr.
        split; [reflexivity|]. split; [tauto|]. reflexivity.
      * cbn [snd] in Hd. destruct Hd as (Hc & Hl & Hb).
        destruct (on_error_frame error_clock e s2) as (Hc' & Hl' & Hb').
        rewrite Hc', Hl', Hb', Hc, Hl, Hb. subst s1. cbn. rewrite Ebr.
        split; [reflexivity|]. split; [tauto|]. reflexivity.
  - cbn. rewrite Ebr. split; [reflexivity|]. split; [tauto|]. congruence.
Qed.

(** C5. Take two consecutive passes of the engine that gather contexts
    with the same detection fingerprint.  When the cycle counter of the second
    is not divisible by 3, the second pass only counts the cycle: it appends
    no thought and does not query the backend.  When it is divisible by 3,
    the second pass runs [_deep_think] on its context, as a pass with a new
    fingerprint does. *)
Theorem unchanged_fingerprint_skips_unless_third
        now1 clock1 error_clock1 now2 clock2 error_clock2 (s0 s1 : EState) :
  let after1 := snd (run_pass now1 clock1 error_clock1 s0) in
  _cycle_count s1 = _cycle_count after1 ->
  _last_context_hash s1 = _last_context_hash after1 ->
  (brain s1 = None <-> brain s0 = None) ->
  fingerprint (gather now2 (next_cycle s1)) = fingerprint (gather now1 (next_cycle s0)) ->
  (((_cycle_count s1 + 1) mod 3 <> 0)%Z ->
   run_pass now2 clock2 error_clock2 s1 = (Return tt, next_cycle s1)) /\
  (((_cycle_count s1 + 1) mod 3 = 0)%Z ->
   run_pass now2 clock2 error_clock2 s1 =
   try_except (deep_think (gather now2 (next_cycle s1)) clock2)
              (on_error error_clock2) (next_cycle s1)).
Proof.
  intros after1 Hcount Hlast Hbrain Hsame.
  destruct (run_pass_records_fingerprint now1 clock1 error_clock1 s0)
    as (_ & _ & Hrec). fold after1 in Hrec.
  rewrite run_pass_cases. cbv zeta.
  destruct (brain s1) as [br|] eqn:Ebr.
  - assert (Hs0 : brain s0 <> None).
    { intros H0. apply Hbrain in H0. discriminate. }
    assert (Heq : _last_context_hash s1 = fingerprint (gather now2 (next_cycle s1))).
    { rewrite Hlast, Hsame. apply Hrec, Hs0. }
    rewrite <- Heq, String.eqb_refl. cbn [andb].
    split; intros Hmod.
    + apply Z.eqb_neq in Hmod. rewrite Hmod. reflexivity.
    + apply Z.eqb_eq in Hmod. rewrite Hmod. cbn [negb].
      replace (set_last_context_hash (_last_context_hash s1) (next_cycle s1))
        with (next_cycle s1) by (destruct s1; reflexivity).
      reflexivity.
  - split; intros _; [reflexivity|].
    unfold try_except, _deep_think. cbn [next_cycle set_cycle_count brain].
    rewrite Ebr. reflexivity.
Qed.

(** A reply whose thought text has at most five characters adds nothing. *)
Lemma deep_think_discards context clock (s : EState) br prompt response b' p :
  brain s = Some br ->
  prompt_of context = Return prompt ->
  _chat (thought_messages system_prompt prompt) [] (Brain.backend br) = (Return response, b') ->
  parse (Brain.resp_content response) = Return p ->
  len (p_thought_text p) <= 5 ->
  exists s', deep_think context clock s = (Return tt, s') /\
             _THOUGHTS s' = _THOUGHTS s.
Proof.
  intros Hbr Hprompt Hchat Hparse Hlen.
  unfold _deep_think. rewrite Hbr, Hprompt.
  unfold try_except, bind at 1, brain_chat. rewrite Hbr.
  unfold Brain.chat. rewrite Hchat.
  unfold bind at 1. rewrite Hparse.
  replace (5 <? len (p_thought_text p))%nat with false
    by (symmetry; apply Nat.ltb_ge; exact Hlen).
  rewrite andb_false_r. eexists. split; reflexivity.
Qed.

(** C10. A thought cycle whose reply parses to a thought text that is empty
    or has at most five characters returns without adding to the buffer:
    this holds of [_deep_think] and of the whole pass of the loop, whatever
    category and score the reply carries. *)
Theorem short_thought_is_discarded :
  (forall context clock (s : EState) br prompt response b' p,
      brain s = Some br ->
      prompt_of context = Return prompt ->
      _chat (thought_messages system_prompt prompt) [] (Brain.backend br)
      = (Return response, b') ->
      parse (Brain.resp_content response) = Return p ->
      len (p_thought_text p) <= 5 ->
      exists s', deep_think context clock s = (Return tt, s') /\
                 _THOUGHTS s' = _THOUGHTS s) /\
  (forall now clock error_clock (s : EState) br prompt response b' p,
      brain s = Some br ->
      prompt_of (gather now (next_cycle s)) = Return prompt ->
      _chat (thought_messages system_prompt prompt) [] (Brain.backend br)
      = (Return response, b') ->
      parse (Brain.resp_content response) = Return p ->
      len (p_thought_text p) <= 5 ->
      exists s', run_pass now clock error_clock s = (Return tt, s') /\
                 _THOUGHTS s' = _THOUGHTS s).
Proof.
  split; [apply deep_think_discards|].
  intros now clock error_clock s br prompt response b' p Hbr Hprompt Hchat Hparse Hlen.
  rewrite run_pass_cases. cbv zeta. rewrite Hbr.
  destruct (String.eqb _ _ && _).
  - eexists. split; reflexivity.
  - set (s1 := set_last_context_hash _ _).
    destruct (deep_think_discards (gather now (next_cycle s)) clock s1
                (br := br) (prompt := prompt) (response := response) (b' := b') (p := p))
      as (s' & Hrun & Hbuf); auto.
    exists s'. unfold try_except. rewrite Hrun. split; [reflexivity|].
    rewrite Hbuf. reflexivity.
Qed.

End EngineFacts.

Lemma unchanged_fingerprint_skips_unless_third_witness :
  (let s0 := Examples.engine 0 "" [Return Examples.dark_reply] in
   let s1 := snd (Examples.think_loop_pass "12:00:00" Examples.noon Examples.noon s0) in
   ThoughtEngine.context_hash Examples.render Examples.hash
     (Examples.gather "12:00:15" (ThoughtEngine.next_cycle s1))
   = ThoughtEngine.context_hash Examples.render Examples.hash
       (Examples.gather "12:00:00" (ThoughtEngine.next_cycle s0)) /\
   ((ThoughtEngine._cycle_count s1 + 1) mod 3 <> 0)%Z /\
   Examples.think_loop_pass "12:00:15" Examples.noon Examples.noon s1
   = (Return tt, ThoughtEngine.next_cycle s1)) /\
  (let s0 := Examples.engine 1 "" [Return Examples.dark_reply; Return Examples.short_reply] in
   let s1 := snd (Examples.think_loop_pass "12:00:00" Examples.noon Examples.noon s0) in
   ((ThoughtEngine._cycle_count s1 + 1) mod 3 = 0)%Z /\
   Brain.responses
     (match ThoughtEngine.brain
              (snd (Examples.think_loop_pass "12:00:15" Examples.noon Examples.noon s1)) with
      | Some br => Brain.trace br
      | None => []
      end)
   = [Examples.dark_reply; Examples.short_reply]).
Proof.
  split.
  - intros s0 s1. split; [reflexivity|]. split; [vm_compute; discriminate|].
    assert (Hbrain : ThoughtEngine.brain s1 = None <-> ThoughtEngine.brain s0 = None)
      by (split; intros H; vm_compute in H; discriminate H).
    apply (proj1 (unchanged_fingerprint_skips_unless_third
                    Examples.scripted "You are Max." Examples.strip Examples.upper
                    Examples.lower Examples.parse_float Examples.render Examples.hash
                    Examples.format_detections Examples.format_system
                    "12:00:00" Examples.noon Examples.noon
                    "12:00:15" Examples.noon Examples.noon s0 s1
                    eq_refl eq_refl Hbrain eq_refl)).
    vm_compute. discriminate.
  - intros s0 s1. split; [reflexivity|].
    assert (Hbrain : ThoughtEngine.brain s1 = None <-> ThoughtEngine.brain s0 = None)
      by (split; intros H; vm_compute in H; discriminate H).
    pose proof (proj2 (unchanged_fingerprint_skips_unless_third
                    Examples.scripted "You are Max." Examples.strip Examples.upper
                    Examples.lower Examples.parse_float Examples.render Examples.hash
                    Examples.format_detections Examples.format_system
                    "12:00:00" Examples.noon Examples.noon
                    "12:00:15" Examples.noon Examples.noon s0 s1
                    eq_refl eq_refl Hbrain eq_refl) eq_refl) as Hpass.
    unfold Examples.think_loop_pass at 1. rewrite Hpass. reflexivity.
Defined.

Lemma short_thought_is_discarded_witness :
  ThoughtEngine.parse_reply Examples.strip Examples.upper Examples.lower
                            Examples.parse_float
                            (Brain.resp_content Examples.short_reply)
  = Return {| ThoughtEngine.p_category := "alert";
              ThoughtEngine.p_speak_score := Finite (9 # 10);
              ThoughtEngine.p_thought_text := "hi" |} /\
  len "hi" <= 5 /\
  exists s',
    Examples.think_loop_pass "12:00:00" Examples.noon Examples.noon
      (Examples.engine 0 "" [Return Examples.short_reply]) = (Return tt, s') /\
    ThoughtEngine._THOUGHTS s' = [].
Proof.
  split; [reflexivity|]. split; [cbn; lia|].
  eapply (proj2 (@short_thought_is_discarded
                   unit (list (outcome Brain.Response)) string
                   Examples.scripted "You are Max." Examples.strip Examples.upper
                   Examples.lower Examples.parse_float Examples.render Examples.hash
                   Examples.format_detections Examples.format_system)
                "12:00:00" Examples.noon Examples.noon
                (Examples.engine 0 "" [Return Examples.short_reply])).
  - reflexivity.
  - vm_compute. reflexivity.
  - reflexivity.
  - vm_compute. reflexivity.
  - cbn. lia.
Defined.

(** ** The autonomous speech loop *)

Section TalkFacts.
Import ThoughtEngine FreeTalk.

Lemma Qltb_irrefl x : Qltb x x = false.
Proof.
  unfold Qltb. apply negb_false_iff. apply Qle_bool_iff. apply Qle_refl.
Qed.

Lemma float_lt_irrefl x : float_lt x x = false.
Proof. destruct x; simpl; auto using Qltb_irrefl. Qed.

Lemma float_lt_trans a b c :
  float_lt a b = true -> float_lt b c = true -> float_lt a c = true.
Proof.
  destruct a, b, c; simpl; try discriminate; auto.
  rewrite !Qltb_lt. apply Qlt_trans.
Qed.

(** An item that is neither below nor above a number is level with it. *)
Lemma float_not_lt_trans a b c :
  b <> NaN ->
  float_lt a b = false -> float_lt b c = false -> float_lt a c = false.
Proof.
  intros Hb. destruct a, b, c; simpl; try discriminate; try congruence; auto.
  unfold Qltb. rewrite !negb_false_iff, !Qle_bool_iff.
  intros H1 H2. eapply Qle_trans; eassumption.
Qed.

(** [max(items, key=...)] returns an item that no item beats, when the keys
    are numbers. *)
Lemma max_from_upper {A} (key : A -> pyfloat) (items : list A) :
  forall cur,
    key cur <> NaN ->
    (forall x, In x items -> key x <> NaN) ->
    let r := max_from key cur items in
    In r (cur :: items) /\
    float_gt (key cur) (key r) = false /\
    forall x, In x items -> float_gt (key x) (key r) = false.
Proof.
  induction items as [|x items IH]; intros cur Hcur Hitems; cbn [max_from].
  - split; [left; reflexivity|]. split; [apply float_lt_irrefl|intros x []].
  - assert (Hx : key x <> NaN) by (apply Hitems; left; reflexivity).
    assert (Hrest : forall y, In y items -> key y <> NaN)
      by (intros y Hy; apply Hitems; right; exact Hy).
    destruct (float_gt (key x) (key cur)) eqn:E.
    + destruct (IH x Hx Hrest) as (Hin & Hself & Hall).
      split; [right; exact Hin|]. split.
      * unfold float_gt in *.
        destruct (float_lt (key (max_from key x items)) (key cur)) eqn:E'; auto.
        rewrite (@float_lt_trans _ _ _ E' E) in Hself. discriminate.
      * intros y [<-|Hy]; [exact Hself|exact (Hall y Hy)].
    + destruct (IH cur Hcur Hrest) as (Hin & Hself & Hall).
      split; [destruct Hin as [Hin|Hin]; [left; exact Hin|right; right; exact Hin]|].
      split; [exact Hself|].
      intros y [<-|Hy]; [|exact (Hall y Hy)].
      unfold float_gt in *. exact (@float_not_lt_trans _ (key cur) _ Hcur Hself E).
Qed.

Lemma speakable_score_is_number cutoff t : speakable cutoff t = true -> speak_score t <> NaN.
Proof.
  unfold speakable. rewrite !andb_true_iff. intros [[_ H] _] E.
  rewrite E in H. discriminate.
Qed.

(** What the scheduler's selection satisfies: the loop was neither paused
    nor told that the user speaks, at least [min_interval] seconds had
    passed since [_last_spoke], and the selected thought is in the buffer,
    unspoken, recent, scored above 0.5 and not beaten by any candidate. *)
Lemma selection_is_eligible_and_maximal env (s : State) best :
  selected (fst (talk_pass env s)) = Some best ->
  let c := controller s in
  let cutoff := (now_filter env - inject_Z (min_interval c + 10))%Q in
  _paused c = false /\ _user_speaking c = false /\
  (inject_Z (min_interval c) <= now_throttle env - _last_spoke c)%Q /\
  In best (FreeTalk._THOUGHTS s) /\
  spoken best = false /\
  (cutoff < timestamp_epoch best)%Q /\
  float_gt (speak_score best) (Finite (5 # 10)) = true /\
  forall t, In t (FreeTalk._THOUGHTS s) -> speakable cutoff t = true ->
            float_gt (speak_score t) (speak_score best) = false.
Proof.
  intros Hsel c cutoff. unfold talk_pass in Hsel. cbv zeta in Hsel. fold c in Hsel.
  destruct (_paused c || _user_speaking c) eqn:Eflags; [discriminate|].
  apply orb_false_iff in Eflags as [Hp Hu].
  destruct (Qltb _ _) eqn:Ethrottle; [discriminate|].
  destruct (candidates env s) as [|first others] eqn:Ecand; [discriminate|].
  set (m := max_from speak_score first others) in *.
  assert (Hbest : best = m).
  { destruct (user_speaking_at_pick env); [cbn in Hsel; congruence|].
    destruct (content m); [cbn in Hsel; congruence|].
    destruct (if speaker c then _ else _); cbn in Hsel; congruence. }
  assert (Hnum : forall x, In x (first :: others) -> speak_score x <> NaN).
  { intros x Hx. rewrite <- Ecand in Hx. unfold candidates, get_speakable_thoughts in Hx.
    apply filter_In in Hx as [_ Hx]. eapply speakable_score_is_number, Hx. }
  destruct (max_from_upper speak_score others first) as (Hin & Hself & Hall).
  { apply Hnum. left. reflexivity. }
  { intros x Hx. apply Hnum. right. exact Hx. }
  fold m in Hin, Hself, Hall. rewrite <- Hbest in *.
  rewrite <- Ecand in Hin. unfold candidates, get_speakable_thoughts in Hin.
  apply filter_In in Hin as [Hmem Hspeak]. fold c in Hspeak. fold cutoff in Hspeak.
  pose proof Hspeak as Hspeak'.
  unfold speakable in Hspeak'. rewrite !andb_true_iff in Hspeak'.
  destruct Hspeak' as [[Hrecent Hscore] Hunspoken].
  split; [exact Hp|]. split; [exact Hu|]. split.
  { unfold Qltb in Ethrottle. apply negb_false_iff, Qle_bool_iff in Ethrottle.
    exact Ethrottle. }
  split; [exact Hmem|]. split; [apply negb_true_iff; exact Hunspoken|].
  split; [apply Qltb_lt; exact Hrecent|]. split; [exact Hscore|].
  intros t Ht Hts.
  assert (Hc : In t (first :: others)).
  { rewrite <- Ecand. unfold candidates, get_speakable_thoughts.
    apply filter_In. split; [exact Ht|exact Hts]. }
  destruct Hc as [<-|Hc]; [exact Hself|exact (Hall t Hc)].
Qed.

(** No selection is made while paused, while the user speaks, or within
    [min_interval] seconds of [_last_spoke]. *)
Lemma no_selection_when_gated env (s : State) :
  let c := controller s in
  (_paused c = true \/ _user_speaking c = true \/
   (now_throttle env - _last_spoke c < inject_Z (min_interval c))%Q) ->
  selected (fst (talk_pass env s)) = None /\ snd (talk_pass env s) = s.
Proof.
  intros c H. unfold talk_pass. cbv zeta. fold c.
  destruct (_paused c || _user_speaking c) eqn:Eflags; [split; reflexivity|].
  apply orb_false_iff in Eflags as [Hp Hu].
  destruct H as [H|[H|H]]; try congruence.
  apply Qltb_lt in H. rewrite H. split; reflexivity.
Qed.

(** Past the gates, a selection is made as soon as a thought is eligible. *)
Lemma selection_when_eligible env (s : State) t :
  let c := controller s in
  let cutoff := (now_filter env - inject_Z (min_interval c + 10))%Q in
  _paused c = false -> _user_speaking c = false ->
  (inject_Z (min_interval c) <= now_throttle env - _last_spoke c)%Q ->
  In t (FreeTalk._THOUGHTS s) -> speakable cutoff t = true ->
  exists best, selected (fst (talk_pass env s)) = Some best.
Proof.
  intros c cutoff Hp Hu Hth Hin Hsp. unfold talk_pass. cbv zeta. fold c.
  rewrite Hp, Hu. cbn [orb].
  replace (Qltb _ _) with false
    by (symmetry; unfold Qltb; apply negb_false_iff, Qle_bool_iff; exact Hth).
  destruct (candidates env s) as [|first others] eqn:Ecand.
  - exfalso. assert (H : In t (candidates env s)).
    { unfold candidates, get_speakable_thoughts. apply filter_In. split; assumption. }
    rewrite Ecand in H. destruct H.
  - set (m := max_from speak_score first others).
    exists m. destruct (user_speaking_at_pick env); [reflexivity|].
    destruct (content m); [reflexivity|].
    destruct (if speaker c then _ else _); reflexivity.
Qed.


(** Marking by id reaches the selected thought when no thought before it
    in the buffer carries the same id. *)
Lemma mark_reaches_first_with_id before t after :
  (forall x, In x before -> id x <> id t) ->
  mark_thought_spoken (id t) (before ++ t :: after)%list
  = (before ++ set_spoken t :: after)%list.
Proof.
  induction before as [|x before IH]; intros H; cbn.
  - rewrite String.eqb_refl. reflexivity.
  - destruct (String.eqb (id x) (id t)) eqn:E.
    + apply String.eqb_eq in E. exfalso. apply (H x); [left; reflexivity|exact E].
    + rewrite IH; [reflexivity|]. intros y Hy. apply H. right. exact Hy.
Qed.

(** C3 fails on a buffer in which two thoughts carry the same id.  The
    error thought and the observation were added within one second with the
    same random suffix.  The pass at time 1005 selects and speaks the
    observation, resets the throttle, and marks the error thought, which comes
    first with that id; the observation stays unspoken, and the pass at time
    1029 selects and speaks it a second time. *)
Theorem duplicate_id_marks_another_thought :
  let s0 := Examples.talker [Examples.error_arrival; Examples.door_arrival;
                             Examples.window_arrival] in
  let door := thought_of Examples.door_arrival in
  let s1 := snd (talk_pass (Examples.quiet_pass 1005) s0) in
  id (thought_of Examples.error_arrival) = id door /\
  fst (talk_pass (Examples.quiet_pass 1005) s0) = Spoke door /\
  _last_spoke (controller s1) = 1008%Q /\
  FreeTalk._THOUGHTS s1
  = [set_spoken (thought_of Examples.error_arrival); door;
     thought_of Examples.window_arrival] /\
  spoken door = false /\
  fst (talk_pass (Examples.quiet_pass 1029) s1) = Spoke door /\
  fst (_talk_loop [Examples.quiet_pass 1005; Examples.quiet_pass 1029] s0)
  = [Spoke door; Spoke door].
Proof. vm_compute. repeat split. Qed.

End TalkFacts.

(** * Further properties *)

(** ** The event bus: state and subscriptions *)

Section BusMoreFacts.
Import EventBus.

Variable Task : Type.

Abbreviation Bus := (EventBus.Bus Task).
Abbreviation Handler := (EventBus.Handler Task).
Abbreviation handlers_of topic b := (dict_get_default topic [] (_subscribers (b : Bus))).

Lemma dict_get_default_set_same {V} k (v d : V) m :
  dict_get_default k d (dict_set k v m) = v.
Proof. unfold dict_get_default. rewrite dict_get_set_same. reflexivity. Qed.

Lemma dict_get_default_set_other {V} k k' (v d : V) m :
  k' <> k -> dict_get_default k' d (dict_set k v m) = dict_get_default k' d m.
Proof. intros H. unfold dict_get_default. rewrite dict_get_set_other by exact H. reflexivity. Qed.

Lemma publish_result topic data (b : Bus) :
  publish topic data b =
  (Return tt,
   {| _subscribers := _subscribers b;
      _state := dict_set topic data (_state b);
      loop_tasks := (loop_tasks b ++ spawned data (handlers_of topic b))%list;
      error_log := (error_log b ++ failures topic data (handlers_of topic b))%list |}).
Proof.
  unfold publish, bind, modify, gets. cbn [_subscribers set_state].
  rewrite notify_all. reflexivity.
Qed.

(** X1. After [publish(topic, data)], [get_state] gives [data] for that
    topic and what it gave before for every other topic; the subscriptions
    do not change what is stored. *)
Theorem publish_then_get_state topic data topic' (b : Bus) :
  get_state topic' (snd (publish topic data b)) =
  if String.eqb topic' topic then Some data else get_state topic' b.
Proof.
  rewrite publish_result. unfold get_state. cbn [snd _state].
  destruct (String.eqb topic' topic) eqn:E.
  - apply String.eqb_eq in E. subst. apply dict_get_set_same.
  - apply String.eqb_neq in E. apply dict_get_set_other, E.
Qed.

Lemma handlers_after_subscribe topic h topic' (b : Bus) :
  handlers_of topic' (subscribe topic h b) =
  if String.eqb topic' topic then append (handlers_of topic b) h
  else handlers_of topic' b.
Proof.
  unfold subscribe, subscribers_item, dict_get_default.
  destruct (dict_get topic (_subscribers b)) as [hs|] eqn:E;
    cbn [_subscribers set_subscribers];
    (destruct (String.eqb topic' topic) eqn:Et;
     [ apply String.eqb_eq in Et; subst; rewrite dict_get_set_same; reflexivity
     | apply String.eqb_neq in Et;
       repeat rewrite dict_get_set_other by exact Et; reflexivity ]).
Qed.

Lemma spawned_app data (l1 l2 : list Handler) :
  spawned data (l1 ++ l2)%list = (spawned data l1 ++ spawned data l2)%list.
Proof. unfold spawned. apply flat_map_app. Qed.

(** X2. [subscribe] appends the handler to the list of its topic, creating
    the list when the topic is new, and leaves the other topics and the stored
    state alone; the next publish on the topic starts the handlers in
    subscription order, the new one last, once per subscription. *)
Theorem subscribe_appends_handler topic h (b : Bus) :
  (forall topic', handlers_of topic' (subscribe topic h b) =
                  if String.eqb topic' topic then (handlers_of topic b ++ [h])%list
                  else handlers_of topic' b) /\
  _state (subscribe topic h b) = _state b /\
  forall data,
    loop_tasks (snd (publish topic data (subscribe topic h b))) =
    (loop_tasks b ++ spawned data (handlers_of topic b)
       ++ match spawn h data with Return t => [t] | Raise _ => [] end)%list.
Proof.
  split; [intros topic'; apply handlers_after_subscribe|]. split.
  - unfold subscribe, subscribers_item.
    destruct (dict_get topic (_subscribers b)); reflexivity.
  - intros data. rewrite publish_result. cbn [snd loop_tasks].
    rewrite handlers_after_subscribe, String.eqb_refl.
    unfold append. rewrite spawned_app.
    assert (Htasks : loop_tasks (subscribe topic h b) = loop_tasks b).
    { unfold subscribe, subscribers_item.
      destruct (dict_get topic (_subscribers b)); reflexivity. }
    rewrite Htasks. unfold spawned at 2. cbn [flat_map]. rewrite app_nil_r.
    reflexivity.
Qed.

Lemma remove_first_absent (h : Handler) hs :
  handler_in h hs = false -> remove_first h hs = hs.
Proof.
  induction hs as [|x hs IH]; cbn; [reflexivity|].
  destruct (Nat.eqb (handler_id x) (handler_id h)); [discriminate|].
  cbn. intros H. rewrite IH by exact H. reflexivity.
Qed.

Lemma remove_first_length (h : Handler) hs :
  handler_in h hs = true -> S (length (remove_first h hs)) = length hs.
Proof.
  induction hs as [|x hs IH]; cbn; [discriminate|].
  destruct (Nat.eqb (handler_id x) (handler_id h)); [reflexivity|].
  cbn. intros H. rewrite IH by exact H. reflexivity.
Qed.

Lemma remove_first_appended (h : Handler) hs :
  handler_in h hs = false -> remove_first h (hs ++ [h])%list = hs.
Proof.
  induction hs as [|x hs IH]; cbn.
  - rewrite Nat.eqb_refl. reflexivity.
  - destruct (Nat.eqb (handler_id x) (handler_id h)); [discriminate|].
    cbn. intros H. rewrite IH by exact H. reflexivity.
Qed.

Lemma handlers_after_unsubscribe topic h topic' (b : Bus) :
  handlers_of topic' (unsubscribe topic h b) =
  if String.eqb topic' topic then remove_first h (handlers_of topic b)
  else handlers_of topic' b.
Proof.
  unfold unsubscribe, subscribers_item, dict_get_default.
  destruct (dict_get topic (_subscribers b)) as [hs|] eqn:E.
  - destruct (handler_in h hs) eqn:Hin; cbn [_subscribers set_subscribers].
    + destruct (String.eqb topic' topic) eqn:Et.
      * apply String.eqb_eq in Et. subst. rewrite dict_get_set_same. reflexivity.
      * apply String.eqb_neq in Et. rewrite dict_get_set_other by exact Et. reflexivity.
    + destruct (String.eqb topic' topic) eqn:Et; [|reflexivity].
      apply String.eqb_eq in Et. subst. rewrite E.
      symmetry. apply remove_first_absent, Hin.
  - cbn [handler_in existsb _subscribers set_subscribers].
    destruct (String.eqb topic' topic) eqn:Et.
    + apply String.eqb_eq in Et. subst. rewrite dict_get_set_same. reflexivity.
    + apply String.eqb_neq in Et. rewrite dict_get_set_other by exact Et. reflexivity.
Qed.

(** X3. [unsubscribe] takes the first registration of the handler out of
    the list of its topic and nothing else: a handler that is not subscribed
    leaves every list as it was, a subscribed one makes the list one shorter,
    and unsubscribing right after subscribing a handler that was not there
    gives the list back. *)
Theorem unsubscribe_removes_one_registration topic h (b : Bus) :
  (forall topic', handlers_of topic' (unsubscribe topic h b) =
                  if String.eqb topic' topic then remove_first h (handlers_of topic b)
                  else handlers_of topic' b) /\
  _state (unsubscribe topic h b) = _state b /\
  (handler_in h (handlers_of topic b) = true ->
   S (length (handlers_of topic (unsubscribe topic h b))) = length (handlers_of topic b)) /\
  (handler_in h (handlers_of topic b) = false ->
   handlers_of topic (unsubscribe topic h b) = handlers_of topic b /\
   handlers_of topic (unsubscribe topic h (subscribe topic h b)) = handlers_of topic b).
Proof.
  split; [intros topic'; apply handlers_after_unsubscribe|]. split.
  - unfold unsubscribe, subscribers_item.
    destruct (dict_get topic (_subscribers b)) as [hs|];
      [destruct (handler_in h hs)|]; reflexivity.
  - split.
    + intros Hin. rewrite handlers_after_unsubscribe, String.eqb_refl.
      apply remove_first_length, Hin.
    + intros Hout. split.
      * rewrite handlers_after_unsubscribe, String.eqb_refl.
        apply remove_first_absent, Hout.
      * rewrite handlers_after_unsubscribe, String.eqb_refl.
        rewrite handlers_after_subscribe, String.eqb_refl.
        apply remove_first_appended, Hout.
Qed.

End BusMoreFacts.

Lemma unsubscribe_removes_one_registration_witness :
  EventBus.handler_in Examples.failing_handler
    (dict_get_default "sentinel.yolo" [] (EventBus._subscribers Examples.bus)) = true /\
  EventBus.handler_in MoreExamples.dashboard_handler
    (dict_get_default "sentinel.yolo" [] (EventBus._subscribers Examples.bus)) = false /\
  dict_get_default "sentinel.yolo" []
    (EventBus._subscribers
       (EventBus.unsubscribe "sentinel.yolo" Examples.failing_handler Examples.bus))
  = [Examples.mirror_handler] /\
  dict_get_default "sentinel.yolo" []
    (EventBus._subscribers
       (EventBus.unsubscribe "sentinel.yolo" MoreExamples.dashboard_handler
          (EventBus.subscribe "sentinel.yolo" MoreExamples.dashboard_handler Examples.bus)))
  = [Examples.failing_handler; Examples.mirror_handler].
Proof.
  split; [reflexivity|]. split; [reflexivity|]. split.
  - pose proof (proj1 (unsubscribe_removes_one_registration
                         "sentinel.yolo" Examples.failing_handler Examples.bus)
                      "sentinel.yolo") as H.
    rewrite H. reflexivity.
  - exact (proj2 (proj2 (proj2 (proj2 (unsubscribe_removes_one_registration
                                         "sentinel.yolo" MoreExamples.dashboard_handler
                                         Examples.bus))) eq_refl)).
Defined.

(** ** The skill registry: discovery, schemas and tool definitions *)

Section SkillsMoreFacts.
Import Skills.

Variable W : Type.
Variable package : list (PyModule W).

Abbreviation Registry := (Skills.Registry W).
Abbreviation discover := (Skills.discover package).

Lemma discover_idempotent (r : Registry) : discover (discover r) = discover r.
Proof.
  unfold Skills.discover. destruct (_discovered r) eqn:E.
  - rewrite E. reflexivity.
  - reflexivity.
Qed.

(** X4. The modules of the package are imported once: [discover] sets the
    flag, [discover] after [discover] changes nothing, [list_skills] leaves
    the registry [discover] gives and lists the same skills when it is
    called again, and on a registry that has been discovered both leave the
    store as it is. *)
Theorem discovery_happens_once (r : Registry) :
  _discovered (discover r) = true /\
  discover (discover r) = discover r /\
  snd (list_skills package r) = discover r /\
  list_skills package (snd (list_skills package r)) = list_skills package r /\
  (_discovered r = true ->
   discover r = r /\ _SKILLS (snd (list_skills package r)) = _SKILLS r).
Proof.
  split; [|split; [apply discover_idempotent|split; [reflexivity|split]]].
  - unfold Skills.discover. destruct (_discovered r) eqn:E; [exact E|reflexivity].
  - unfold list_skills. cbn [snd]. rewrite discover_idempotent. reflexivity.
  - intros Hd.
    assert (Hr : discover r = r) by (unfold Skills.discover; rewrite Hd; reflexivity).
    split; [exact Hr|]. unfold list_skills. cbn [snd]. rewrite Hr. reflexivity.
Qed.

End SkillsMoreFacts.

Section SchemaFacts.
Import Skills.

Variable W : Type.
Variable package : list (PyModule W).

Abbreviation Registry := (Skills.Registry W).
Abbreviation discover := (Skills.discover package).

Lemma dict_contains_set_same {V} k (v : V) d : dict_contains k (dict_set k v d) = true.
Proof. unfold dict_contains. rewrite dict_get_set_same. reflexivity. Qed.

Lemma dict_contains_set_other {V} k k' (v : V) d :
  dict_contains k' d = true -> dict_contains k' (dict_set k v d) = true.
Proof.
  unfold dict_contains. destruct (String.eqb k' k) eqn:E.
  - apply String.eqb_eq in E. subst k'. rewrite dict_get_set_same. reflexivity.
  - apply String.eqb_neq in E. rewrite dict_get_set_other by exact E. trivial.
Qed.

Lemma dict_get_set_absent {V} k k' (v v' : V) d :
  dict_contains k d = false -> dict_get k' d = Some v' ->
  dict_get k' (dict_set k v d) = Some v'.
Proof.
  intros Hk Hk'. destruct (String.eqb k' k) eqn:E.
  - apply String.eqb_eq in E. subst k'. unfold dict_contains in Hk.
    rewrite Hk' in Hk. discriminate.
  - apply String.eqb_neq in E. rewrite dict_get_set_other by exact E. exact Hk'.
Qed.

(** X5. The schema stored for a skill always has the keys ["type"] and
    ["properties"]; every key the declaration gave keeps its value (a
    declared ["type"] is not replaced by ["object"]), and a missing or empty
    declaration stores the default schema. *)
Theorem stored_schema_is_completed (parameters : option (dict value)) :
  dict_contains "type" (stored_parameters parameters) = true /\
  dict_contains "properties" (stored_parameters parameters) = true /\
  (forall p k v, parameters = Some p -> dict_get k p = Some v ->
                 dict_get k (stored_parameters parameters) = Some v) /\
  (parameters = None \/ parameters = Some [] ->
   stored_parameters parameters = default_parameters).
Proof.
  assert (Hgen : forall params : dict value,
    let params1 := if dict_contains "type" params then params
                   else dict_set "type" (VStr "object") params in
    let params2 := if dict_contains "properties" params1 then params1
                   else dict_set "properties" (VDict []) params1 in
    dict_contains "type" params2 = true /\
    dict_contains "properties" params2 = true /\
    forall k v, dict_get k params = Some v -> dict_get k params2 = Some v).
  { intros params params1 params2.
    assert (H1 : dict_contains "type" params1 = true).
    { subst params1. destruct (dict_contains "type" params) eqn:E; [exact E|].
      apply dict_contains_set_same. }
    assert (H1' : forall k v, dict_get k params = Some v -> dict_get k params1 = Some v).
    { intros k v Hk. subst params1.
      destruct (dict_contains "type" params) eqn:E; [exact Hk|].
      apply dict_get_set_absent; assumption. }
    subst params2. destruct (dict_contains "properties" params1) eqn:E.
    - repeat split; assumption.
    - split; [apply dict_contains_set_other, H1|].
      split; [apply dict_contains_set_same|].
      intros k v Hk. apply dict_get_set_absent; [exact E|apply H1', Hk]. }
  split; [|split; [|split]].
  - unfold stored_parameters. destruct parameters as [[|x p]|]; apply Hgen.
  - unfold stored_parameters. destruct parameters as [[|x p]|]; apply Hgen.
  - intros p k v Hp Hk. subst parameters. unfold stored_parameters.
    destruct p as [|x p]; [discriminate|]. apply Hgen, Hk.
  - intros [H|H]; subst parameters; reflexivity.
Qed.

Lemma dict_keys_set_new {V} k (v : V) d :
  dict_contains k d = false -> dict_keys (dict_set k v d) = (dict_keys d ++ [k])%list.
Proof.
  unfold dict_contains, dict_keys.
  induction d as [|[k' v'] d IH]; cbn; [reflexivity|].
  destruct (String.eqb k' k); [discriminate|]. cbn. intros H. rewrite IH by exact H.
  reflexivity.
Qed.

Lemma dict_keys_set_old {V} k (v : V) d :
  dict_contains k d = true -> dict_keys (dict_set k v d) = dict_keys d.
Proof.
  unfold dict_contains, dict_keys.
  induction d as [|[k' v'] d IH]; cbn; [discriminate|].
  destruct (String.eqb k' k); [reflexivity|]. cbn. intros H. rewrite IH by exact H.
  reflexivity.
Qed.

Lemma dict_contains_keys {V} k (d : @dict V) :
  dict_contains k d = false -> ~ In k (dict_keys d).
Proof.
  unfold dict_contains, dict_keys.
  induction d as [|[k' v'] d IH]; cbn; [tauto|].
  destruct (String.eqb k' k) eqn:E; [discriminate|].
  apply String.eqb_neq in E. intros H [H1|H1]; [congruence|]. exact (IH H H1).
Qed.

Lemma dict_set_nodup {V} k (v : V) d :
  NoDup (dict_keys d) -> NoDup (dict_keys (dict_set k v d)).
Proof.
  intros H. destruct (dict_contains k d) eqn:E.
  - rewrite dict_keys_set_old by exact E. exact H.
  - rewrite dict_keys_set_new by exact E.
    apply NoDup_app; [exact H|repeat constructor; cbn; tauto|].
    intros x Hx [Hx'|[]]. subst x. exact (dict_contains_keys _ _ E Hx).
Qed.

Lemma register_all_nodup rs (s : Store W) :
  NoDup (dict_keys s) -> NoDup (dict_keys (register_all rs s)).
Proof.
  revert s. induction rs as [|r rs IH]; intros s H; [exact H|].
  cbn. apply IH. apply dict_set_nodup, H.
Qed.

Lemma import_all_nodup (ms : list (PyModule W)) (s : Store W) :
  NoDup (dict_keys s) ->
  NoDup (dict_keys (fold_left (fun s m => import_module m s) ms s)).
Proof.
  revert s. induction ms as [|m ms IH]; intros s H; [exact H|].
  cbn. apply IH. unfold import_module.
  destruct (startswith "_" (module_name m)); [exact H|]. apply register_all_nodup, H.
Qed.

Lemma discover_nodup (r : Registry) :
  NoDup (dict_keys (_SKILLS r)) -> NoDup (dict_keys (_SKILLS (discover r))).
Proof.
  unfold Skills.discover. destruct (_discovered r); [trivial|]. cbn [_SKILLS].
  apply import_all_nodup.
Qed.

Lemma dict_get_in {V} k (v : V) d : dict_get k d = Some v -> In (k, v) d.
Proof.
  induction d as [|[k' v'] d IH]; cbn; [discriminate|].
  destruct (String.eqb k' k) eqn:E.
  - apply String.eqb_eq in E. intros H. injection H as ->. subst k'. now left.
  - intros H. right. exact (IH H).
Qed.

Lemma dict_in_get {V} k (v : V) d :
  NoDup (dict_keys d) -> In (k, v) d -> dict_get k d = Some v.
Proof.
  unfold dict_keys.
  induction d as [|[k' v'] d IH]; cbn; [tauto|].
  intros Hnd [H|H].
  - injection H as -> ->. rewrite String.eqb_refl. reflexivity.
  - apply NoDup_cons_iff in Hnd as [Hnot Hnd'].
    destruct (String.eqb k' k) eqn:E.
    + apply String.eqb_eq in E. subst k'. exfalso. apply Hnot.
      change k with (fst (k, v)). apply in_map, H.
    + apply IH; assumption.
Qed.

(** X6. The tool definitions offered to the backend are the registered
    skills after discovery, in registration order: one definition per name,
    no name twice, each with the description and the stored schema of the
    skill that [execute] would run under that name; [Brain._get_tool_definitions]
    builds the same list from [list_skills]. *)
Theorem tool_definitions_match_registry (r : Registry) :
  NoDup (dict_keys (_SKILLS r)) ->
  let tools := fst (BrainStream.get_tool_definitions package r) in
  snd (BrainStream.get_tool_definitions package r) = discover r /\
  map (@Brain.td_name) tools = dict_keys (_SKILLS (discover r)) /\
  NoDup (map (@Brain.td_name) tools) /\
  (forall name descr params,
     In {| Brain.td_name := name; Brain.td_description := descr;
           Brain.td_parameters := params |} tools <->
     exists info, dict_get name (_SKILLS (discover r)) = Some info /\
                  descr = description info /\ params = parameters info) /\
  forall (B : Type) (s : Brain.State W B),
    Brain.registry s = r ->
    fst (Brain._get_tool_definitions package true s) = Return tools.
Proof.
  intros Hnd tools. subst tools. unfold BrainStream.get_tool_definitions. cbn [fst snd].
  pose proof (discover_nodup r Hnd) as Hnd'.
  split; [reflexivity|].
  assert (Hnames : map (@Brain.td_name)
            (map (fun '(name, info) =>
                    {| Brain.td_name := name; Brain.td_description := description info;
                       Brain.td_parameters := parameters info |})
                 (_SKILLS (discover r))) = dict_keys (_SKILLS (discover r))).
  { unfold dict_keys. rewrite map_map. apply map_ext. intros [n i]. reflexivity. }
  split; [exact Hnames|]. split; [rewrite Hnames; exact Hnd'|]. split.
  - intros name descr params. rewrite in_map_iff. split.
    + intros [[n i] [Heq Hin]]. injection Heq as H1 H2 H3. subst name descr params.
      exists i. split; [apply dict_in_get; assumption|]. split; reflexivity.
    + intros [info [Hget [-> ->]]]. exists (name, info).
      split; [reflexivity|]. apply dict_get_in, Hget.
  - intros B s <-. unfold Brain._get_tool_definitions, list_skills. cbn [fst].
    f_equal. rewrite map_map. apply map_ext. intros [n i]. reflexivity.
Qed.

End SchemaFacts.

Lemma tool_definitions_match_registry_witness :
  map (@Brain.td_name)
      (fst (BrainStream.get_tool_definitions
              [MoreExamples.clock_module; MoreExamples.private_module]
              MoreExamples.new_registry))
  = ["get_time"; "broken"].
Proof.
  assert (Hnd : NoDup (dict_keys (Skills._SKILLS MoreExamples.new_registry)))
    by (vm_compute; constructor).
  rewrite (proj1 (proj2 (tool_definitions_match_registry
                           [MoreExamples.clock_module; MoreExamples.private_module]
                           MoreExamples.new_registry Hnd))).
  reflexivity.
Defined.

(** ** The orchestrator: the history window, streaming and one-shot queries *)

Section TurnFacts.
Import Brain.

Variables W B : Type.
Variable py_repr : string -> string.
Variable running_loop : bool.
Variable future_repr : string.
Variable package : list (Skills.PyModule W).
Variable config : Config.
Variable skill_registry : bool.
Variable _chat : list Message -> list ToolDef -> B -> outcome Response * B.
Variable get_user_context : W -> string.
Variable live_sensor_parts : W -> list string.
Variable py_strip : string -> string.
Variable _stream_dispatch : list Message -> B -> (list string * option exn) * B.

Abbreviation BState := (Brain.State W B).
Abbreviation run_tools :=
  (Brain._execute_tool_calls (B := B) py_repr running_loop future_repr package
                             skill_registry).
Abbreviation run_chat := (Brain.chat (W := W) _chat).
Abbreviation run_loop :=
  (Brain.tool_loop py_repr running_loop future_repr package skill_registry _chat).
Abbreviation run_try :=
  (Brain.think_try py_repr running_loop future_repr package config skill_registry _chat).
Abbreviation run_think :=
  (Brain.think py_repr running_loop future_repr package config skill_registry _chat
               get_user_context live_sensor_parts).
Abbreviation run_stream_try :=
  (BrainStream.think_stream_try py_repr running_loop future_repr package config
                                skill_registry _chat _stream_dispatch).
Abbreviation run_think_stream :=
  (BrainStream.think_stream py_repr running_loop future_repr package config
                            skill_registry _chat get_user_context live_sensor_parts
                            _stream_dispatch).
Abbreviation build := (Brain._build_messages (B := B) config get_user_context live_sensor_parts).
Abbreviation trimmed := (BrainStream.trimmed config).
Abbreviation user_message text := ({| role := "user"; content := text |}).
Abbreviation assistant_message text := ({| role := "assistant"; content := text |}).
Abbreviation no_failure evs := (forall e, ~ In (Queried (Raise e)) evs).
(** The first query and the rounds of tool execution that [think] and
    [think_stream] share. *)
Abbreviation run_prefix :=
  (fun messages tools =>
     response <- run_chat messages tools ;;
     run_loop (Z.to_nat (max_concurrent_tools config - 0)) 0%Z response messages tools).
(** Appending the assistant message and trimming. *)
Abbreviation finish :=
  (fun text (s : BState) =>
     snd (Brain._trim_history config
            (set_history (append (conversation_history s) (assistant_message text)) s))).

Lemma loop_outcome (left : nat) :
  forall iteration response messages tools (s : BState),
  exists r s' evs,
    run_loop left iteration response messages tools s = (r, s') /\
    added s s' evs /\
    conversation_history s' = conversation_history s /\
    match r with
    | Return (it, final, msgs) =>
        it = (iteration + Z.of_nat (rounds evs))%Z /\ no_failure evs /\
        (rounds evs = 0 -> evs = [] /\ msgs = messages /\ final = response /\ s' = s)
    | Raise e => In (Queried (Raise e)) evs /\
                 forall e', In (Queried (Raise e')) evs -> e' = e
    end.
Proof.
  induction left as [|left IH]; intros iteration response messages tools s.
  - exists (Return (iteration, response, messages)), s, [].
    unfold added. rewrite app_nil_r.
    split; [|split; [reflexivity|split; [reflexivity|]]].
    + cbn [tool_loop]. destruct (tool_calls response); reflexivity.
    + cbn. split; [lia|]. split; [intros e []|auto].
  - destruct (tool_calls response) as [|c cs] eqn:Ecalls.
    + exists (Return (iteration, response, messages)), s, [].
      unfold added. rewrite app_nil_r.
      split; [|split; [reflexivity|split; [reflexivity|]]].
      * cbn [tool_loop]. rewrite Ecalls. reflexivity.
      * cbn. split; [lia|]. split; [intros e []|auto].
    + destruct (run_tools_frame py_repr running_loop future_repr package skill_registry
                  (c :: cs) s) as (results & s1 & Hrun & Hb1 & Ht1 & Hh1).
      set (messages1 :=
             append (append messages
                       {| role := "assistant";
                          content := str_or (resp_content response) "(calling tools)" |})
                    {| role := "user";
                       content := "Tool results:" ++ nl
                                    ++ join nl (map summary_line results) |}).
      destruct (_chat messages1 tools (backend s1)) as [[r|e] b'] eqn:Hchat.
      * set (s2 := record_event (Queried (Return r)) (set_backend b' s1)).
        destruct (IH (iteration + 1)%Z r messages1 tools s2)
          as (res & s' & evs & Hloop & Hadd & Hh & Hres).
        exists res, s', ([Dispatched results; Queried (Return r)] ++ evs)%list.
        split; [|split; [|split]].
        -- cbn [tool_loop]. rewrite Ecalls.
           rewrite (bind_return _ _ _ Hrun). fold messages1.
           unfold bind at 1. rewrite run_chat_eq, Hchat. cbn [fst snd].
           fold s2. exact Hloop.
        -- unfold added in *. rewrite Hadd. subst s2.
           cbn [trace record_event set_backend].
           rewrite Ht1. unfold append. rewrite <- !app_assoc. reflexivity.
        -- rewrite Hh. subst s2. cbn. exact Hh1.
        -- destruct res as [[[it final] msgs]|e].
           ++ destruct Hres as (Hit & Hno & _). split; [|split].
              ** rewrite rounds_app. cbn [rounds filter length Nat.add] in *.
                 change (rounds [Dispatched results; Queried (Return r)]) with 1. lia.
              ** intros e [Hd|[Hq|Hin]]; try discriminate. exact (Hno e Hin).
              ** rewrite rounds_app.
                 change (rounds [Dispatched results; Queried (Return r)]) with 1.
                 discriminate.
           ++ destruct Hres as [Hin Honly]. split; [right; right; exact Hin|].
              intros e' [Hd|[Hq|Hin']]; try discriminate. exact (Honly e' Hin').
      * exists (Raise e), (record_event (Queried (Raise e)) (set_backend b' s1)),
          [Dispatched results; Queried (Raise e)].
        split; [|split; [|split]].
        -- cbn [tool_loop]. rewrite Ecalls.
           rewrite (bind_return _ _ _ Hrun). fold messages1.
           unfold bind at 1. rewrite run_chat_eq, Hchat. reflexivity.
        -- unfold added. cbn [trace record_event set_backend].
           rewrite Ht1. unfold append. rewrite <- !app_assoc. reflexivity.
        -- cbn. exact Hh1.
        -- split; [right; left; reflexivity|].
           intros e' [Hd|[Hq|[]]]; [discriminate|congruence].
Qed.

Lemma prefix_outcome messages tools (s : BState) :
  exists r s' evs,
    run_prefix messages tools s = (r, s') /\
    added s s' evs /\
    conversation_history s' = conversation_history s /\
    match r with
    | Return (it, final, msgs) =>
        it = Z.of_nat (rounds evs) /\ no_failure evs /\
        (rounds evs = 0 ->
         msgs = messages /\
         _chat messages tools (backend s) = (Return final, backend s') /\
         s' = record_event (Queried (Return final)) (set_backend (backend s') s))
    | Raise e => In (Queried (Raise e)) evs /\
                 forall e', In (Queried (Raise e')) evs -> e' = e
    end.
Proof.
  destruct (_chat messages tools (backend s)) as [[r|e] b'] eqn:Hchat.
  - set (s1 := record_event (Queried (Return r)) (set_backend b' s)).
    destruct (loop_outcome (Z.to_nat (max_concurrent_tools config - 0)) 0 r
                messages tools s1) as (res & s2 & evs & Hloop & Hadd & Hh & Hres).
    exists res, s2, (Queried (Return r) :: evs).
    split; [|split; [|split]].
    + unfold bind at 1. rewrite run_chat_eq, Hchat. cbn [fst snd]. exact Hloop.
    + unfold added in *. rewrite Hadd. subst s1. cbn.
      unfold append. rewrite <- app_assoc. reflexivity.
    + rewrite Hh. reflexivity.
    + destruct res as [[[it final] msgs]|e].
      * destruct Hres as (Hit & Hno & Hzero). split; [|split].
        -- change (rounds (Queried (Return r) :: evs)) with (rounds evs). lia.
        -- intros e [Hq|Hin]; [discriminate|exact (Hno e Hin)].
        -- change (rounds (Queried (Return r) :: evs)) with (rounds evs).
           intros Hz. destruct (Hzero Hz) as (_ & -> & -> & ->).
           split; [reflexivity|]. split; reflexivity.
      * destruct Hres as [Hin Honly]. split; [right; exact Hin|].
        intros e' [Hq|Hin']; [discriminate|exact (Honly e' Hin')].
  - exists (Raise e), (record_event (Queried (Raise e)) (set_backend b' s)),
      [Queried (Raise e)].
    split; [|split; [|split]].
    + unfold bind at 1. rewrite run_chat_eq, Hchat. reflexivity.
    + reflexivity.
    + reflexivity.
    + split; [left; reflexivity|]. intros e' [Hq|[]]. congruence.
Qed.

Lemma think_try_cases messages tools (s : BState) r s1 :
  run_prefix messages tools s = (r, s1) ->
  run_try messages tools s =
  match r with
  | Return (_, final, _) =>
      let text := str_or (resp_content final) "Action completed." in
      (Return text, finish text s1)
  | Raise e => (Raise e, s1)
  end.
Proof.
  unfold think_try, bind.
  destruct (run_chat messages tools s) as [[r0|e] s0].
  - destruct (run_loop _ _ r0 messages tools s0) as [[[[it final] msgs]|e] s2];
      intros H; injection H as <- <-; reflexivity.
  - intros H; injection H as <- <-; reflexivity.
Qed.

Lemma stream_try_cases messages tools (s : BState) (out : list string) r s1 :
  run_prefix messages tools s = (r, s1) ->
  run_stream_try messages tools (s, out) =
  match r with
  | Return (it, final, msgs) =>
      if (0 <? it)%Z then
        let text := str_or (resp_content final) "Action completed." in
        (Return tt, (finish text s1, append out text))
      else
        let '((chunks, failure), b') := _stream_dispatch msgs (backend s1) in
        match failure with
        | None => (Return tt, (finish (BrainStream.accumulate chunks) (set_backend b' s1),
                               (out ++ chunks)%list))
        | Some e => (Raise e, (set_backend b' s1, (out ++ chunks)%list))
        end
  | Raise e => (Raise e, (s1, out))
  end.
Proof.
  unfold BrainStream.think_stream_try, BrainStream.lift, bind.
  destruct (run_chat messages tools s) as [[r0|e] s0].
  - destruct (run_loop _ _ r0 messages tools s0) as [[[[it final] msgs]|e] s2];
      intros H; injection H as <- <-; [|reflexivity].
    destruct (0 <? it)%Z.
    + reflexivity.
    + unfold BrainStream.relay_stream.
      destruct (_stream_dispatch msgs (backend s2)) as [[chunks [e|]] b']; reflexivity.
  - intros H; injection H as <- <-; reflexivity.
Qed.

(** Both entry points start alike: the user message is appended, the
    messages are built and the tool definitions fetched. *)
Lemma turn_start user_input (s : BState) :
  exists messages tools s1,
    conversation_history s1 = append (conversation_history s) (user_message user_input) /\
    backend s1 = backend s /\ trace s1 = trace s /\
    fst (build (set_history (append (conversation_history s) (user_message user_input)) s))
    = Return messages /\
    run_think user_input s =
    try_except (run_try messages tools)
               (fun e => ret ("Error while thinking: " ++ exn_str e)) s1 /\
    run_think_stream user_input s =
    (let '(r, (s', out)) :=
       try_except (run_stream_try messages tools)
                  (fun e => BrainStream.yield_ (W := W) (B := B) ("Error: " ++ exn_str e))
                  (s1, []) in
     (r, out, s')).
Proof.
  set (s0 := set_history (append (conversation_history s) (user_message user_input)) s).
  destruct (get_tools_frame package skill_registry s0) as (tools & s1 & Htools & Hb & Ht & Hh).
  eexists. exists tools, s1. split; [|split; [|split; [|split; [|split]]]].
  - rewrite Hh. reflexivity.
  - rewrite Hb. reflexivity.
  - rewrite Ht. reflexivity.
  - reflexivity.
  - unfold think. unfold bind at 1. cbn [modify]. fold s0.
    unfold bind at 1. unfold _build_messages at 1.
    rewrite (bind_return _ _ _ Htools). reflexivity.
  - unfold BrainStream.think_stream, BrainStream.think_stream_body.
    unfold bind at 1. unfold BrainStream.lift at 1. cbn [modify]. fold s0.
    unfold bind at 1. unfold BrainStream.lift at 1. unfold _build_messages at 1.
    unfold bind at 1. unfold BrainStream.lift at 1. rewrite Htools.
    reflexivity.
Qed.

Lemma finish_fields text (s : BState) :
  conversation_history (finish text s)
  = trimmed (append (conversation_history s) (assistant_message text)) /\
  backend (finish text s) = backend s /\ trace (finish text s) = trace s /\
  registry (finish text s) = registry s /\ world (finish text s) = world s.
Proof.
  unfold _trim_history, modify, BrainStream.trimmed. cbn [snd].
  cbn [conversation_history set_history].
  destruct (_ <? _)%Z; cbn; auto.
Qed.

Lemma finish_trace text (s : BState) : trace (finish text s) = trace s.
Proof. apply finish_fields. Qed.

Lemma skipn_keeps_tail {A} (n : nat) (l tail : list A) :
  n <= length l -> skipn n (l ++ tail)%list = (skipn n l ++ tail)%list.
Proof.
  intros H. rewrite skipn_app.
  replace (n - length l) with 0 by lia. reflexivity.
Qed.

Lemma trimmed_window (old tail : list Message) :
  (Z.of_nat (length tail) <= max_history config * 2)%Z ->
  (0 < max_history config)%Z ->
  exists dropped kept,
    old = (dropped ++ kept)%list /\
    trimmed (old ++ tail)%list = (kept ++ tail)%list /\
    (Z.of_nat (length (kept ++ tail)%list) <= max_history config * 2)%Z /\
    (dropped <> [] -> Z.of_nat (length (kept ++ tail)%list) = (max_history config * 2)%Z).
Proof.
  intros Htail Hpos. unfold BrainStream.trimmed.
  destruct (_ <? _)%Z eqn:E.
  - apply Z.ltb_lt in E. rewrite length_app in E.
    unfold slice_last. replace (0 <? max_history config * 2)%Z with true
      by (symmetry; apply Z.ltb_lt; lia).
    rewrite length_app.
    set (n := length old + length tail - Z.to_nat (max_history config * 2)).
    assert (Hn : n <= length old) by (subst n; lia).
    exists (firstn n old), (skipn n old).
    split; [symmetry; apply firstn_skipn|].
    split; [apply skipn_keeps_tail, Hn|].
    rewrite length_app, length_skipn. split; [subst n; lia|]. intros _. subst n. lia.
  - apply Z.ltb_ge in E. exists [], old.
    split; [reflexivity|]. split; [reflexivity|]. split; [exact E|].
    intros H. congruence.
Qed.

Lemma added_unique (s s' : BState) evs evs' :
  added s s' evs -> added s s' evs' -> evs = evs'.
Proof. unfold added. intros H1 H2. rewrite H1 in H2. exact (app_inv_head _ _ _ H2). Qed.

(** [think] never raises, and what it leaves in the history. *)
Lemma think_history_cases user_input (s : BState) :
  exists text s',
    run_think user_input s = (Return text, s') /\
    (conversation_history s' = append (conversation_history s) (user_message user_input) \/
     conversation_history s'
     = trimmed (conversation_history s
                  ++ [user_message user_input; assistant_message text])%list).
Proof.
  destruct (run_think_eq py_repr running_loop future_repr package config skill_registry
              _chat get_user_context live_sensor_parts user_input s)
    as (messages & tools & s1 & Hh1 & Hb1 & Ht1 & Heq).
  destruct (prefix_outcome messages tools s1) as (r & s2 & evs & Hrun & Hadd & Hh & Hres).
  pose proof (think_try_cases messages tools s1 Hrun) as Htry.
  destruct r as [[[it final] msgs]|e].
  - set (text := str_or (resp_content final) "Action completed.") in *.
    destruct (finish_fields text s2) as (Hfh & _).
    exists text, (finish text s2). split.
    + rewrite Heq. unfold try_except. rewrite Htry. reflexivity.
    + right. rewrite Hfh, Hh, Hh1. unfold append. rewrite <- app_assoc. reflexivity.
  - exists ("Error while thinking: " ++ exn_str e), s2. split.
    + rewrite Heq. unfold try_except. rewrite Htry. reflexivity.
    + left. rewrite Hh, Hh1. reflexivity.
Qed.

(** X7. With [max_history >= 1], a turn of [think] in which no query failed
    leaves a history of at most [2 * max_history] messages that ends with the
    user message and the answer returned; what it keeps of the older history
    is its newest part, and when something was dropped the history has
    exactly [2 * max_history] messages. *)
Theorem completed_turn_bounds_history user_input (s : BState) :
  (1 <= max_history config)%Z ->
  exists text s' evs,
    run_think user_input s = (Return text, s') /\
    added s s' evs /\
    (no_failure evs ->
     exists dropped kept,
       conversation_history s = (dropped ++ kept)%list /\
       conversation_history s'
       = (kept ++ [user_message user_input; assistant_message text])%list /\
       (Z.of_nat (length (conversation_history s')) <= 2 * max_history config)%Z /\
       (dropped <> [] ->
        Z.of_nat (length (conversation_history s')) = (2 * max_history config)%Z)).
Proof.
  intros Hm.
  destruct (run_think_eq py_repr running_loop future_repr package config skill_registry
              _chat get_user_context live_sensor_parts user_input s)
    as (messages & tools & s1 & Hh1 & Hb1 & Ht1 & Heq).
  destruct (prefix_outcome messages tools s1) as (r & s2 & evs & Hrun & Hadd & Hh & Hres).
  pose proof (think_try_cases messages tools s1 Hrun) as Htry.
  destruct r as [[[it final] msgs]|e].
  - set (text := str_or (resp_content final) "Action completed.") in *.
    destruct (finish_fields text s2) as (Hfh & _ & Hft & _).
    exists text, (finish text s2), evs. split; [|split].
    + rewrite Heq. unfold try_except. rewrite Htry. reflexivity.
    + unfold added in *. rewrite Hft, Hadd, Ht1. reflexivity.
    + intros _. rewrite Hfh, Hh, Hh1. unfold append. rewrite <- app_assoc.
      cbn [app].
      destruct (trimmed_window (conversation_history s)
                  [user_message user_input; assistant_message text])
        as (dropped & kept & Hold & Htrim & Hlen & Hfull); [cbn; lia|lia|].
      exists dropped, kept. rewrite Htrim. repeat split; [exact Hold|lia|].
      intros Hd. rewrite (Hfull Hd). lia.
  - exists ("Error while thinking: " ++ exn_str e), s2, evs. split; [|split].
    + rewrite Heq. unfold try_except. rewrite Htry. reflexivity.
    + unfold added in *. rewrite Hadd, Ht1. reflexivity.
    + intros Hno. exfalso. exact (Hno e (proj1 Hres)).
Qed.

Lemma slice_last_zero {A} (l : list A) : slice_last 0 l = l.
Proof. reflexivity. Qed.

(** X8. With [max_history = 0] nothing bounds the history: [_trim_history]
    changes nothing, [_build_messages] sends the whole history after the
    system message, and every turn of [think] in which no query failed makes
    the history two messages longer. *)
Theorem zero_max_history_keeps_everything :
  max_history config = 0%Z ->
  (forall s : BState, Brain._trim_history config s = (Return tt, s)) /\
  (forall s : BState, exists system,
      build s = (Return (system :: conversation_history s), s)) /\
  forall user_input (s : BState),
  exists text s' evs,
    run_think user_input s = (Return text, s') /\
    added s s' evs /\
    (no_failure evs ->
     conversation_history s'
     = (conversation_history s
          ++ [user_message user_input; assistant_message text])%list).
Proof.
  intros Hm. split; [|split].
  - intros s. unfold _trim_history, modify. rewrite Hm. cbn [Z.mul].
    destruct (_ <? _)%Z; [|reflexivity].
    rewrite slice_last_zero. destruct s. reflexivity.
  - intros s. unfold _build_messages. rewrite Hm. cbn [Z.mul]. rewrite slice_last_zero.
    eexists. reflexivity.
  - intros user_input s.
    destruct (run_think_eq py_repr running_loop future_repr package config skill_registry
              _chat get_user_context live_sensor_parts user_input s)
    as (messages & tools & s1 & Hh1 & Hb1 & Ht1 & Heq).
    destruct (prefix_outcome messages tools s1) as (r & s2 & evs & Hrun & Hadd & Hh & Hres).
    pose proof (think_try_cases messages tools s1 Hrun) as Htry.
    destruct r as [[[it final] msgs]|e].
    + set (text := str_or (resp_content final) "Action completed.") in *.
      destruct (finish_fields text s2) as (Hfh & _ & Hft & _).
      exists text, (finish text s2), evs. split; [|split].
      * rewrite Heq. unfold try_except. rewrite Htry. reflexivity.
      * unfold added in *. rewrite Hft, Hadd, Ht1. reflexivity.
      * intros _. rewrite Hfh, Hh, Hh1. unfold BrainStream.trimmed. rewrite Hm.
        cbn [Z.mul]. rewrite slice_last_zero.
        match goal with |- (if ?c then ?x else ?x) = _ => destruct c end;
          unfold append; rewrite <- app_assoc; reflexivity.
    + exists ("Error while thinking: " ++ exn_str e), s2, evs. split; [|split].
      * rewrite Heq. unfold try_except. rewrite Htry. reflexivity.
      * unfold added in *. rewrite Hadd, Ht1. reflexivity.
      * intros Hno. exfalso. exact (Hno e (proj1 Hres)).
Qed.

(** X9. What the backend is sent at the start of a turn, for
    [max_history >= 0]: the system message, then the newest part of the
    history, which ends with the user message just appended; with
    [max_history >= 1] that part has at most [2 * max_history] messages, so
    a history that [_trim_history] has not cut yet is cut here. *)
Theorem backend_sees_newest_messages user_input (s : BState) :
  (0 <= max_history config)%Z ->
  let s0 := set_history (append (conversation_history s) (user_message user_input)) s in
  exists system older window,
    build s0 = (Return (system :: older ++ [user_message user_input]), s0) /\
    role system = "system" /\
    (get_user_context (world s) = "" -> live_sensor_parts (world s) = [] ->
     content system = system_prompt config) /\
    conversation_history s = (window ++ older)%list /\
    (1 <= max_history config ->
     Z.of_nat (length (older ++ [user_message user_input])%list) <= 2 * max_history config)%Z /\
    (max_history config = 0%Z -> window = []).
Proof.
  intros Hm s0. unfold _build_messages. subst s0.
  cbn [conversation_history set_history world]. unfold append.
  assert (Hwin : exists older window,
             slice_last (max_history config * 2)
                        (conversation_history s ++ [user_message user_input])%list
             = (older ++ [user_message user_input])%list /\
             conversation_history s = (window ++ older)%list /\
             (1 <= max_history config ->
              Z.of_nat (length (older ++ [user_message user_input])%list)
              <= 2 * max_history config)%Z /\
             (max_history config = 0%Z -> window = [])).
  { unfold slice_last. destruct (0 <? max_history config * 2)%Z eqn:E.
    - apply Z.ltb_lt in E. rewrite length_app. cbn [length].
      set (n := length (conversation_history s) + 1 - Z.to_nat (max_history config * 2)).
      assert (Hn : n <= length (conversation_history s)) by (subst n; lia).
      exists (skipn n (conversation_history s)), (firstn n (conversation_history s)).
      split; [apply skipn_keeps_tail, Hn|]. split; [symmetry; apply firstn_skipn|].
      split; [|lia]. intros _. rewrite length_app, length_skipn. cbn [length].
      subst n. lia.
    - apply Z.ltb_ge in E. replace (max_history config * 2)%Z with 0%Z by lia.
      exists (conversation_history s), []. cbn [Z.opp Z.to_nat skipn].
      split; [reflexivity|]. split; [reflexivity|]. split; [lia|reflexivity]. }
  destruct Hwin as (older & window & Hslice & Hold & Hlen & Hzero).
  eexists. exists older, window. rewrite Hslice.
  split; [reflexivity|]. split; [reflexivity|].
  split; [|split; [exact Hold|split; [exact Hlen|exact Hzero]]].
  intros Hctx Hparts. cbn [content]. rewrite Hctx, Hparts. reflexivity.
Qed.

(** X10. When tools were used, the stream is the answer of [think]: if
    [think] on the same input and state runs at least one round of tool
    execution and no query fails, [think_stream], consumed to its end, yields
    that answer as its only chunk and leaves the same state (history, registry,
    world, backend and trace). *)
Theorem stream_after_tools_yields_the_answer user_input (s : BState) text s' evs :
  run_think user_input s = (Return text, s') ->
  added s s' evs ->
  no_failure evs ->
  1 <= rounds evs ->
  run_think_stream user_input s = (Return tt, [text], s').
Proof.
  intros Hthink Hadd Hno Hrounds.
  destruct (turn_start user_input s)
    as (messages & tools & s1 & Hh1 & Hb1 & Ht1 & _ & Heq & Heqs).
  destruct (prefix_outcome messages tools s1) as (r & s2 & evs0 & Hrun & Hadd0 & Hh & Hres).
  pose proof (think_try_cases messages tools s1 Hrun) as Htry.
  pose proof (stream_try_cases messages tools s1 [] Hrun) as Hstream.
  rewrite Heq in Hthink. unfold try_except in Hthink. rewrite Htry in Hthink.
  destruct r as [[[it final] msgs]|e].
  - cbn zeta in Hthink. injection Hthink as <- <-.
    destruct (finish_fields (str_or (resp_content final) "Action completed.") s2)
      as (_ & _ & Hft & _).
    assert (Hevs : evs = evs0).
    { apply (added_unique (s := s) (s' := finish (str_or (resp_content final)
                                                        "Action completed.") s2)).
      - exact Hadd.
      - unfold added in *. rewrite Hft, Hadd0, Ht1. reflexivity. }
    subst evs0. destruct Hres as (Hit & _).
    assert (Hpos : (0 <? it)%Z = true) by (apply Z.ltb_lt; lia).
    rewrite Hpos in Hstream. rewrite Heqs. unfold try_except. rewrite Hstream.
    reflexivity.
  - cbn in Hthink. injection Hthink as <- <-.
    assert (Hevs : evs = evs0).
    { apply (added_unique (s := s) (s' := s2)); [exact Hadd|].
      unfold added in *. rewrite Hadd0, Ht1. reflexivity. }
    subst evs0. exfalso. exact (Hno e (proj1 Hres)).
Qed.

(** X11. When no tool was used, the stream replaces the answer of [think]:
    if [think] on the same input and state runs no round and no query fails,
    [think_stream] asks the same first query, drops its text, and relays the
    chunks of the streaming backend, called with the messages built at the
    start of the turn.  The assistant message stored is the concatenation of
    the chunks, empty when there are none (no "Action completed."); when the
    stream raises after some chunks, a last chunk "Error: ..." follows them
    and no assistant message is stored. *)
Theorem stream_without_tools_relays_chunks user_input (s : BState) text s' evs :
  run_think user_input s = (Return text, s') ->
  added s s' evs ->
  no_failure evs ->
  rounds evs = 0 ->
  exists messages out s'',
    fst (build (set_history (append (conversation_history s) (user_message user_input)) s))
    = Return messages /\
    run_think_stream user_input s = (Return tt, out, s'') /\
    trace s'' = trace s' /\ registry s'' = registry s' /\ world s'' = world s' /\
    backend s'' = snd (_stream_dispatch messages (backend s')) /\
    match fst (_stream_dispatch messages (backend s')) with
    | (chunks, None) =>
        out = chunks /\
        conversation_history s''
        = trimmed (conversation_history s
                     ++ [user_message user_input;
                         assistant_message (BrainStream.accumulate chunks)])%list
    | (chunks, Some e) =>
        out = (chunks ++ [("Error: " ++ exn_str e)%string])%list /\
        conversation_history s''
        = (conversation_history s ++ [user_message user_input])%list
    end.
Proof.
  intros Hthink Hadd Hno Hrounds.
  destruct (turn_start user_input s)
    as (messages & tools & s1 & Hh1 & Hb1 & Ht1 & Hbuild & Heq & Heqs).
  destruct (prefix_outcome messages tools s1) as (r & s2 & evs0 & Hrun & Hadd0 & Hh & Hres).
  pose proof (think_try_cases messages tools s1 Hrun) as Htry.
  pose proof (stream_try_cases messages tools s1 [] Hrun) as Hstream.
  rewrite Heq in Hthink. unfold try_except in Hthink. rewrite Htry in Hthink.
  destruct r as [[[it final] msgs]|e].
  - cbn zeta in Hthink.
    assert (Hs' : s' = finish (str_or (resp_content final) "Action completed.") s2)
      by (inversion Hthink; reflexivity).
    clear Hthink. subst s'.
    destruct (finish_fields (str_or (resp_content final) "Action completed.") s2)
      as (_ & Hfb & Hft & Hfr & Hfw).
    assert (Hevs : evs = evs0).
    { apply (added_unique (s := s) (s' := finish (str_or (resp_content final)
                                                        "Action completed.") s2)).
      - exact Hadd.
      - unfold added in *. rewrite Hft, Hadd0, Ht1. reflexivity. }
    subst evs0. destruct Hres as (Hit & _ & Hzero).
    destruct (Hzero Hrounds) as (-> & _ & _).
    assert (Hpos : (0 <? it)%Z = false) by (apply Z.ltb_ge; lia).
    rewrite Hpos in Hstream. rewrite Hfb, Hft, Hfr, Hfw.
    exists messages. rewrite Heqs. unfold try_except. rewrite Hstream.
    destruct (_stream_dispatch messages (backend s2)) as [[chunks [e|]] b'].
    + eexists. eexists. split; [exact Hbuild|]. split; [reflexivity|].
      cbn [fst snd]. cbn. rewrite Hh, Hh1. repeat split; reflexivity.
    + destruct (finish_fields (BrainStream.accumulate chunks) (set_backend b' s2))
        as (Hgh & Hgb & Hgt & Hgr & Hgw).
      eexists. eexists. split; [exact Hbuild|]. split; [reflexivity|].
      rewrite Hgt, Hgr, Hgw, Hgb, Hgh. cbn [fst snd]. cbn. rewrite Hh, Hh1.
      unfold append. rewrite <- app_assoc. repeat split; reflexivity.
  - cbn in Hthink. injection Hthink as <- <-.
    assert (Hevs : evs = evs0).
    { apply (added_unique (s := s) (s' := s2)); [exact Hadd|].
      unfold added in *. rewrite Hadd0, Ht1. reflexivity. }
    subst evs0. exfalso. exact (Hno e (proj1 Hres)).
Qed.

Lemma stream_turn_outcome user_input (s : BState) :
  exists out s' evs,
    run_think_stream user_input s = (Return tt, out, s') /\
    added s s' evs /\
    forall e, In (Queried (Raise e)) evs ->
      out = ["Error: " ++ exn_str e] /\
      conversation_history s' = append (conversation_history s) (user_message user_input) /\
      run_think user_input s = (Return ("Error while thinking: " ++ exn_str e), s').
Proof.
  destruct (turn_start user_input s)
    as (messages & tools & s1 & Hh1 & Hb1 & Ht1 & _ & Heq & Heqs).
  destruct (prefix_outcome messages tools s1) as (r & s2 & evs0 & Hrun & Hadd0 & Hh & Hres).
  pose proof (think_try_cases messages tools s1 Hrun) as Htry.
  pose proof (stream_try_cases messages tools s1 [] Hrun) as Hstream.
  rewrite Heqs, Heq. unfold try_except. rewrite Htry, Hstream.
  assert (Hadd : forall s', trace s' = trace s2 -> added s s' evs0).
  { intros s' Ht. unfold added in *. rewrite Ht, Hadd0, Ht1. reflexivity. }
  destruct r as [[[it final] msgs]|e].
  - destruct Hres as (_ & Hno & _).
    destruct (0 <? it)%Z.
    + eexists. eexists. exists evs0. split; [reflexivity|].
      split; [apply Hadd; apply finish_trace|].
      intros e Hin. exfalso. exact (Hno e Hin).
    + destruct (_stream_dispatch msgs (backend s2)) as [[chunks [e|]] b'].
      * eexists. eexists. exists evs0. split; [reflexivity|].
        split; [apply Hadd; reflexivity|].
        intros e' Hin. exfalso. exact (Hno e' Hin).
      * eexists. eexists. exists evs0. split; [reflexivity|].
        split; [apply Hadd; rewrite finish_trace; reflexivity|].
        intros e' Hin. exfalso. exact (Hno e' Hin).
  - destruct Hres as [_ Honly].
    eexists. eexists. exists evs0. split; [reflexivity|].
    split; [apply Hadd; reflexivity|].
    intros e' Hin. rewrite (Honly e' Hin). cbn. rewrite Hh, Hh1. auto.
Qed.

(** X12. [think_stream], consumed to its end, never raises; when a backend
    query of the turn raised, its only chunk is "Error: ..." built from that
    exception (where [think] returns "Error while thinking: ..." and ends in
    the same state), and the history holds the user message with no
    assistant message after it. *)
Theorem think_stream_reports_failure user_input (s : BState) :
  exists out s' evs,
    run_think_stream user_input s = (Return tt, out, s') /\
    added s s' evs /\
    forall e, In (Queried (Raise e)) evs ->
      out = ["Error: " ++ exn_str e] /\
      conversation_history s' = append (conversation_history s) (user_message user_input) /\
      run_think user_input s = (Return ("Error while thinking: " ++ exn_str e), s').
Proof. exact (stream_turn_outcome user_input s). Qed.

(** X13. [autonomous_think] never raises: it asks the backend once, with
    the system prompt and the one prompt only (no history, no tools), returns
    the stripped text of the reply, or the empty text when the query raises,
    and leaves history, registry and world as they were.  [free_speak] is
    [autonomous_think] on a prompt made from the topic; no topic and the
    empty topic give the same prompt. *)
Theorem one_shot_queries_are_contained prompt (s : BState) :
  let ask := BrainStream.autonomous_think config _chat py_strip prompt in
  let asked := _chat [ {| role := "system"; content := system_prompt config |};
                       user_message prompt ] [] (backend s) in
  fst (ask s) = Return match fst asked with
                       | Return response => py_strip (resp_content response)
                       | Raise _ => EmptyString
                       end /\
  conversation_history (snd (ask s)) = conversation_history s /\
  registry (snd (ask s)) = registry s /\ world (snd (ask s)) = world s /\
  backend (snd (ask s)) = snd asked /\
  added s (snd (ask s)) [Queried (fst asked)] /\
  forall topic : option string,
    BrainStream.free_speak config _chat py_strip topic s
    = BrainStream.autonomous_think config _chat py_strip
        (if String.eqb (match topic with Some t => t | None => EmptyString end) EmptyString
         then "Make a brief spontaneous comment, observation, or question. "
                ++ "1-2 sentences. Be interesting."
         else "Say something brief and interesting about: "
                ++ match topic with Some t => t | None => EmptyString end
                ++ ". 1-2 sentences. Be opinionated.") s.
Proof.
  intros ask asked. subst ask asked.
  unfold BrainStream.autonomous_think, BrainStream.one_shot, try_except, bind.
  rewrite run_chat_eq.
  destruct (_chat _ [] (backend s)) as [[r|e] b']; cbn [fst snd];
    (repeat split; try reflexivity;
     intros [[|c t]|]; reflexivity).
Qed.

End TurnFacts.

Lemma completed_turn_bounds_history_witness :
  (1 <= Brain.max_history MoreExamples.small_config)%Z /\
  exists text s' evs,
    MoreExamples.think MoreExamples.small_config "What time is it?"
      (MoreExamples.seasoned_brain [Return Examples.time_request; Return Examples.time_answer])
    = (Return text, s') /\
    Brain.added
      (MoreExamples.seasoned_brain [Return Examples.time_request; Return Examples.time_answer])
      s' evs /\
    ((forall e, ~ In (Brain.Queried (Raise e)) evs) ->
     exists dropped kept,
       Brain.conversation_history
         (MoreExamples.seasoned_brain
            [Return Examples.time_request; Return Examples.time_answer])
       = (dropped ++ kept)%list /\
       Brain.conversation_history s'
       = (kept ++ [ {| Brain.role := "user"; Brain.content := "What time is it?" |};
                    {| Brain.role := "assistant"; Brain.content := text |} ])%list /\
       (Z.of_nat (length (Brain.conversation_history s'))
        <= 2 * Brain.max_history MoreExamples.small_config)%Z /\
       (dropped <> [] ->
        Z.of_nat (length (Brain.conversation_history s'))
        = (2 * Brain.max_history MoreExamples.small_config)%Z)).
Proof.
  assert (H : (1 <= Brain.max_history MoreExamples.small_config)%Z) by (cbn; lia).
  split; [exact H|].
  exact (completed_turn_bounds_history
           Examples.quote false EmptyString [] MoreExamples.small_config true
           Examples.scripted (fun _ : unit => EmptyString) (fun _ : unit => [])
           "What time is it?"
           (MoreExamples.seasoned_brain
              [Return Examples.time_request; Return Examples.time_answer]) H).
Defined.

Lemma zero_max_history_keeps_everything_witness :
  Brain.max_history MoreExamples.unbounded_config = 0%Z /\
  Brain._trim_history MoreExamples.unbounded_config
    (MoreExamples.seasoned_brain [])
  = (Return tt, MoreExamples.seasoned_brain []).
Proof.
  assert (H : Brain.max_history MoreExamples.unbounded_config = 0%Z) by reflexivity.
  split; [exact H|].
  exact (proj1 (zero_max_history_keeps_everything
                  Examples.quote false EmptyString [] MoreExamples.unbounded_config true
                  Examples.scripted (fun _ : unit => EmptyString) (fun _ : unit => []) H)
               (MoreExamples.seasoned_brain [])).
Defined.

Lemma backend_sees_newest_messages_witness :
  (0 <= Brain.max_history MoreExamples.small_config)%Z /\
  exists system older window,
    Brain._build_messages MoreExamples.small_config
      (fun _ : unit => EmptyString) (fun _ : unit => [])
      (Brain.set_history
         (Py.append (Brain.conversation_history (MoreExamples.seasoned_brain []))
                    {| Brain.role := "user"; Brain.content := "What time is it?" |})
         (MoreExamples.seasoned_brain []))
    = (Return (system :: older
                 ++ [ {| Brain.role := "user"; Brain.content := "What time is it?" |} ]),
       Brain.set_history
         (Py.append (Brain.conversation_history (MoreExamples.seasoned_brain []))
                    {| Brain.role := "user"; Brain.content := "What time is it?" |})
         (MoreExamples.seasoned_brain [])) /\
    Brain.conversation_history (MoreExamples.seasoned_brain []) = (window ++ older)%list /\
    (Z.of_nat (length (older ++ [ {| Brain.role := "user";
                                     Brain.content := "What time is it?" |} ])%list)
     <= 2 * Brain.max_history MoreExamples.small_config)%Z.
Proof.
  assert (H : (0 <= Brain.max_history MoreExamples.small_config)%Z) by (cbn; lia).
  split; [exact H|].
  destruct (backend_sees_newest_messages
              MoreExamples.small_config (fun _ : unit => EmptyString) (fun _ : unit => [])
              "What time is it?" (MoreExamples.seasoned_brain []) H)
    as (system & older & window & Hbuild & _ & _ & Hold & Hlen & _).
  exists system, older, window. split; [exact Hbuild|]. split; [exact Hold|].
  apply Hlen. cbn. lia.
Defined.

Lemma stream_after_tools_yields_the_answer_witness :
  MoreExamples.think MoreExamples.small_config "What time is it?"
    (MoreExamples.seasoned_brain [Return Examples.time_request; Return Examples.time_answer])
  = (Return "It is noon.",
     snd (MoreExamples.think MoreExamples.small_config "What time is it?"
            (MoreExamples.seasoned_brain
               [Return Examples.time_request; Return Examples.time_answer]))) /\
  MoreExamples.think_stream MoreExamples.small_config "What time is it?"
    (MoreExamples.seasoned_brain [Return Examples.time_request; Return Examples.time_answer])
  = (Return tt, ["It is noon."],
     snd (MoreExamples.think MoreExamples.small_config "What time is it?"
            (MoreExamples.seasoned_brain
               [Return Examples.time_request; Return Examples.time_answer]))).
Proof.
  assert (Hthink :
    MoreExamples.think MoreExamples.small_config "What time is it?"
      (MoreExamples.seasoned_brain [Return Examples.time_request; Return Examples.time_answer])
    = (Return "It is noon.",
       snd (MoreExamples.think MoreExamples.small_config "What time is it?"
              (MoreExamples.seasoned_brain
                 [Return Examples.time_request; Return Examples.time_answer]))))
    by (vm_compute; reflexivity).
  split; [exact Hthink|].
  apply (stream_after_tools_yields_the_answer
           Examples.quote false EmptyString [] MoreExamples.small_config true
           Examples.scripted (fun _ : unit => EmptyString) (fun _ : unit => [])
           MoreExamples.scripted_stream "What time is it?"
           (evs := [Brain.Queried (Return Examples.time_request);
                    Brain.Dispatched [ {| Brain.tool := "get_time"; Brain.result := "12:00";
                                          Brain.success := true |} ];
                    Brain.Queried (Return Examples.time_answer)])).
  - exact Hthink.
  - vm_compute. reflexivity.
  - intros e [H|[H|[H|[]]]]; discriminate H.
  - vm_compute. lia.
Defined.

Lemma stream_without_tools_relays_chunks_witness :
  MoreExamples.think MoreExamples.unbounded_config "What time is it?"
    (MoreExamples.seasoned_brain [Return Examples.silent_reply; Return Examples.time_answer])
  = (Return "Action completed.",
     snd (MoreExamples.think MoreExamples.unbounded_config "What time is it?"
            (MoreExamples.seasoned_brain
               [Return Examples.silent_reply; Return Examples.time_answer]))) /\
  exists s'',
    MoreExamples.think_stream MoreExamples.unbounded_config "What time is it?"
      (MoreExamples.seasoned_brain [Return Examples.silent_reply; Return Examples.time_answer])
    = (Return tt, ["Well. "; "It is noon."], s'') /\
    Brain.conversation_history s''
    = [ {| Brain.role := "user"; Brain.content := "Hi" |};
        {| Brain.role := "assistant"; Brain.content := "Hello." |};
        {| Brain.role := "user"; Brain.content := "What time is it?" |};
        {| Brain.role := "assistant"; Brain.content := "Well. It is noon." |} ].
Proof.
  assert (Hthink :
    MoreExamples.think MoreExamples.unbounded_config "What time is it?"
      (MoreExamples.seasoned_brain [Return Examples.silent_reply; Return Examples.time_answer])
    = (Return "Action completed.",
       snd (MoreExamples.think MoreExamples.unbounded_config "What time is it?"
              (MoreExamples.seasoned_brain
                 [Return Examples.silent_reply; Return Examples.time_answer]))))
    by (vm_compute; reflexivity).
  split; [exact Hthink|].
  destruct (stream_without_tools_relays_chunks
              Examples.quote false EmptyString [] MoreExamples.unbounded_config true
              Examples.scripted (fun _ : unit => EmptyString) (fun _ : unit => [])
              MoreExamples.scripted_stream "What time is it?"
              (evs := [Brain.Queried (Return Examples.silent_reply)]) Hthink)
    as (messages & out & s'' & Hbuild & Hstream & _ & _ & _ & _ & Hout).
  - vm_compute. reflexivity.
  - intros e [H|[]]; discriminate H.
  - reflexivity.
  - exists s''.
    assert (Hm : messages
                 = [ {| Brain.role := "system"; Brain.content := "You are Max." |};
                     {| Brain.role := "user"; Brain.content := "Hi" |};
                     {| Brain.role := "assistant"; Brain.content := "Hello." |};
                     {| Brain.role := "user"; Brain.content := "What time is it?" |} ])
      by (vm_compute in Hbuild; congruence).
    subst messages. vm_compute in Hout. destruct Hout as [-> Hh].
    split; [exact Hstream|exact Hh].
Defined.

(** ** The thought engine: what a pass can do to the buffer *)

Section EngineMoreFacts.
Import ThoughtEngine.

Variables W B Task : Type.
Variable _chat : list Brain.Message -> list Brain.ToolDef -> B
                 -> outcome Brain.Response * B.
Variable system_prompt : string.
Variables py_strip py_upper py_lower : string -> string.
Variable py_float : string -> option pyfloat.
Variable py_str : value -> string.
Variable py_hash : string -> Z.
Variable format_detections : value -> outcome string.
Variable format_system : value -> outcome string.

Abbreviation EState := (ThoughtEngine.State W B Task).
Abbreviation deep_think :=
  (ThoughtEngine._deep_think (Task := Task) _chat system_prompt py_strip py_upper
                             py_lower py_float format_detections format_system).
Abbreviation run_pass :=
  (ThoughtEngine.think_loop_pass (Task := Task) _chat system_prompt py_strip py_upper
                                 py_lower py_float py_str py_hash format_detections
                                 format_system).
Abbreviation fingerprint := (ThoughtEngine.context_hash py_str py_hash).
Abbreviation prompt_of := (ThoughtEngine.build_prompt format_detections format_system).
Abbreviation parse := (ThoughtEngine.parse_reply py_strip py_upper py_lower py_float).
Abbreviation parse_one := (ThoughtEngine.parse_line py_strip py_upper py_lower py_float).
Abbreviation parse_all := (ThoughtEngine.parse_lines py_strip py_upper py_lower py_float).
Abbreviation on_error := (ThoughtEngine.internal_error (W := W) (B := B) (Task := Task)).
Abbreviation known_category category :=
  (dict_contains category THOUGHT_CATEGORIES = true).
(** The pass is not skipped: the fingerprint changed or the cycle is a
    third one. *)
Abbreviation thinks :=
  (fun now (s : EState) =>
     String.eqb (fingerprint (gather now (next_cycle s))) (_last_context_hash s)
     && negb ((_cycle_count s + 1) mod 3 =? 0)%Z = false).

(** What a pass leaves, in terms of the state it found and of a thought it
    may have added. *)
Lemma run_pass_shape now clock error_clock (s : EState) :
  exists s',
    run_pass now clock error_clock s = (Return tt, s') /\
    _cycle_count s' = (_cycle_count s + 1)%Z /\
    bus s' = bus s /\
    (_THOUGHTS s' = _THOUGHTS s \/
     (exists p, _THOUGHTS s' = arrive (_THOUGHTS s)
                  {| a_content := p_thought_text p; a_category := p_category p;
                     a_speak_score := p_speak_score p; a_clock := clock |} /\
                exists content, parse content = Return p) \/
     exists e, _THOUGHTS s' = arrive (_THOUGHTS s)
                 {| a_content := "Internal error: " ++ exn_str e; a_category := "alert";
                    a_speak_score := Finite (2 # 10); a_clock := error_clock |}) /\
    match brain s with
    | None => brain s' = None /\ _THOUGHTS s' = _THOUGHTS s
    | Some br =>
        exists br', brain s' = Some br' /\
          Brain.conversation_history br' = Brain.conversation_history br /\
          Brain.registry br' = Brain.registry br /\ Brain.world br' = Brain.world br
    end.
Proof.
  rewrite run_pass_cases. cbv zeta.
  destruct (brain s) as [br|] eqn:Ebr.
  - destruct (String.eqb _ _ && _).
    + eexists. split; [reflexivity|]. cbn. rewrite Ebr.
      repeat split; auto. exists br. auto.
    + unfold try_except. rewrite deep_think_cases.
      cbn [brain set_last_context_hash next_cycle set_cycle_count]. rewrite Ebr.
      destruct (prompt_of _) as [prompt|e].
      * cbv zeta.
        destruct (_chat _ _ _) as [[response|e] b'] eqn:Echat; cbn [fst snd].
        -- destruct (parse (Brain.resp_content response)) as [p|e] eqn:Eparse.
           ++ destruct (_ && _).
              ** eexists. split; [reflexivity|]. cbn.
                 split; [reflexivity|]. split; [reflexivity|]. split.
                 --- right. left. exists p. split; [reflexivity|].
                     exists (Brain.resp_content response). exact Eparse.
                 --- eexists. split; [reflexivity|]. cbn. auto.
              ** eexists. split; [reflexivity|]. cbn.
                 repeat split; auto. eexists. split; [reflexivity|]. cbn. auto.
           ++ eexists. split; [reflexivity|]. cbn.
              repeat split; auto. eexists. split; [reflexivity|]. cbn. auto.
        -- eexists. split; [reflexivity|]. cbn.
           repeat split; auto. eexists. split; [reflexivity|]. cbn. auto.
      * eexists. split; [reflexivity|]. cbn. rewrite Ebr.
        split; [reflexivity|]. split; [reflexivity|]. split.
        -- right. right. exists e. reflexivity.
        -- exists br. auto.
  - eexists. split; [reflexivity|]. cbn. rewrite Ebr. repeat split; auto.
Qed.

(** X14. A pass of the thinking loop never raises.  It raises the cycle
    counter by one, leaves the bus alone and adds at most one thought to the
    buffer; the query it sends does not enter the conversation history of the
    brain, whose registry and world stay as they were; an engine without a
    brain adds nothing. *)
Theorem thought_pass_is_contained now clock error_clock (s : EState) :
  exists s',
    run_pass now clock error_clock s = (Return tt, s') /\
    _cycle_count s' = (_cycle_count s + 1)%Z /\
    bus s' = bus s /\
    (_THOUGHTS s' = _THOUGHTS s \/
     exists a, _THOUGHTS s' = arrive (_THOUGHTS s) a /\
               (a_clock a = clock \/ a_clock a = error_clock)) /\
    length (_THOUGHTS s') <= Nat.max (length (_THOUGHTS s)) _MAX_THOUGHTS /\
    match brain s with
    | None => brain s' = None /\ _THOUGHTS s' = _THOUGHTS s
    | Some br =>
        exists br', brain s' = Some br' /\
          Brain.conversation_history br' = Brain.conversation_history br /\
          Brain.registry br' = Brain.registry br /\ Brain.world br' = Brain.world br
    end.
Proof.
  destruct (run_pass_shape now clock error_clock s)
    as (s' & Hrun & Hcount & Hbus & Hbuf & Hbrain).
  exists s'. split; [exact Hrun|]. split; [exact Hcount|]. split; [exact Hbus|].
  split; [|split; [|exact Hbrain]].
  - destruct Hbuf as [H|[(p & H & _)|(e & H)]]; [left; exact H| |];
      right; eexists; (split; [exact H|]); cbn; auto.
  - destruct Hbuf as [H|[(p & H & _)|(e & H)]]; rewrite H.
    + lia.
    + rewrite arrive_eq. pose proof (evict_length (append (_THOUGHTS s)
        (thought_of {| a_content := p_thought_text p; a_category := p_category p;
                       a_speak_score := p_speak_score p; a_clock := clock |}))). lia.
    + rewrite arrive_eq. pose proof (evict_length (append (_THOUGHTS s)
        (thought_of {| a_content := "Internal error: " ++ exn_str e;
                       a_category := "alert"; a_speak_score := Finite (2 # 10);
                       a_clock := error_clock |}))). lia.
Qed.

(** X15. When building the prompt raises (a detection or a system payload
    of another shape than the f-strings index), the pass reports it as a
    thought: the buffer gets "Internal error: ..." with category "alert" and
    score 0.2, which [get_speakable_thoughts] never returns; the backend is
    not asked, and the fingerprint of the context is stored all the same. *)
Theorem prompt_failure_becomes_alert_thought now clock error_clock (s : EState) br e :
  brain s = Some br ->
  thinks now s ->
  prompt_of (gather now (next_cycle s)) = Raise e ->
  let alert := {| a_content := "Internal error: " ++ exn_str e; a_category := "alert";
                  a_speak_score := Finite (2 # 10); a_clock := error_clock |} in
  let s' := snd (run_pass now clock error_clock s) in
  fst (run_pass now clock error_clock s) = Return tt /\
  _THOUGHTS s' = arrive (_THOUGHTS s) alert /\
  get_latest_thought (_THOUGHTS s') = Some (thought_of alert) /\
  (forall cutoff, speakable cutoff (thought_of alert) = false) /\
  brain s' = Some br /\
  _last_context_hash s' = fingerprint (gather now (next_cycle s)).
Proof.
  intros Hbr Hthinks Hprompt alert s'. subst s'.
  rewrite run_pass_cases. cbv zeta. rewrite Hbr, Hthinks.
  unfold try_except. rewrite deep_think_cases.
  cbn [brain set_last_context_hash next_cycle set_cycle_count]. rewrite Hbr, Hprompt.
  cbn [fst snd]. split; [reflexivity|]. split; [reflexivity|]. split.
  - cbn [_THOUGHTS snd internal_error]. unfold internal_error, bind, add_thought, ret.
    cbn [_add_thought fst snd _THOUGHTS set_thoughts].
    rewrite evict_skipn. unfold get_latest_thought, append.
    rewrite length_app. cbn [length].
    rewrite skipn_keeps_tail by (unfold _MAX_THOUGHTS; lia).
    rewrite map_app. cbn [map]. apply last_last.
  - split; [|split; [exact Hbr|reflexivity]].
    intros cutoff. unfold speakable. cbn.
    destruct (Qltb cutoff (epoch error_clock)); reflexivity.
Qed.

(** X16. When the backend query of a thought cycle raises, the pass adds no
    thought: the failure is only recorded on the brain the query went to.  The
    fingerprint of the context is stored before the query, so the next pass on
    an unchanged context is skipped unless its cycle is a third one. *)
Theorem backend_failure_leaves_no_thought now clock error_clock (s : EState) br prompt e :
  brain s = Some br ->
  thinks now s ->
  prompt_of (gather now (next_cycle s)) = Return prompt ->
  fst (_chat (thought_messages system_prompt prompt) [] (Brain.backend br)) = Raise e ->
  let s' := snd (run_pass now clock error_clock s) in
  fst (run_pass now clock error_clock s) = Return tt /\
  _THOUGHTS s' = _THOUGHTS s /\
  _last_context_hash s' = fingerprint (gather now (next_cycle s)) /\
  brain s' = Some (Brain.record_event (Brain.Queried (Raise e))
                     (Brain.set_backend
                        (snd (_chat (thought_messages system_prompt prompt) []
                                    (Brain.backend br))) br)).
Proof.
  intros Hbr Hthinks Hprompt Hchat s'. subst s'.
  rewrite run_pass_cases. cbv zeta. rewrite Hbr, Hthinks.
  unfold try_except. rewrite deep_think_cases.
  cbn [brain set_last_context_hash next_cycle set_cycle_count]. rewrite Hbr, Hprompt.
  cbv zeta. rewrite Hchat. cbn. auto.
Qed.

Lemma parse_line_category p line p' :
  parse_one p line = Return p' ->
  known_category (p_category p) -> known_category (p_category p').
Proof.
  unfold parse_line. intros H Hp.
  destruct (startswith "CATEGORY:" _).
  - destruct (field_value _ _) as [v|e]; [|discriminate].
    destruct (dict_contains (py_lower v) THOUGHT_CATEGORIES) eqn:E;
      injection H as <-; [exact E|exact Hp].
  - destruct (startswith "SPEAK_SCORE:" _).
    + destruct (field_value _ _) as [v|e]; [|discriminate].
      destruct (py_float v); injection H as <-; exact Hp.
    + destruct (startswith "THOUGHT:" _).
      * destruct (field_value _ _) as [v|e]; [|discriminate].
        injection H as <-. exact Hp.
      * injection H as <-. exact Hp.
Qed.

Lemma parse_lines_category lines :
  forall p p', parse_all p lines = Return p' ->
               known_category (p_category p) -> known_category (p_category p').
Proof.
  induction lines as [|line lines IH]; intros p p' H Hp; cbn in H.
  - injection H as <-. exact Hp.
  - destruct (parse_one p line) as [p1|e] eqn:E; [|discriminate].
    apply (IH p1 p' H). exact (parse_line_category _ _ E Hp).
Qed.

Lemma in_arrive t ts a : In t (arrive ts a) -> In t ts \/ t = thought_of a.
Proof.
  rewrite arrive_eq, evict_skipn. intros H. apply in_skipn in H.
  unfold append in H. apply in_app_or in H as [H|[H|[]]]; auto.
Qed.

(** X17. Every thought the thinking loop stores has one of the eight
    categories of [THOUGHT_CATEGORIES]: a category the reply names outside
    the table is ignored, and the error thought is an "alert".  If the
    thoughts of the buffer have known categories before a pass, they have
    after it. *)
Theorem pass_keeps_categories_known now clock error_clock (s : EState) :
  (forall t, In t (_THOUGHTS s) ->
             dict_contains (category t) THOUGHT_CATEGORIES = true) ->
  forall t, In t (_THOUGHTS (snd (run_pass now clock error_clock s))) ->
            dict_contains (category t) THOUGHT_CATEGORIES = true.
Proof.
  intros Hs t.
  destruct (run_pass_shape now clock error_clock s)
    as (s' & Hrun & _ & _ & Hbuf & _).
  rewrite Hrun. cbn [snd].
  destruct Hbuf as [H|[(p & H & content & Hparse)|(e & H)]]; rewrite H.
  - apply Hs.
  - intros Hin. apply in_arrive in Hin as [Hin| ->]; [apply Hs, Hin|].
    cbn. apply (parse_lines_category _ _ Hparse). reflexivity.
  - intros Hin. apply in_arrive in Hin as [Hin| ->]; [apply Hs, Hin|].
    reflexivity.
Qed.

Lemma parse_lines_plain lines :
  forall p,
    (forall line, In line lines ->
       startswith "CATEGORY:" (py_upper (py_strip line)) = false /\
       startswith "SPEAK_SCORE:" (py_upper (py_strip line)) = false /\
       startswith "THOUGHT:" (py_upper (py_strip line)) = false) ->
    parse_all p lines = Return p.
Proof.
  induction lines as [|line lines IH]; intros p H; [reflexivity|].
  cbn [parse_lines]. unfold parse_line at 1.
  destruct (H line (or_introl eq_refl)) as (H1 & H2 & H3).
  rewrite H1, H2, H3. apply IH. intros l Hl. apply H. right. exact Hl.
Qed.

(** X18. A reply in which no line starts with one of the three field names
    (after stripping, in any case) is taken whole: the thought is the
    stripped reply, an "observation" with score 0.5, and since 0.5 is not
    above the threshold of [get_speakable_thoughts], it is never spoken. *)
Theorem plain_reply_is_a_silent_observation content :
  (forall line, In line (split_on (ascii_of_nat 10) content) ->
     startswith "CATEGORY:" (py_upper (py_strip line)) = false /\
     startswith "SPEAK_SCORE:" (py_upper (py_strip line)) = false /\
     startswith "THOUGHT:" (py_upper (py_strip line)) = false) ->
  parse content = Return {| p_category := "observation";
                            p_speak_score := Finite (5 # 10);
                            p_thought_text := py_strip content |} /\
  forall clock cutoff ts,
    let added := _add_thought (py_strip content) "observation" (Finite (5 # 10)) clock ts in
    speakable cutoff (fst added) = false /\
    (forall now since,
       ~ In (fst added) (get_speakable_thoughts since now (snd added))).
Proof.
  intros H. split; [apply parse_lines_plain, H|].
  intros clock cutoff ts added.
  assert (Hsilent : forall c, speakable c (fst added) = false).
  { intros c. unfold speakable. cbn.
    destruct (Qltb c (epoch clock)); reflexivity. }
  split; [apply Hsilent|].
  intros now since Hin. unfold get_speakable_thoughts in Hin.
  apply filter_In in Hin as [_ Hin]. rewrite Hsilent in Hin. discriminate.
Qed.

End EngineMoreFacts.

Lemma prompt_failure_becomes_alert_thought_witness :
  ThoughtEngine._THOUGHTS
    (snd (Examples.think_loop_pass "12:00:00" Examples.noon Examples.noon
            (MoreExamples.blind_engine [Return Examples.dark_reply])))
  = ThoughtEngine.arrive []
      {| ThoughtEngine.a_content := "Internal error: 'object'";
         ThoughtEngine.a_category := "alert";
         ThoughtEngine.a_speak_score := Finite (2 # 10);
         ThoughtEngine.a_clock := Examples.noon |} /\
  ThoughtEngine.brain
    (snd (Examples.think_loop_pass "12:00:00" Examples.noon Examples.noon
            (MoreExamples.blind_engine [Return Examples.dark_reply])))
  = Some (Examples.fresh_brain [Return Examples.dark_reply]).
Proof.
  destruct (prompt_failure_becomes_alert_thought
              Examples.scripted "You are Max." Examples.strip Examples.upper Examples.lower
              Examples.parse_float Examples.render Examples.hash
              Examples.format_detections Examples.format_system
              (now := "12:00:00") Examples.noon Examples.noon
              (s := MoreExamples.blind_engine [Return Examples.dark_reply])
              (br := Examples.fresh_brain [Return Examples.dark_reply])
              (e := mkExn "KeyError" "'object'"))
    as (_ & Hbuf & _ & _ & Hbrain & _).
  - reflexivity.
  - vm_compute. reflexivity.
  - vm_compute. reflexivity.
  - split; [exact Hbuf|exact Hbrain].
Defined.

Lemma backend_failure_leaves_no_thought_witness :
  ThoughtEngine._THOUGHTS
    (snd (Examples.think_loop_pass "12:00:00" Examples.noon Examples.noon
            (Examples.engine 0 EmptyString [Raise Examples.unreachable])))
  = [] /\
  fst (Examples.think_loop_pass "12:00:00" Examples.noon Examples.noon
         (Examples.engine 0 EmptyString [Raise Examples.unreachable]))
  = Return tt.
Proof.
  destruct (backend_failure_leaves_no_thought
              Examples.scripted "You are Max." Examples.strip Examples.upper Examples.lower
              Examples.parse_float Examples.render Examples.hash
              Examples.format_detections Examples.format_system
              (now := "12:00:00") Examples.noon Examples.noon
              (s := Examples.engine 0 EmptyString [Raise Examples.unreachable])
              (br := Examples.fresh_brain [Raise Examples.unreachable])
              (prompt := match ThoughtEngine.build_prompt
                                 Examples.format_detections Examples.format_system
                                 (Examples.gather "12:00:00"
                                    (ThoughtEngine.next_cycle
                                       (Examples.engine 0 EmptyString
                                          [Raise Examples.unreachable]))) with
                         | Return prompt => prompt
                         | Raise _ => EmptyString
                         end)
              (e := Examples.unreachable))
    as (Hret & Hbuf & _).
  - reflexivity.
  - vm_compute. reflexivity.
  - vm_compute. reflexivity.
  - vm_compute. reflexivity.
  - split; [exact Hbuf|exact Hret].
Defined.

Lemma pass_keeps_categories_known_witness :
  Forall (fun t => dict_contains (ThoughtEngine.category t)
                                 ThoughtEngine.THOUGHT_CATEGORIES = true)
         (ThoughtEngine._THOUGHTS
            (snd (Examples.think_loop_pass "12:00:00" Examples.noon Examples.noon
                    (Examples.engine 0 EmptyString [Return Examples.dark_reply])))).
Proof.
  apply Forall_forall.
  apply (pass_keeps_categories_known
           Examples.scripted "You are Max." Examples.strip Examples.upper Examples.lower
           Examples.parse_float Examples.render Examples.hash
           Examples.format_detections Examples.format_system
           "12:00:00" Examples.noon Examples.noon
           (Examples.engine 0 EmptyString [Return Examples.dark_reply])).
  intros t Hin. vm_compute in Hin. destruct Hin.
Defined.

Lemma plain_reply_is_a_silent_observation_witness :
  ThoughtEngine.parse_reply Examples.strip Examples.upper Examples.lower
    Examples.parse_float "  The room is quiet today. "
  = Return {| ThoughtEngine.p_category := "observation";
              ThoughtEngine.p_speak_score := Finite (5 # 10);
              ThoughtEngine.p_thought_text := "The room is quiet today." |}.
Proof.
  apply (plain_reply_is_a_silent_observation
           Examples.strip Examples.upper Examples.lower Examples.parse_float
           "  The room is quiet today. ").
  intros line Hin. vm_compute in Hin. destruct Hin as [<-|[]].
  vm_compute. auto.
Defined.

(** ** The thought buffer: reads and marks *)

Section BufferMoreFacts.
Import ThoughtEngine.

Lemma last_some {A} (l : list A) (x : A) : last (map Some (l ++ [x])%list) None = Some x.
Proof. rewrite map_app. cbn [map]. apply last_last. Qed.

Lemma evict_keeps_newest ts t :
  exists older, evict (append ts t) = (older ++ [t])%list /\
                exists dropped, ts = (dropped ++ older)%list.
Proof.
  rewrite evict_skipn. unfold append. rewrite length_app. cbn [length].
  set (n := length ts + 1 - _MAX_THOUGHTS).
  assert (Hn : n <= length ts) by (subst n; unfold _MAX_THOUGHTS; lia).
  exists (skipn n ts). split.
  - rewrite skipn_app. replace (n - length ts) with 0 by lia. reflexivity.
  - exists (firstn n ts). symmetry. apply firstn_skipn.
Qed.

(** X19. The thought [_add_thought] returns is the one it stored last:
    right after the call [get_latest_thought] gives that thought, and
    [get_thoughts(count)] with [count >= 1] ends with it, also when the
    buffer was full and the oldest thought was dropped to make room. *)
Theorem latest_thought_is_the_one_added content category score clock ts :
  let added := _add_thought content category score clock ts in
  get_latest_thought (snd added) = Some (fst added) /\
  In (fst added) (snd added) /\
  forall count, (1 <= count)%Z ->
    get_latest_thought (get_thoughts count (snd added)) = Some (fst added).
Proof.
  intros added. subst added. cbn [_add_thought fst snd].
  destruct (evict_keeps_newest ts (new_thought content category score clock))
    as (older & -> & _).
  split; [apply last_some|]. split; [apply in_or_app; right; left; reflexivity|].
  intros count Hc. unfold get_thoughts, slice_last.
  replace (0 <? count)%Z with true by (symmetry; apply Z.ltb_lt; lia).
  rewrite length_app. cbn [length].
  rewrite skipn_app.
  replace (length older + 1 - Z.to_nat count - length older) with 0 by lia.
  cbn [skipn]. apply last_some.
Qed.

(** X20. [get_thoughts(count)] always returns an end of the buffer, in
    order: the last [count] thoughts for [count >= 1], or all of them when
    there are fewer; the whole buffer for [count = 0]; and for a negative
    count all but the first [-count]. *)
Theorem get_thoughts_returns_a_suffix count ts :
  (exists older, ts = (older ++ get_thoughts count ts)%list) /\
  length (get_thoughts count ts)
  = (if (0 <? count)%Z then Nat.min (Z.to_nat count) (length ts)
     else length ts - Z.to_nat (- count)) /\
  (count = 0%Z -> get_thoughts count ts = ts) /\
  ((Z.of_nat (length ts) <= count)%Z -> get_thoughts count ts = ts).
Proof.
  unfold get_thoughts, slice_last.
  split; [|split; [|split]].
  - destruct (0 <? count)%Z; eexists; symmetry; apply firstn_skipn.
  - destruct (0 <? count)%Z; rewrite length_skipn; lia.
  - intros ->. reflexivity.
  - intros H. destruct (0 <? count)%Z eqn:E.
    + replace (length ts - Z.to_nat count) with 0 by lia. reflexivity.
    + apply Z.ltb_ge in E. replace (Z.to_nat (- count)) with 0 by lia. reflexivity.
Qed.

Lemma mark_absent thought_id ts :
  (forall t, In t ts -> id t <> thought_id) -> mark_thought_spoken thought_id ts = ts.
Proof.
  induction ts as [|t ts IH]; intros H; cbn; [reflexivity|].
  destruct (String.eqb (id t) thought_id) eqn:E.
  - apply String.eqb_eq in E. exfalso. exact (H t (or_introl eq_refl) E).
  - rewrite IH; [reflexivity|]. intros x Hx. apply H. right. exact Hx.
Qed.

(** X21. [mark_thought_spoken] changes nothing but [spoken] flags, and only
    from unset to set: ids, contents, categories, scores and times stay in
    place, a thought that was spoken stays spoken, at most one flag changes,
    marking twice is marking once, and an id that no thought carries leaves
    the buffer as it is. *)
Theorem marking_only_sets_a_flag thought_id ts :
  let marked := mark_thought_spoken thought_id ts in
  map (fun t => (id t, content t, category t, speak_score t, timestamp t, timestamp_epoch t))
      marked
  = map (fun t => (id t, content t, category t, speak_score t, timestamp t, timestamp_epoch t))
        ts /\
  Forall2 (fun t t' => spoken t = true -> spoken t' = true) ts marked /\
  (marked = ts \/
   exists before t after,
     ts = (before ++ t :: after)%list /\ id t = thought_id /\
     (forall x, In x before -> id x <> thought_id) /\
     marked = (before ++ set_spoken t :: after)%list) /\
  mark_thought_spoken thought_id marked = marked /\
  ((forall t, In t ts -> id t <> thought_id) -> marked = ts).
Proof.
  cbv zeta. split; [|split; [|split; [|split]]].
  - induction ts as [|t ts IH]; cbn; [reflexivity|].
    destruct (String.eqb (id t) thought_id); cbn; [reflexivity|]. rewrite IH. reflexivity.
  - induction ts as [|t ts IH]; cbn; [constructor|].
    destruct (String.eqb (id t) thought_id).
    + constructor; [reflexivity|]. clear. induction ts; constructor; auto.
    + constructor; [auto|exact IH].
  - induction ts as [|t ts IH]; cbn; [left; reflexivity|].
    destruct (String.eqb (id t) thought_id) eqn:E.
    + right. exists [], t, ts. apply String.eqb_eq in E.
      split; [reflexivity|]. split; [exact E|]. split; [intros x []|reflexivity].
    + destruct IH as [IH|(before & x & after & Hts & Hid & Hbefore & Hm)].
      * left. rewrite IH. reflexivity.
      * right. exists (t :: before), x, after. rewrite Hts at 1. rewrite Hm.
        split; [reflexivity|]. split; [exact Hid|]. split; [|reflexivity].
        intros y [<-|Hy]; [apply String.eqb_neq, E|apply Hbefore, Hy].
  - induction ts as [|t ts IH]; cbn; [reflexivity|].
    destruct (String.eqb (id t) thought_id) eqn:E; cbn; rewrite E; [reflexivity|].
    rewrite IH. reflexivity.
  - apply mark_absent.
Qed.

End BufferMoreFacts.

Lemma latest_thought_is_the_one_added_witness :
  ThoughtEngine.get_latest_thought
    (ThoughtEngine.get_thoughts 20
       (ThoughtEngine.arrive (fold_left ThoughtEngine.arrive Examples.arrivals_150 [])
                             Examples.door_arrival))
  = Some (ThoughtEngine.thought_of Examples.door_arrival).
Proof.
  apply (proj2 (proj2 (latest_thought_is_the_one_added
                         (ThoughtEngine.a_content Examples.door_arrival)
                         (ThoughtEngine.a_category Examples.door_arrival)
                         (ThoughtEngine.a_speak_score Examples.door_arrival)
                         (ThoughtEngine.a_clock Examples.door_arrival)
                         (fold_left ThoughtEngine.arrive Examples.arrivals_150 [])))).
  lia.
Defined.

Lemma get_thoughts_returns_a_suffix_witness :
  ThoughtEngine.get_thoughts 0
    (fold_left ThoughtEngine.arrive [Examples.door_arrival; Examples.window_arrival] [])
  = fold_left ThoughtEngine.arrive [Examples.door_arrival; Examples.window_arrival] [].
Proof.
  apply (proj1 (proj2 (proj2 (get_thoughts_returns_a_suffix 0
    (fold_left ThoughtEngine.arrive [Examples.door_arrival; Examples.window_arrival] []))))).
  reflexivity.
Defined.

Lemma marking_only_sets_a_flag_witness :
  ThoughtEngine.mark_thought_spoken "t_000000_100"
    (fold_left ThoughtEngine.arrive [Examples.door_arrival; Examples.window_arrival] [])
  = fold_left ThoughtEngine.arrive [Examples.door_arrival; Examples.window_arrival] [].
Proof.
  apply (proj2 (proj2 (proj2 (proj2 (marking_only_sets_a_flag "t_000000_100"
    (fold_left ThoughtEngine.arrive [Examples.door_arrival; Examples.window_arrival] [])))))).
  intros t Hin. vm_compute in Hin. destruct Hin as [<-|[<-|[]]]; discriminate.
Defined.

(** ** The free-talk loop: gating, throttling and failed speech *)

Section TalkMoreFacts.
Import ThoughtEngine FreeTalk.

Abbreviation TState := FreeTalk.State.
Abbreviation buffer := FreeTalk._THOUGHTS.
Abbreviation silent p := (forall best, p <> Spoke best).

(** X22. A thought is spoken only by a pass that found the loop neither
    paused nor told the user speaks, at least [min_interval] seconds after
    the last emission; the thought is unspoken, recent, scored above 0.5,
    not beaten by any other candidate, and has a text; the speaker, if there
    is one, returned.  The pass then marks by the id of the thought and
    stamps [_last_spoke] with the time after the speech. *)
Theorem spoken_thought_was_best_candidate env (s : TState) best :
  fst (talk_pass env s) = Spoke best ->
  let c := controller s in
  let cutoff := (now_filter env - inject_Z (min_interval c + 10))%Q in
  _paused c = false /\ _user_speaking c = false /\
  user_speaking_at_pick env = false /\
  (inject_Z (min_interval c) <= now_throttle env - _last_spoke c)%Q /\
  In best (buffer s) /\ speakable cutoff best = true /\
  (forall t, In t (buffer s) -> speakable cutoff t = true ->
             float_gt (speak_score t) (speak_score best) = false) /\
  content best <> EmptyString /\
  (speaker c = true -> speak_blocking env (content best) = Return tt) /\
  controller (snd (talk_pass env s)) = set_last_spoke (now_done env) c /\
  buffer (snd (talk_pass env s))
  = mark_thought_spoken (id best) (fold_left arrive (arrivals env) (buffer s)).
Proof.
  intros Hspoke c cutoff.
  assert (Hsel : selected (fst (talk_pass env s)) = Some best)
    by (rewrite Hspoke; reflexivity).
  destruct (selection_is_eligible_and_maximal env s Hsel)
    as (Hp & Hu & Hth & Hin & Hsp & Hrecent & Hscore & Hmax).
  fold c in Hp, Hu, Hth. fold cutoff in Hrecent, Hmax.
  split; [exact Hp|]. split; [exact Hu|].
  assert (Hrest : user_speaking_at_pick env = false /\ content best <> EmptyString /\
                  (speaker c = true -> speak_blocking env (content best) = Return tt) /\
                  controller (snd (talk_pass env s)) = set_last_spoke (now_done env) c /\
                  buffer (snd (talk_pass env s))
                  = mark_thought_spoken (id best)
                      (fold_left arrive (arrivals env) (buffer s))).
  { revert Hspoke. unfold talk_pass. fold c.
    destruct (_paused c || _user_speaking c); [discriminate|].
    destruct (Qltb _ _); [discriminate|].
    destruct (candidates env s) as [|first others]; [discriminate|].
    destruct (user_speaking_at_pick env); [discriminate|].
    destruct (content (max_from speak_score first others)) eqn:Econtent; [discriminate|].
    destruct (speaker c).
    - destruct (speak_blocking env _) as [[]|e] eqn:Espeak; [|discriminate].
      cbn [fst snd]. intros H. injection H as <-. rewrite Econtent.
      split; [reflexivity|]. split; [discriminate|].
      split; [intros _; exact Espeak|]. split; reflexivity.
    - cbn [fst snd]. intros H. injection H as <-. rewrite Econtent.
      split; [reflexivity|]. split; [discriminate|].
      split; [discriminate|]. split; reflexivity. }
  destruct Hrest as (Hpick & Hcontent & Hspeak & Hctl & Hbuf).
  split; [exact Hpick|]. split; [exact Hth|]. split; [exact Hin|].
  split.
  { unfold speakable. rewrite Hsp, Hscore. cbn [negb andb].
    rewrite andb_true_r, andb_true_r. unfold Qltb.
    apply negb_true_iff. destruct (Qle_bool (timestamp_epoch best) cutoff) eqn:E; [|reflexivity].
    apply Qle_bool_iff in E. exfalso. exact (Qlt_not_le _ _ Hrecent E). }
  split; [exact Hmax|]. split; [exact Hcontent|]. split; [exact Hspeak|].
  split; [exact Hctl|exact Hbuf].
Qed.

(** X23. [pause()] and [notify_user_speaking()] silence the loop: a pass
    that finds either flag set does nothing, whatever the buffer holds, and
    [resume()] does not clear the flag of the user (nor [notify_user_done()]
    the pause).  A pass that finds the user speaking when it has picked its
    thought speaks nothing and leaves controller and buffer as they were. *)
Theorem flags_silence_the_loop env (c : Controller) (ts : list Thought) :
  talk_pass env {| controller := pause c; _THOUGHTS := ts |}
  = (Suppressed, {| controller := pause c; _THOUGHTS := ts |}) /\
  talk_pass env {| controller := notify_user_speaking c; _THOUGHTS := ts |}
  = (Suppressed, {| controller := notify_user_speaking c; _THOUGHTS := ts |}) /\
  talk_pass env {| controller := resume (notify_user_speaking c); _THOUGHTS := ts |}
  = (Suppressed, {| controller := resume (notify_user_speaking c); _THOUGHTS := ts |}) /\
  talk_pass env {| controller := notify_user_done (pause c); _THOUGHTS := ts |}
  = (Suppressed, {| controller := notify_user_done (pause c); _THOUGHTS := ts |}) /\
  (user_speaking_at_pick env = true ->
   snd (talk_pass env {| controller := c; _THOUGHTS := ts |})
   = {| controller := c; _THOUGHTS := ts |} /\
   forall best e,
     fst (talk_pass env {| controller := c; _THOUGHTS := ts |}) <> Spoke best /\
     fst (talk_pass env {| controller := c; _THOUGHTS := ts |}) <> SpeechFailed best e).
Proof.
  split; [reflexivity|]. split.
  { unfold talk_pass. cbn. destruct (_paused c); reflexivity. }
  split; [reflexivity|]. split; [reflexivity|].
  intros Hpick. unfold talk_pass. cbn [controller FreeTalk._THOUGHTS].
  destruct (_paused c || _user_speaking c); [split; [reflexivity|split; discriminate]|].
  destruct (Qltb _ _); [split; [reflexivity|split; discriminate]|].
  destruct (candidates env _) as [|first others];
    [split; [reflexivity|split; discriminate]|].
  rewrite Hpick. split; [reflexivity|split; discriminate].
Qed.





(** X25. When the speaker raises, the pass gives up without marking the
    thought and without stamping [_last_spoke]: the controller is as before
    and the buffer only has what the engine added meanwhile.  So a later pass
    that is not gated and still finds the thought recent selects a thought
    again. *)
Theorem failed_speech_is_retried env (s : TState) best e :
  fst (talk_pass env s) = SpeechFailed best e ->
  let s' := snd (talk_pass env s) in
  controller s' = controller s /\
  buffer s' = fold_left arrive (arrivals env) (buffer s) /\
  speaker (controller s) = true /\
  speak_blocking env (content best) = Raise e /\
  In best (buffer s) /\ spoken best = false /\
  forall env',
    arrivals env = [] ->
    (inject_Z (min_interval (controller s)) <= now_throttle env' - _last_spoke (controller s))%Q ->
    (now_filter env' - inject_Z (min_interval (controller s) + 10) < timestamp_epoch best)%Q ->
    exists again, selected (fst (talk_pass env' s')) = Some again.
Proof.
  intros Hfail s'.
  assert (Hsel : selected (fst (talk_pass env s)) = Some best)
    by (rewrite Hfail; reflexivity).
  destruct (selection_is_eligible_and_maximal env s Hsel)
    as (Hp & Hu & Hth & Hin & Hsp & Hrecent & Hscore & Hmax).
  assert (Hshape : controller s' = controller s /\
                   buffer s' = fold_left arrive (arrivals env) (buffer s) /\
                   speaker (controller s) = true /\
                   speak_blocking env (content best) = Raise e).
  { subst s'. revert Hfail. unfold talk_pass.
    destruct (_paused _ || _user_speaking _); [discriminate|].
    destruct (Qltb _ _); [discriminate|].
    destruct (candidates env s) as [|first others]; [discriminate|].
    destruct (user_speaking_at_pick env); [discriminate|].
    destruct (content (max_from speak_score first others)) eqn:Econtent; [discriminate|].
    destruct (speaker (controller s)); [|discriminate].
    destruct (speak_blocking env _) as [u|e'] eqn:Espeak; [discriminate|].
    cbn [fst snd]. intros H. injection H as <- <-. rewrite Econtent.
    repeat split; auto. }
  destruct Hshape as (Hctl & Hbuf & Hspeaker & Hspeak).
  split; [exact Hctl|]. split; [exact Hbuf|]. split; [exact Hspeaker|].
  split; [exact Hspeak|]. split; [exact Hin|]. split; [exact Hsp|].
  intros env' Hnone Hth' Hrecent'.
  apply (@selection_when_eligible env' s' best).
  - rewrite Hctl. exact Hp.
  - rewrite Hctl. exact Hu.
  - rewrite Hctl. exact Hth'.
  - rewrite Hbuf, Hnone. exact Hin.
  - rewrite Hctl. unfold speakable. rewrite Hsp, Hscore. cbn [negb andb].
    rewrite andb_true_r, andb_true_r. unfold Qltb.
    apply negb_true_iff.
    destruct (Qle_bool (timestamp_epoch best) _) eqn:E; [|reflexivity].
    apply Qle_bool_iff in E. exfalso. exact (Qlt_not_le _ _ Hrecent' E).
Qed.

End TalkMoreFacts.

Lemma spoken_thought_was_best_candidate_witness :
  fst (FreeTalk.talk_pass (Examples.quiet_pass 1005)
         (Examples.talker [Examples.door_arrival; Examples.window_arrival]))
  = FreeTalk.Spoke (ThoughtEngine.thought_of Examples.door_arrival) /\
  FreeTalk._THOUGHTS
    (snd (FreeTalk.talk_pass (Examples.quiet_pass 1005)
            (Examples.talker [Examples.door_arrival; Examples.window_arrival])))
  = ThoughtEngine.mark_thought_spoken "t_120000_500"
      (FreeTalk._THOUGHTS (Examples.talker [Examples.door_arrival; Examples.window_arrival])).
Proof.
  assert (H : fst (FreeTalk.talk_pass (Examples.quiet_pass 1005)
                     (Examples.talker [Examples.door_arrival; Examples.window_arrival]))
              = FreeTalk.Spoke (ThoughtEngine.thought_of Examples.door_arrival))
    by (vm_compute; reflexivity).
  split; [exact H|].
  exact (proj2 (proj2 (proj2 (proj2 (proj2 (proj2 (proj2 (proj2 (proj2 (proj2
           (spoken_thought_was_best_candidate _ _ H))))))))))).
Defined.

Lemma flags_silence_the_loop_witness :
  FreeTalk.user_speaking_at_pick
    {| FreeTalk.now_throttle := 1005; FreeTalk.now_filter := 1005;
       FreeTalk.user_speaking_at_pick := true;
       FreeTalk.speak_blocking := fun _ => Return tt;
       FreeTalk.arrivals := []; FreeTalk.now_done := 1008 |} = true /\
  snd (FreeTalk.talk_pass
         {| FreeTalk.now_throttle := 1005; FreeTalk.now_filter := 1005;
            FreeTalk.user_speaking_at_pick := true;
            FreeTalk.speak_blocking := fun _ => Return tt;
            FreeTalk.arrivals := []; FreeTalk.now_done := 1008 |}
         (Examples.talker [Examples.door_arrival]))
  = Examples.talker [Examples.door_arrival].
Proof.
  split; [reflexivity|].
  exact (proj1 (proj2 (proj2 (proj2 (proj2
           (flags_silence_the_loop
              {| FreeTalk.now_throttle := 1005; FreeTalk.now_filter := 1005;
                 FreeTalk.user_speaking_at_pick := true;
                 FreeTalk.speak_blocking := fun _ => Return tt;
                 FreeTalk.arrivals := []; FreeTalk.now_done := 1008 |}
              (FreeTalk.FreeTalkController true 20)
              (fold_left ThoughtEngine.arrive [Examples.door_arrival] []))))) eq_refl)).
Defined.


Lemma failed_speech_is_retried_witness :
  fst (FreeTalk.talk_pass (MoreExamples.mute_pass 1005)
         (Examples.talker [Examples.door_arrival]))
  = FreeTalk.SpeechFailed (ThoughtEngine.thought_of Examples.door_arrival)
      (mkExn "RuntimeError" "audio device busy") /\
  exists again,
    FreeTalk.selected
      (fst (FreeTalk.talk_pass (Examples.quiet_pass 1010)
              (snd (FreeTalk.talk_pass (MoreExamples.mute_pass 1005)
                      (Examples.talker [Examples.door_arrival])))))
    = Some again.
Proof.
  assert (H : fst (FreeTalk.talk_pass (MoreExamples.mute_pass 1005)
                     (Examples.talker [Examples.door_arrival]))
              = FreeTalk.SpeechFailed (ThoughtEngine.thought_of Examples.door_arrival)
                  (mkExn "RuntimeError" "audio device busy"))
    by (vm_compute; reflexivity).
  split; [exact H|].
  apply (proj2 (proj2 (proj2 (proj2 (proj2 (proj2
           (failed_speech_is_retried _ _ H))))))).
  - reflexivity.
  - vm_compute. discriminate.
  - vm_compute. reflexivity.
Defined.

Lemma discovery_happens_once_witness :
  Skills._discovered Examples.two_skills = true /\
  Skills.discover [MoreExamples.clock_module] Examples.two_skills = Examples.two_skills /\
  Skills._SKILLS (snd (Skills.list_skills [MoreExamples.clock_module] Examples.two_skills))
  = Skills._SKILLS Examples.two_skills.
Proof.
  split; [reflexivity|].
  exact (proj2 (proj2 (proj2 (proj2
           (discovery_happens_once [MoreExamples.clock_module] Examples.two_skills))))
           eq_refl).
Defined.

Lemma stored_schema_is_completed_witness :
  dict_get "required" (Skills.stored_parameters (Some [("required", VList [])]))
  = Some (VList []).
Proof.
  exact (proj1 (proj2 (proj2 (stored_schema_is_completed (Some [("required", VList [])]))))
           [("required", VList [])] "required" (VList []) eq_refl eq_refl).
Defined.

(** ** The event bus: clearing *)

Section BusClearFacts.
Import EventBus.

Variable Task : Type.

(** X26. [clear()] forgets every subscription and every stored payload:
    afterwards [get_state] gives [None] for every topic and a publish starts
    no handler and logs nothing, while the payload it carries is stored as on
    a new bus.  Tasks that were started before stay with the loop. *)
Theorem clear_forgets_subscriptions_and_state (b : EventBus.Bus Task) :
  (forall topic, get_state topic (clear b) = None) /\
  get_all_state (clear b) = [] /\
  (forall topic, dict_get_default topic [] (_subscribers (clear b)) = []) /\
  forall topic data,
    let b' := snd (publish topic data (clear b)) in
    fst (publish topic data (clear b)) = Return tt /\
    loop_tasks b' = loop_tasks b /\ error_log b' = error_log b /\
    forall topic', get_state topic' b'
                   = if String.eqb topic' topic then Some data else None.
Proof.
  split; [reflexivity|]. split; [reflexivity|]. split; [reflexivity|].
  intros topic data b'. subst b'. rewrite publish_result. cbn.
  rewrite !app_nil_r. repeat split.
  intros topic'. unfold get_state. cbn. rewrite String.eqb_sym.
  destruct (String.eqb topic' topic); reflexivity.
Qed.

End BusClearFacts.

(** ** Speaking a streamed answer *)

Section ChunkFacts.
Import Main.

Variable py_strip : string -> string.

Abbreviation say := (Main.speak py_strip).
Abbreviation step := (Main.on_chunk py_strip).
(** A flushed piece of the response: the text before a boundary and the
    boundary; what is handed to the speaker for it. *)
Abbreviation raw := (fun piece : string * string => fst piece ++ snd piece).
Abbreviation spoken_form :=
  (fun piece : string * string => py_strip (fst piece ++ py_strip (snd piece))).

Lemma strip_prefix_sound p : forall s rest, strip_prefix p s = Some rest -> s = p ++ rest.
Proof.
  induction p as [|a p IH]; intros s rest H; cbn in H.
  - injection H as <-. reflexivity.
  - destruct s as [|b s]; [discriminate|].
    destruct (Ascii.eqb a b) eqn:E; [|discriminate].
    apply Ascii.eqb_eq in E. subst b. cbn. f_equal. apply IH, H.
Qed.

Lemma split_first_sound p : forall s before after,
  split_first p s = Some (before, after) -> s = before ++ p ++ after.
Proof.
  induction s as [|a s IH]; intros before after H; cbn in H.
  - destruct (strip_prefix p EmptyString) as [rest|] eqn:E; [|discriminate].
    injection H as <- <-. apply strip_prefix_sound in E. exact E.
  - destruct (strip_prefix p (String a s)) as [rest|] eqn:E.
    + injection H as <- <-. apply strip_prefix_sound in E. exact E.
    + destruct (split_first p s) as [[b a']|] eqn:E'; [|discriminate].
      injection H as <- <-. cbn. f_equal. apply IH. reflexivity.
Qed.

Lemma flush_at_sound ps : forall buffer spoken rest,
  flush_at py_strip ps buffer = Some (spoken, rest) ->
  exists piece, In (snd piece) ps /\ buffer = raw piece ++ rest /\
                spoken = spoken_form piece.
Proof.
  induction ps as [|p ps IH]; intros buffer spoken rest H; cbn in H; [discriminate|].
  destruct (split_first p buffer) as [[before after]|] eqn:E.
  - injection H as <- <-. exists (before, p). cbn [fst snd].
    split; [left; reflexivity|]. split; [|reflexivity].
    rewrite str_app_assoc. apply split_first_sound, E.
  - destruct (IH buffer spoken rest H) as (piece & Hin & Hbuf & Hsp).
    exists piece. split; [right; exact Hin|]. split; assumption.
Qed.

Lemma fold_full_response chunks : forall l,
  full_response (fold_left step chunks l)
  = fold_left (fun final chunk => final ++ chunk) chunks (full_response l).
Proof.
  induction chunks as [|chunk chunks IH]; intros l; [reflexivity|].
  cbn [fold_left]. rewrite IH. unfold on_chunk.
  destruct (flush_at _ _ _) as [[spoken rest]|]; reflexivity.
Qed.

Lemma fold_pieces chunks : forall l done,
  full_response l = done ++ sentence_buffer l ->
  exists pieces,
    full_response (fold_left step chunks l)
    = done ++ String.concat EmptyString (map raw pieces)
           ++ sentence_buffer (fold_left step chunks l) /\
    Forall (fun piece => In (snd piece) boundaries) pieces /\
    length pieces <= length chunks /\
    _speech_queue (fold_left step chunks l)
    = fold_left (fun queue text => say text queue) (map spoken_form pieces)
                (_speech_queue l).
Proof.
  induction chunks as [|chunk chunks IH]; intros l done Hl.
  - exists []. cbn. split; [exact Hl|]. split; [constructor|]. split; [lia|reflexivity].
  - cbn [fold_left].
    destruct (flush_at py_strip boundaries (sentence_buffer l ++ chunk))
      as [[spoken rest]|] eqn:E.
    + destruct (flush_at_sound _ _ E) as (piece & Hin & Hbuf & Hsp).
      destruct (IH (step l chunk) (done ++ raw piece)) as (pieces & Hfull & Hall & Hlen & Hq).
      { unfold on_chunk. rewrite E. cbn [full_response sentence_buffer].
        rewrite Hl, !str_app_assoc. f_equal. rewrite <- str_app_assoc. exact Hbuf. }
      exists (piece :: pieces). split; [|split; [|split]].
      * rewrite Hfull. cbn [map]. rewrite !str_app_assoc. f_equal.
        destruct pieces as [|q pieces]; cbn [String.concat map].
        -- rewrite !str_app_assoc. reflexivity.
        -- rewrite !str_app_assoc. reflexivity.
      * constructor; assumption.
      * cbn [length]. lia.
      * rewrite Hq. cbn [map fold_left]. unfold on_chunk. rewrite E.
        cbn [_speech_queue]. rewrite Hsp. reflexivity.
    + destruct (IH (step l chunk) done) as (pieces & Hfull & Hall & Hlen & Hq).
      { unfold on_chunk. rewrite E. cbn [full_response sentence_buffer].
        rewrite Hl, !str_app_assoc. reflexivity. }
      exists pieces. split; [exact Hfull|]. split; [exact Hall|]. split; [cbn [length]; lia|].
      rewrite Hq. unfold on_chunk. rewrite E. reflexivity.
Qed.

Lemma say_nothing queue : say EmptyString queue = queue.
Proof. reflexivity. Qed.

Lemma speak_chunks_pieces chunks queue :
  fst (speak_chunks py_strip chunks queue) = BrainStream.accumulate chunks /\
  exists pieces rest,
    BrainStream.accumulate chunks
    = String.concat EmptyString (map raw pieces) ++ rest /\
    Forall (fun piece => In (snd piece) boundaries) pieces /\
    length pieces <= length chunks /\
    snd (speak_chunks py_strip chunks queue)
    = fold_left (fun queue text => say text queue)
                (map spoken_form pieces ++ [py_strip rest])%list queue.
Proof.
  unfold speak_chunks. cbn [fst snd].
  set (l0 := {| sentence_buffer := EmptyString; full_response := EmptyString;
                _speech_queue := queue |}).
  split; [apply (fold_full_response chunks l0)|].
  destruct (fold_pieces chunks l0 EmptyString eq_refl) as (pieces & Hfull & Hall & Hlen & Hq).
  exists pieces, (sentence_buffer (fold_left step chunks l0)).
  split; [|split; [exact Hall|split; [exact Hlen|]]].
  - transitivity (full_response (fold_left step chunks l0));
      [symmetry; apply (fold_full_response chunks l0)|exact Hfull].
  - change (_speech_queue l0) with queue in Hq.
    rewrite fold_left_app. cbn [fold_left]. rewrite <- Hq.
    destruct (py_strip (sentence_buffer (fold_left step chunks l0))); reflexivity.
Qed.

Section WithBrain.

Variables W B : Type.
Variable py_repr : string -> string.
Variable running_loop : bool.
Variable future_repr : string.
Variable package : list (Skills.PyModule W).
Variable config : Brain.Config.
Variable skill_registry : bool.
Variable _chat : list Brain.Message -> list Brain.ToolDef -> B
                 -> outcome Brain.Response * B.
Variable get_user_context : W -> string.
Variable live_sensor_parts : W -> list string.
Variable _stream_dispatch : list Brain.Message -> B -> (list string * option exn) * B.

(** X27. [stream_and_speak] never raises and returns the chunks of
    [think_stream] joined, whatever is spoken.  What it queues for speech are
    consecutive pieces of that text, in order: each piece but the last ends at
    a boundary (". ", "! ", "? " or a newline) and is queued stripped, at most
    one piece per chunk, and what is left at the end is queued stripped; a
    piece that is empty once stripped is not queued.  Nothing of the text is
    skipped or spoken twice. *)
Theorem spoken_pieces_partition_the_response user_input
        (brain : Brain.State W B) (queue : list string) :
  exists chunks brain' pieces rest,
    BrainStream.think_stream py_repr running_loop future_repr package config
      skill_registry _chat get_user_context live_sensor_parts _stream_dispatch
      user_input brain = (Return tt, chunks, brain') /\
    Main.stream_and_speak py_strip py_repr running_loop future_repr package config
      skill_registry _chat get_user_context live_sensor_parts _stream_dispatch
      user_input (brain, queue)
    = (Return (String.concat EmptyString (map raw pieces) ++ rest),
       (brain',
        fold_left (fun queue text => say text queue)
                  (map spoken_form pieces ++ [py_strip rest])%list queue)) /\
    BrainStream.accumulate chunks
    = String.concat EmptyString (map raw pieces) ++ rest /\
    Forall (fun piece => In (snd piece) boundaries) pieces /\
    length pieces <= length chunks.
Proof.
  destruct (stream_turn_outcome py_repr running_loop future_repr package config
              skill_registry _chat get_user_context live_sensor_parts _stream_dispatch
              user_input brain) as (chunks & brain' & _ & Hstream & _).
  destruct (speak_chunks_pieces chunks queue)
    as (Hfull & pieces & rest & Hacc & Hall & Hlen & Hq).
  exists chunks, brain', pieces, rest.
  split; [exact Hstream|]. split; [|split; [exact Hacc|split; [exact Hall|exact Hlen]]].
  unfold stream_and_speak. rewrite Hstream.
  destruct (speak_chunks py_strip chunks queue) as [full queue'] eqn:E.
  cbn [fst snd] in Hfull, Hq. rewrite Hfull, Hacc, Hq. reflexivity.
Qed.

End WithBrain.
End ChunkFacts.

(** ** The self-healer *)

Section HealFacts.
Import SelfHeal.

Variables W B : Type.
Variable py_repr : string -> string.
Variable running_loop : bool.
Variable future_repr : string.
Variable package : list (Skills.PyModule W).
Variable config : Brain.Config.
Variable skill_registry : bool.
Variable _chat : list Brain.Message -> list Brain.ToolDef -> B
                 -> outcome Brain.Response * B.
Variable get_user_context : W -> string.
Variable live_sensor_parts : W -> list string.
Variable py_strip : string -> string.

Abbreviation Healer := (SelfHeal.SelfHealer W B).
Abbreviation ask_brain :=
  (Brain.think py_repr running_loop future_repr package config skill_registry _chat
               get_user_context live_sensor_parts).
Abbreviation fix_with_brain :=
  (SelfHeal._fix_with_brain py_repr running_loop future_repr package config
                            skill_registry _chat get_user_context live_sensor_parts).
Abbreviation attempt_fix :=
  (SelfHeal._attempt_fix py_repr running_loop future_repr package config
                         skill_registry _chat get_user_context live_sensor_parts py_strip).
Abbreviation heal :=
  (SelfHeal.heal_problem py_repr running_loop future_repr package config
                         skill_registry _chat get_user_context live_sensor_parts py_strip).
Abbreviation heal_all :=
  (SelfHeal.heal_pass py_repr running_loop future_repr package config
                      skill_registry _chat get_user_context live_sensor_parts py_strip).
Abbreviation log_fix := (SelfHeal._log_fix (W := W) (B := B)).
Abbreviation notify := (SelfHeal._notify_user (W := W) (B := B) py_strip).
(** The types with a fixer that runs external commands. *)
Abbreviation external problem :=
  (existsb (String.eqb (p_type problem))
           ["missing_module"; "ollama_down"; "port_conflict"; "connection_error"]).
Abbreviation severe problem :=
  (match p_severity problem with
   | Some severity => String.eqb severity "critical" || String.eqb severity "high"
   | None => false
   end).
Abbreviation notice problem :=
  ("Problem detected: " ++ p_type problem ++ ": "
     ++ str_prefix 100 (error_or EmptyString problem)).
Abbreviation logged env problem fixed :=
  ({| f_timestamp := now_log env; f_type := p_type problem;
      f_error := error_or EmptyString problem;
      f_status := if fixed : bool then "auto-fixed" else "unfixed" |}).

Lemma fix_with_brain_shape problem (h : Healer) :
  exists fixed h',
    fix_with_brain problem h = (Return fixed, h') /\
    _cooldown h' = _cooldown h /\ _fixes_applied h' = _fixes_applied h /\
    speaker h' = speaker h /\
    match brain h with
    | None => fixed = false /\ brain h' = None
    | Some br =>
        exists answer br',
          ask_brain (heal_prompt problem) br = (Return answer, br') /\
          fixed = Main.py_in "FIX_APPLIED" answer /\ brain h' = Some br'
    end.
Proof.
  unfold _fix_with_brain. destruct (brain h) as [br|] eqn:Ebr.
  - destruct (think_history_cases py_repr running_loop future_repr package config
                skill_registry _chat get_user_context live_sensor_parts
                (heal_prompt problem) br) as (answer & br' & Hthink & _).
    unfold try_except. rewrite Hthink.
    eexists. eexists. split; [reflexivity|]. cbn.
    repeat (split; [reflexivity|]). exists answer, br'. repeat split.
  - exists false, h. rewrite Ebr. repeat split.
Qed.

Lemma attempt_fix_shape env problem (h : Healer) :
  exists fixed h',
    attempt_fix env problem h = (Return tt, h') /\
    _cooldown h' = _cooldown h /\
    _fixes_applied h' = append (_fixes_applied h) (logged env problem fixed) /\
    speaker h'
    = match speaker h with
      | Some queue => if negb fixed && severe problem
                      then Some (Main.speak py_strip (notice problem) queue)
                      else Some queue
      | None => None
      end /\
    (external problem = true -> fixed = external_fix env /\ brain h' = brain h) /\
    (p_type problem = "sentinel_error" -> fixed = true /\ brain h' = brain h) /\
    (external problem = false -> p_type problem <> "sentinel_error" ->
     match brain h with
     | None => fixed = false /\ brain h' = None
     | Some br =>
         exists answer br',
           ask_brain (heal_prompt problem) br = (Return answer, br') /\
           fixed = Main.py_in "FIX_APPLIED" answer /\ brain h' = Some br'
     end).
Proof.
  assert (Hrest : forall (fixed : bool) (h1 : Healer),
    exists h',
      (log_fix problem (if fixed then "auto-fixed" else "unfixed") (now_log env) ;;;
       if fixed then ret tt else notify problem) h1 = (Return tt, h') /\
      _cooldown h' = _cooldown h1 /\
      _fixes_applied h' = append (_fixes_applied h1) (logged env problem fixed) /\
      speaker h'
      = match speaker h1 with
        | Some queue => if negb fixed && severe problem
                        then Some (Main.speak py_strip (notice problem) queue)
                        else Some queue
        | None => None
        end /\
      brain h' = brain h1).
  { intros fixed h1. unfold bind, _log_fix, modify. destruct fixed.
    - eexists. split; [reflexivity|]. cbn. destruct (speaker h1); auto.
    - unfold _notify_user. cbn [speaker set_fixes_applied].
      destruct (speaker h1) as [queue|] eqn:Esp.
      + destruct (severe problem) eqn:Esev.
        * eexists. split; [reflexivity|]. cbn. auto.
        * eexists. split; [reflexivity|]. cbn. rewrite Esp. auto.
      + eexists. split; [reflexivity|]. cbn. rewrite Esp. auto. }
  assert (Hconst : forall fixed : bool,
    exists h',
      (fixed' <- ret fixed ;;
       log_fix problem (if fixed' : bool then "auto-fixed" else "unfixed") (now_log env) ;;;
       if fixed' then ret tt else notify problem) h = (Return tt, h') /\
      _cooldown h' = _cooldown h /\
      _fixes_applied h' = append (_fixes_applied h) (logged env problem fixed) /\
      speaker h'
      = match speaker h with
        | Some queue => if negb fixed && severe problem
                        then Some (Main.speak py_strip (notice problem) queue)
                        else Some queue
        | None => None
        end /\
      brain h' = brain h).
  { intros fixed. exact (Hrest fixed h). }
  unfold _attempt_fix. cbn [existsb].
  destruct (String.eqb (p_type problem) "missing_module") eqn:E1.
  { destruct (Hconst (external_fix env)) as (h' & Hrun & Hc & Hf & Hs & Hb).
    exists (external_fix env), h'.
    split; [exact Hrun|]. split; [exact Hc|]. split; [exact Hf|]. split; [exact Hs|].
    split; [intros _; split; [reflexivity|exact Hb]|].
    split; [intros Ht; rewrite Ht in E1; discriminate|].
    intros Hne. cbn in Hne. discriminate Hne. }
  destruct (String.eqb (p_type problem) "ollama_down") eqn:E2.
  { destruct (Hconst (external_fix env)) as (h' & Hrun & Hc & Hf & Hs & Hb).
    exists (external_fix env), h'.
    split; [exact Hrun|]. split; [exact Hc|]. split; [exact Hf|]. split; [exact Hs|].
    split; [intros _; split; [reflexivity|exact Hb]|].
    split; [intros Ht; rewrite Ht in E2; discriminate|].
    intros Hne. cbn in Hne. discriminate Hne. }
  destruct (String.eqb (p_type problem) "port_conflict") eqn:E3.
  { destruct (Hconst (external_fix env)) as (h' & Hrun & Hc & Hf & Hs & Hb).
    exists (external_fix env), h'.
    split; [exact Hrun|]. split; [exact Hc|]. split; [exact Hf|]. split; [exact Hs|].
    split; [intros _; split; [reflexivity|exact Hb]|].
    split; [intros Ht; rewrite Ht in E3; discriminate|].
    intros Hne. cbn in Hne. discriminate Hne. }
  destruct (String.eqb (p_type problem) "connection_error") eqn:E4.
  { destruct (Hconst (external_fix env)) as (h' & Hrun & Hc & Hf & Hs & Hb).
    exists (external_fix env), h'.
    split; [exact Hrun|]. split; [exact Hc|]. split; [exact Hf|]. split; [exact Hs|].
    split; [intros _; split; [reflexivity|exact Hb]|].
    split; [intros Ht; rewrite Ht in E4; discriminate|].
    intros Hne. cbn in Hne. discriminate Hne. }
  destruct (String.eqb (p_type problem) "sentinel_error") eqn:E5.
  { destruct (Hconst true) as (h' & Hrun & Hc & Hf & Hs & Hb).
    exists true, h'.
    split; [exact Hrun|]. split; [exact Hc|]. split; [exact Hf|]. split; [exact Hs|].
    split; [intros Hne; cbn in Hne; discriminate Hne|].
    split; [intros _; split; [reflexivity|exact Hb]|].
    intros _ Hne. apply String.eqb_eq in E5. contradiction. }
  destruct (fix_with_brain_shape problem h) as (fixed & h1 & Hfix & Hc1 & Hf1 & Hs1 & Hb1).
  destruct (Hrest fixed h1) as (h' & Hrun & Hc & Hf & Hs & Hb).
  exists fixed, h'. split.
  { unfold bind at 1. rewrite Hfix. exact Hrun. }
  split; [rewrite Hc; exact Hc1|]. split; [rewrite Hf, Hf1; reflexivity|].
  split; [rewrite Hs, Hs1; reflexivity|]. cbn [orb]. split; [discriminate|].
  split; [intros Ht; rewrite Ht in E5; discriminate|].
  intros _ _. rewrite Hb. exact Hb1.
Qed.

(** X28. An attempt logs exactly one entry, with the status "auto-fixed"
    or "unfixed", and never raises.  The user is told only of a problem that
    stayed unfixed, has severity "critical" or "high", and only when a speaker
    was given; the notice carries at most 100 characters of the error.  A
    "sentinel_error" counts as fixed without anything being done, and for the
    four types with a fixer of their own the brain is not consulted. *)
Theorem attempt_logs_once_and_tells_only_unfixed_severe env problem (h : Healer) :
  exists fixed h',
    attempt_fix env problem h = (Return tt, h') /\
    _cooldown h' = _cooldown h /\
    _fixes_applied h' = append (_fixes_applied h) (logged env problem fixed) /\
    speaker h'
    = match speaker h with
      | Some queue => if negb fixed && severe problem
                      then Some (Main.speak py_strip (notice problem) queue)
                      else Some queue
      | None => None
      end /\
    (external problem = true -> fixed = external_fix env /\ brain h' = brain h) /\
    (p_type problem = "sentinel_error" -> fixed = true /\ brain h' = brain h) /\
    (brain h = None -> external problem = false -> p_type problem <> "sentinel_error" ->
     fixed = false /\ brain h' = None).
Proof.
  destruct (attempt_fix_shape env problem h)
    as (fixed & h' & Hrun & Hc & Hf & Hs & Hext & Hsent & Hbrain).
  exists fixed, h'.
  split; [exact Hrun|]. split; [exact Hc|]. split; [exact Hf|]. split; [exact Hs|].
  split; [exact Hext|]. split; [exact Hsent|].
  intros Hnone Hne Hns. specialize (Hbrain Hne Hns). rewrite Hnone in Hbrain.
  exact Hbrain.
Qed.

Lemma heal_shape problem env (h : Healer) :
  let key := err_key problem in
  exists h',
    heal (problem, env) h = (Return tt, h') /\
    (forall k, k <> key -> dict_get k (_cooldown h') = dict_get k (_cooldown h)) /\
    if Qltb (now_check env - dict_get_default key 0%Q (_cooldown h)) 300
    then h' = h
    else dict_get key (_cooldown h') = Some (now_stamp env) /\
         length (_fixes_applied h') = S (length (_fixes_applied h)).
Proof.
  intros key. unfold heal_problem. fold key.
  destruct (Qltb _ _).
  - exists h. repeat split.
  - destruct (attempt_fix_shape env problem
                (set_cooldown (dict_set key (now_stamp env) (_cooldown h)) h))
      as (fixed & h' & Hrun & Hc & Hf & _).
    exists h'. unfold try_except. rewrite Hrun. split; [reflexivity|].
    rewrite Hc, Hf. cbn [_cooldown _fixes_applied set_cooldown]. split.
    + intros k Hk. apply dict_get_set_other, Hk.
    + split; [apply dict_get_set_same|]. unfold append. rewrite length_app. cbn. lia.
Qed.

Lemma heal_all_other_keys key items : forall h : Healer,
  (forall item, In item items -> err_key (fst item) <> key) ->
  exists h',
    heal_all items h = (Return tt, h') /\
    dict_get key (_cooldown h') = dict_get key (_cooldown h).
Proof.
  induction items as [|[problem env] items IH]; intros h Hkeys.
  - exists h. split; reflexivity.
  - destruct (heal_shape problem env h) as (h1 & Hrun & Hother & _).
    destruct (IH h1) as (h' & Hrest & Hkey).
    { intros item Hin. apply Hkeys. right. exact Hin. }
    exists h'. split.
    + unfold heal_pass. cbn [for_each]. unfold bind. rewrite Hrun. exact Hrest.
    + rewrite Hkey. apply Hother. intros E.
      apply (Hkeys (problem, env) (or_introl eq_refl)). symmetry. exact E.
Qed.

(** X29. The cooldown: once a problem has been attempted, a problem with
    the same key (its type and the first 60 characters of its error) that is
    checked less than 300 seconds after the stamp of that attempt is skipped,
    with no fix attempted, nothing logged and nothing said, whatever problems
    with other keys were handled in between.  A key never seen counts as
    attempted at time 0. *)
Theorem cooldown_skips_repeated_errors problem env others problem' env' (h : Healer) :
  Qltb (now_check env - dict_get_default (err_key problem) 0%Q (_cooldown h)) 300 = false ->
  (forall item, In item others -> err_key (fst item) <> err_key problem) ->
  err_key problem' = err_key problem ->
  (now_check env' - now_stamp env < 300)%Q ->
  let h1 := snd (heal_all ((problem, env) :: others) h) in
  fst (heal_all ((problem, env) :: others) h) = Return tt /\
  dict_get (err_key problem) (_cooldown h1) = Some (now_stamp env) /\
  heal (problem', env') h1 = (Return tt, h1) /\
  heal_all (((problem, env) :: others) ++ [(problem', env')])%list h = (Return tt, h1).
Proof.
  intros Hfirst Hothers Hkey Hsoon h1. subst h1.
  destruct (heal_shape problem env h) as (h0 & Hrun & _ & Hcase).
  rewrite Hfirst in Hcase. destruct Hcase as [Hstamp _].
  destruct (heal_all_other_keys others h0 Hothers)
    as (h1 & Hrest & Hkeep).
  assert (Hpass : heal_all ((problem, env) :: others) h = (Return tt, h1)).
  { unfold heal_pass. cbn [for_each]. unfold bind. rewrite Hrun. exact Hrest. }
  rewrite Hpass. cbn [fst snd].
  assert (Hskip : heal (problem', env') h1 = (Return tt, h1)).
  { unfold heal_problem. rewrite Hkey. unfold dict_get_default.
    rewrite Hkeep, Hstamp.
    replace (Qltb (now_check env' - now_stamp env) 300) with true; [reflexivity|].
    symmetry. apply Qltb_lt. exact Hsoon. }
  split; [reflexivity|]. split; [rewrite Hkeep; exact Hstamp|]. split; [exact Hskip|].
  unfold heal_pass. rewrite <- app_comm_cons. cbn [for_each]. unfold bind at 1.
  rewrite Hrun.
  assert (Happ : forall items (s : Healer) s',
             heal_all items s = (Return tt, s') ->
             for_each (items ++ [(problem', env')])%list heal s
             = heal (problem', env') s').
  { induction items as [|item items IH]; intros s s' H.
    - cbn in H. injection H as <-. cbn [app for_each]. unfold bind.
      destruct (heal (problem', env') s) as [[[]|e] s2]; reflexivity.
    - unfold heal_pass in H. cbn [for_each] in H. unfold bind in H.
      cbn [app for_each]. unfold bind at 1.
      destruct (heal item s) as [[[]|e] s2]; [|discriminate].
      apply IH. exact H. }
  rewrite (Happ others h0 h1 Hrest). exact Hskip.
Qed.

Lemma strip_prefix_app p : forall rest, Main.strip_prefix p (p ++ rest) = Some rest.
Proof.
  induction p as [|a p IH]; intros rest; cbn; [reflexivity|].
  rewrite Ascii.eqb_refl. apply IH.
Qed.

Lemma py_in_intro needle pre : forall post,
  Main.py_in needle (pre ++ needle ++ post) = true.
Proof.
  unfold Main.py_in. induction pre as [|a pre IH]; intros post.
  - cbn [String.append]. destruct needle as [|b needle].
    + destruct post; reflexivity.
    + pose proof (strip_prefix_app (String b needle) post) as H.
      cbn [String.append] in H |- *. cbn [Main.split_first]. rewrite H. reflexivity.
  - cbn [String.append Main.split_first].
    destruct (Main.strip_prefix needle (String a (pre ++ needle ++ post))); [reflexivity|].
    specialize (IH post).
    destruct (Main.split_first needle (pre ++ needle ++ post)) as [[b a']|];
      [reflexivity|discriminate].
Qed.

Lemma py_in_app_r needle a b : Main.py_in needle b = true -> Main.py_in needle (a ++ b) = true.
Proof.
  unfold Main.py_in at 1.
  destruct (Main.split_first needle b) as [[pre post]|] eqn:E; [|discriminate].
  intros _. apply split_first_sound in E. rewrite E, <- str_app_assoc.
  apply py_in_intro.
Qed.

(** X30. For a problem of any other type the verdict is a substring test
    on the answer of [Brain.think] to the healing prompt: every answer that
    contains FIX_APPLIED counts as a fix, and the prompt itself contains it,
    so an answer that repeats the instruction counts.  The prompt goes through
    [think] like a user turn: with [max_history >= 1] it is in the history of
    the brain afterwards as a user message. *)
Theorem brain_verdict_is_a_substring_test env problem (h : Healer) br :
  brain h = Some br ->
  external problem = false ->
  p_type problem <> "sentinel_error" ->
  (1 <= Brain.max_history config)%Z ->
  exists answer br' h',
    ask_brain (heal_prompt problem) br = (Return answer, br') /\
    attempt_fix env problem h = (Return tt, h') /\
    brain h' = Some br' /\
    _fixes_applied h'
    = append (_fixes_applied h)
             (logged env problem (Main.py_in "FIX_APPLIED" answer)) /\
    (forall pre post, answer = pre ++ "FIX_APPLIED" ++ post ->
                      Main.py_in "FIX_APPLIED" answer = true) /\
    Main.py_in "FIX_APPLIED" (heal_prompt problem) = true /\
    In {| Brain.role := "user"; Brain.content := heal_prompt problem |}
       (Brain.conversation_history br').
Proof.
  intros Hbr Hext Htype Hm.
  destruct (attempt_fix_shape env problem h)
    as (fixed & h' & Hrun & _ & Hf & _ & _ & _ & Hbrain).
  specialize (Hbrain Hext Htype). rewrite Hbr in Hbrain.
  destruct Hbrain as (answer & br' & Hthink & Hfixed & Hb').
  exists answer, br', h'. split; [exact Hthink|]. split; [exact Hrun|].
  split; [exact Hb'|]. split; [rewrite Hf, Hfixed; reflexivity|].
  split; [intros pre post ->; apply py_in_intro|]. split.
  - unfold heal_prompt. do 10 apply py_in_app_r. reflexivity.
  - destruct (think_history_cases py_repr running_loop future_repr package config
                skill_registry _chat get_user_context live_sensor_parts
                (heal_prompt problem) br) as (answer0 & br0 & Hthink0 & Hhist).
    rewrite Hthink in Hthink0. injection Hthink0 as <- <-.
    destruct Hhist as [Hh|Hh]; rewrite Hh.
    + unfold append. apply in_or_app. right. left. reflexivity.
    + destruct (trimmed_window config (Brain.conversation_history br)
                  [ {| Brain.role := "user"; Brain.content := heal_prompt problem |};
                    {| Brain.role := "assistant"; Brain.content := answer |} ])
        as (dropped & kept & _ & Htrim & _); [cbn; lia|lia|].
      rewrite Htrim. apply in_or_app. right. left. reflexivity.
Qed.

End HealFacts.

Lemma attempt_logs_once_and_tells_only_unfixed_severe_witness :
  exists fixed h',
    MoreExamples.attempt_fix (MoreExamples.check_at 1000) MoreExamples.camera_problem
      (MoreExamples.healer []) = (Return tt, h') /\
    fixed = true /\
    SelfHeal.brain h' = SelfHeal.brain (MoreExamples.healer []) /\
    SelfHeal.speaker h' = Some [].
Proof.
  destruct (attempt_logs_once_and_tells_only_unfixed_severe
              Examples.quote false EmptyString [] MoreExamples.small_config true
              Examples.scripted (fun _ : unit => EmptyString) (fun _ : unit => [])
              Examples.strip (MoreExamples.check_at 1000) MoreExamples.camera_problem
              (MoreExamples.healer []))
    as (fixed & h' & Hrun & _ & _ & Hs & _ & Hsent & _).
  destruct (Hsent eq_refl) as [Hfixed Hbrain].
  exists fixed, h'. split; [exact Hrun|]. split; [exact Hfixed|]. split; [exact Hbrain|].
  rewrite Hs, Hfixed. reflexivity.
Defined.

Lemma cooldown_skips_repeated_errors_witness :
  SelfHeal.heal_problem Examples.quote false EmptyString [] MoreExamples.small_config true
    Examples.scripted (fun _ : unit => EmptyString) (fun _ : unit => []) Examples.strip
    (MoreExamples.ollama_problem, MoreExamples.check_at 1030)
    (snd (MoreExamples.heal_pass
            [(MoreExamples.ollama_problem, MoreExamples.check_at 1000);
             (MoreExamples.camera_problem, MoreExamples.check_at 1001)]
            (MoreExamples.healer [])))
  = (Return tt,
     snd (MoreExamples.heal_pass
            [(MoreExamples.ollama_problem, MoreExamples.check_at 1000);
             (MoreExamples.camera_problem, MoreExamples.check_at 1001)]
            (MoreExamples.healer []))).
Proof.
  apply (cooldown_skips_repeated_errors
           Examples.quote false EmptyString [] MoreExamples.small_config true
           Examples.scripted (fun _ : unit => EmptyString) (fun _ : unit => [])
           Examples.strip
           MoreExamples.ollama_problem (MoreExamples.check_at 1000)
           [(MoreExamples.camera_problem, MoreExamples.check_at 1001)]
           MoreExamples.ollama_problem (MoreExamples.check_at 1030)
           (MoreExamples.healer [])).
  - vm_compute. reflexivity.
  - intros item [<-|[]]. vm_compute. discriminate.
  - reflexivity.
  - vm_compute. reflexivity.
Defined.

Lemma brain_verdict_is_a_substring_test_witness :
  exists h',
    MoreExamples.attempt_fix (MoreExamples.check_at 1031) MoreExamples.memory_problem
      (MoreExamples.healer [Return MoreExamples.echo_reply]) = (Return tt, h') /\
    map SelfHeal.f_status (SelfHeal._fixes_applied h') = ["auto-fixed"].
Proof.
  destruct (brain_verdict_is_a_substring_test
              Examples.quote false EmptyString [] MoreExamples.small_config true
              Examples.scripted (fun _ : unit => EmptyString) (fun _ : unit => [])
              Examples.strip (MoreExamples.check_at 1031) MoreExamples.memory_problem
              (MoreExamples.healer [Return MoreExamples.echo_reply])
              (br := Examples.fresh_brain [Return MoreExamples.echo_reply]))
    as (answer & br' & h' & Hthink & Hrun & _ & Hfixes & _).
  - reflexivity.
  - reflexivity.
  - discriminate.
  - cbn. lia.
  - exists h'. split; [exact Hrun|]. rewrite Hfixes.
    assert (Hanswer : answer = "I will state 'FIX_APPLIED' if fixed.")
      by (vm_compute in Hthink; congruence).
    subst answer. reflexivity.
Defined.
